(** * Page-quality checks of M-E-U-E/dummy: a shallow embedding

    Each script of the repository drives a Selenium browser session, reads a
    few facts off the loaded page and turns them into rows of a report.  The
    embedding keeps that shape:

    - Python strings, ints, [None] and the row dictionaries are modelled in
      [Py];
    - exceptions and the browser session are a state-and-exception monad over
      an abstract driver ([Selenium]); a check that has no [try] propagates a
      raised exception to its caller exactly as the script does;
    - the retrying HTTP session built by [URL_Status_Code_Test.py] is the
      [Retry] configuration of the script interpreted by a model of the
      [requests]/[urllib3] calls it makes ([Requests]);
    - one module per script holds the check itself. *)

From Stdlib Require Import String Ascii List ZArith Lia Bool DecimalString.
From Stdlib Require Import Permutation.
From Equations Require Import Equations.
From Equations.Prop Require Import Logic.
Import ListNotations.
Open Scope list_scope.
Open Scope string_scope.

(* ================================================================== *)
(** ** Python values *)
(* ================================================================== *)

Module Py.

(** The values stored in the report rows: [None], a [str] or an [int]. *)
Inductive pyval : Type :=
| VNone
| VStr (s : string)
| VInt (z : Z).

Definition pyval_eqb (a b : pyval) : bool :=
  match a, b with
  | VNone, VNone => true
  | VStr s, VStr t => String.eqb s t
  | VInt x, VInt y => Z.eqb x y
  | _, _ => false
  end.

(** A row is a [dict] with string keys; insertion order is the column
    order of the saved sheet, so it is kept. *)
Definition dict : Type := list (string * pyval).

Fixpoint dict_get (k : string) (d : dict) : option pyval :=
  match d with
  | [] => None
  | (k', v) :: d' => if String.eqb k k' then Some v else dict_get k d'
  end.

(** [d[k] = v]: an existing key keeps its position. *)
Fixpoint dict_set (k : string) (v : pyval) (d : dict) : dict :=
  match d with
  | [] => [(k, v)]
  | (k', v') :: d' =>
      if String.eqb k k' then (k', v) :: d' else (k', v') :: dict_set k v d'
  end.

(** Truthiness of an attribute value: [None] and [""] are falsy. *)
Definition truthy (o : option string) : bool :=
  match o with
  | None => false
  | Some s => negb (String.eqb s "")
  end.

(** [x if x else d] for an attribute value [x]. *)
Definition if_else (x : option string) (d : string) : string :=
  match x with
  | Some s => if truthy x then s else d
  | None => d
  end.

(** [str(n)] for an [int]. *)
Definition str_int (z : Z) : string := NilZero.string_of_int (Z.to_int z).

(** [", ".join(l)] *)
Fixpoint join (sep : string) (l : list string) : string :=
  match l with
  | [] => ""
  | [x] => x
  | x :: rest => x ++ sep ++ join sep rest
  end.

(** [str(l)] for a list of ints, e.g. ["[1, 3, 2]"]. *)
Definition str_list_int (l : list Z) : string :=
  "[" ++ join ", " (map str_int l) ++ "]".

(** [sub in s]; on UTF-8 text a search by bytes finds what a search by
    characters finds, and so for [startswith] and the split at a space. *)
Fixpoint contains (sub s : string) : bool :=
  prefix sub s ||
  match s with
  | EmptyString => false
  | String _ s' => contains sub s'
  end.

(** [s.startswith(p)] *)
Definition startswith (s p : string) : bool := prefix p s.

Definition upper_ascii (c : ascii) : ascii :=
  let n := nat_of_ascii c in
  if andb (Nat.leb 97 n) (Nat.leb n 122) then ascii_of_nat (n - 32) else c.

Definition lower_ascii (c : ascii) : ascii :=
  let n := nat_of_ascii c in
  if andb (Nat.leb 65 n) (Nat.leb n 90) then ascii_of_nat (n + 32) else c.

Fixpoint map_string (f : ascii -> ascii) (s : string) : string :=
  match s with
  | EmptyString => EmptyString
  | String c s' => String (f c) (map_string f s')
  end.

(** [s.upper()] and [s.lower()] on ASCII text. *)
Definition upper : string -> string := map_string upper_ascii.
Definition lower : string -> string := map_string lower_ascii.

(** A [str] is kept as the bytes of its UTF-8 encoding.  A character is a
    byte that continues no other one, together with the continuation bytes
    ([10xxxxxx]) that follow it. *)
Definition is_continuation (c : ascii) : bool :=
  let n := nat_of_ascii c in andb (Nat.leb 128 n) (Nat.ltb n 192).

(** [s] goes on with a continuation byte. *)
Definition continues (s : string) : bool :=
  match s with
  | EmptyString => false
  | String d _ => is_continuation d
  end.

(** The characters of [s], each one as its bytes. *)
Fixpoint chars (s : string) : list string :=
  match s with
  | EmptyString => []
  | String c s' =>
      if continues s'
      then match chars s' with
           | ch :: rest => String c ch :: rest
           | [] => [String c EmptyString]
           end
      else String c EmptyString :: chars s'
  end.

(** [len(s)]: the number of characters. *)
Definition len (s : string) : nat := length (chars s).

(** [""] joined with the strings of [l]. *)
Fixpoint cat (l : list string) : string :=
  match l with
  | [] => EmptyString
  | x :: rest => x ++ cat rest
  end.

(** [ord(ch)] for a character given by its bytes: one to four bytes with
    the lead byte of that length; [None] for other byte sequences. *)
Definition code_point (ch : string) : option N :=
  match map N_of_ascii (list_ascii_of_string ch) with
  | [a] => if (a <? 128)%N then Some a else None
  | [a; b] =>
      if ((192 <=? a) && (a <? 224))%N
      then Some ((a - 192) * 64 + (b - 128))%N else None
  | [a; b; c] =>
      if ((224 <=? a) && (a <? 240))%N
      then Some ((a - 224) * 4096 + (b - 128) * 64 + (c - 128))%N else None
  | [a; b; c; d] =>
      if ((240 <=? a) && (a <? 248))%N
      then Some ((a - 240) * 262144 + (b - 128) * 4096
                 + (c - 128) * 64 + (d - 128))%N
      else None
  | _ => None
  end.

(** [chr(cp).isspace()]: U+0009..U+000D, U+001C..U+0020, U+0085, U+00A0,
    U+1680, U+2000..U+200A, U+2028, U+2029, U+202F, U+205F and U+3000. *)
Definition isspace (cp : N) : bool :=
  ((9 <=? cp) && (cp <=? 13) || (28 <=? cp) && (cp <=? 32)
   || (cp =? 133) || (cp =? 160) || (cp =? 5760)
   || (8192 <=? cp) && (cp <=? 8202)
   || (cp =? 8232) || (cp =? 8233) || (cp =? 8239) || (cp =? 8287)
   || (cp =? 12288))%N.

(** A white-space character, as [str.strip()] understands it. *)
Definition is_space (ch : string) : bool :=
  match code_point ch with
  | Some cp => isspace cp
  | None => false
  end.

(** The characters left when the leading white space is dropped. *)
Fixpoint lstrip (l : list string) : list string :=
  match l with
  | [] => []
  | ch :: l' => if is_space ch then lstrip l' else l
  end.

(** The same at the other end. *)
Definition rstrip (l : list string) : list string := rev (lstrip (rev l)).

(** [s.strip()] *)
Definition strip (s : string) : string := cat (rstrip (lstrip (chars s))).

(** [s.split(" ")[0]]: the text before the first space (all of [s] when it
    has none; [split] with an explicit separator never returns an empty
    list). *)
Fixpoint split_space_head (s : string) : string :=
  match s with
  | EmptyString => EmptyString
  | String c s' =>
      if Ascii.eqb c " "%char then EmptyString else String c (split_space_head s')
  end.

(** [int(c)] for a one-character string: a decimal digit or [ValueError]. *)
Definition int_of_char (c : ascii) : option Z :=
  let n := nat_of_ascii c in
  if andb (Nat.leb 48 n) (Nat.leb n 57) then Some (Z.of_nat (n - 48)) else None.

End Py.

(* ================================================================== *)
(** ** Exceptions and the browser session *)
(* ================================================================== *)

Module Selenium.

(** A raised [Exception]: its class name and [str(e)].  Only subclasses of
    [Exception] are modelled ([KeyboardInterrupt] is handled by the
    [__main__] guard of every script and is no fault of a check). *)
Record exn : Type := Exception { exc_class : string; exc_str : string }.

Inductive outcome (A : Type) : Type :=
| Ok (a : A)
| Raise (e : exn).
Arguments Ok {A} a.
Arguments Raise {A} e.

(** Locator strategies used by the scripts. *)
Inductive By : Type := TAG_NAME | XPATH | ID | CSS_SELECTOR | CLASS_NAME.

Section Monad.
Context {W : Type}.

(** A computation over the browser state [W] that returns or raises. *)
Definition M (A : Type) : Type := W -> outcome A * W.

Definition ret {A} (a : A) : M A := fun w => (Ok a, w).

Definition raise {A} (e : exn) : M A := fun w => (Raise e, w).

Definition bind {A B} (m : M A) (k : A -> M B) : M B :=
  fun w =>
    match m w with
    | (Ok a, w') => k a w'
    | (Raise e, w') => (Raise e, w')
    end.

(** [try: body  except Exception as e: handler e] *)
Definition try_except {A} (body : M A) (handler : exn -> M A) : M A :=
  fun w =>
    match body w with
    | (Ok a, w') => (Ok a, w')
    | (Raise e, w') => handler e w'
    end.

(** [[f(x) for x in l]] *)
Fixpoint mapM {A B} (f : A -> M B) (l : list A) : M (list B) :=
  match l with
  | [] => ret []
  | x :: l' =>
      bind (f x) (fun y => bind (mapM f l') (fun ys => ret (y :: ys)))
  end.

(** [[f(x) for x in l if c(x)]] *)
Fixpoint mapM_if {A B} (c : A -> M bool) (f : A -> M B) (l : list A)
  : M (list B) :=
  match l with
  | [] => ret []
  | x :: l' =>
      bind (c x) (fun b =>
        if b
        then bind (f x) (fun y =>
               bind (mapM_if c f l') (fun ys => ret (y :: ys)))
        else mapM_if c f l')
  end.

(** [all(c(x) for x in l)]: stops at the first falsy element. *)
Fixpoint allM {A} (c : A -> M bool) (l : list A) : M bool :=
  match l with
  | [] => ret true
  | x :: l' => bind (c x) (fun b => if b then allM c l' else ret false)
  end.

(** [next((x for x in l if c(x)), None)] *)
Fixpoint nextM {A} (c : A -> M bool) (l : list A) : M (option A) :=
  match l with
  | [] => ret None
  | x :: l' => bind (c x) (fun b => if b then ret (Some x) else nextM c l')
  end.

(** A [for] loop that threads an accumulator. *)
Fixpoint foldM {A S} (body : A -> S -> M S) (l : list A) (s : S) : M S :=
  match l with
  | [] => ret s
  | x :: l' => bind (body x s) (fun s' => foldM body l' s')
  end.

End Monad.
Arguments M W A : clear implicits.

(** The part of the WebDriver API the scripts call.  [E] is the type of
    element handles.  Every call may raise. *)
Record WebDriver (W E : Type) : Type := {
  (** [driver.get(url)] *)
  driver_get : string -> M W unit;
  (** [driver.find_elements(by, value)] *)
  find_elements : By -> string -> M W (list E);
  (** [driver.find_element(by, value)] *)
  find_element : By -> string -> M W E;
  (** [driver.execute_script(script, *args)] *)
  execute_script : string -> list E -> M W unit;
  (** [WebDriverWait(driver, t).until(EC.presence_of_element_located((by, value)))] *)
  wait_presence : nat -> By -> string -> M W E;
  (** [WebDriverWait(driver, t).until(EC.element_to_be_clickable((by, value)))] *)
  wait_clickable : nat -> By -> string -> M W E;
  (** [WebDriverWait(driver, t).until(EC.element_to_be_clickable(element))] *)
  wait_clickable_elem : nat -> E -> M W E;
  (** [element.find_elements(by, value)] *)
  elem_find_elements : E -> By -> string -> M W (list E);
  (** [element.find_element(by, value)] *)
  elem_find_element : E -> By -> string -> M W E;
  (** [element.get_attribute(name)] *)
  get_attribute : E -> string -> M W (option string);
  (** [element.text] *)
  text : E -> M W string;
  (** [element.tag_name] *)
  tag_name : E -> M W string;
  (** [element.click()] *)
  click : E -> M W unit
}.
Arguments driver_get {W E} _ _ _.
Arguments find_elements {W E} _ _ _ _.
Arguments find_element {W E} _ _ _ _.
Arguments execute_script {W E} _ _ _ _.
Arguments wait_presence {W E} _ _ _ _ _.
Arguments wait_clickable {W E} _ _ _ _ _.
Arguments wait_clickable_elem {W E} _ _ _ _.
Arguments elem_find_elements {W E} _ _ _ _ _.
Arguments elem_find_element {W E} _ _ _ _ _.
Arguments get_attribute {W E} _ _ _ _.
Arguments text {W E} _ _ _.
Arguments tag_name {W E} _ _ _.
Arguments click {W E} _ _ _.

(** [time.sleep] and [logging] calls have no effect on the results. *)
Definition sleep {W} (seconds : nat) : M W unit := ret tt.

End Selenium.

Declare Scope py_scope.
Notation "x <- c1 ;; c2" := (Selenium.bind c1 (fun x => c2))
  (at level 61, c1 at next level, right associativity) : py_scope.
Notation "c1 ;;; c2" := (Selenium.bind c1 (fun _ => c2))
  (at level 61, right associativity) : py_scope.
Open Scope py_scope.

Import Py Selenium.

(* ================================================================== *)
(** ** HTML_Tag_Sequence_Test.py *)
(* ================================================================== *)

Module HTMLTagSequence.

Section Check.
Context {W E : Type} (driver : WebDriver W E).

Definition headers_xpath : string := "//h1 | //h2 | //h3 | //h4 | //h5 | //h6".

(** [int(header.tag_name[1])]: [IndexError] on a name shorter than two
    characters, [ValueError] when the second character is no digit. *)
Definition level_of_tag (t : string) : M W Z :=
  match String.get 1 t with
  | None => raise (Exception "IndexError" "string index out of range")
  | Some c =>
      match int_of_char c with
      | Some z => ret z
      | None =>
          raise (Exception "ValueError"
                   ("invalid literal for int() with base 10: '"
                      ++ String c "" ++ "'"))
      end
  end.

(** [all(x <= y for x, y in zip(levels, levels[1:]))] *)
Definition is_valid_sequence (levels : list Z) : bool :=
  forallb (fun xy => Z.leb (fst xy) (snd xy)) (combine levels (tl levels)).

(** [check_html_sequence(driver, url)]; the result is the returned tuple
    [(status, comment, header_info, levels)]. *)
Definition check_html_sequence (url : string)
  : M W (string * string * list dict * list Z) :=
  driver_get driver url ;;;
  sleep 2 ;;;
  headers <- find_elements driver XPATH headers_xpath ;;
  header_info <- mapM (fun header =>
                         t <- tag_name driver header ;;
                         x <- text driver header ;;
                         ret [("Tag", VStr (upper t)); ("Text", VStr x)])
                      headers ;;
  levels <- mapM (fun header =>
                    t <- tag_name driver header ;;
                    level_of_tag t)
                 headers ;;
  if is_valid_sequence levels
  then ret ("Pass", "HTML tag sequence is valid.", header_info, levels)
  else ret ("Fail",
            "HTML tag sequence is broken. Found sequence: "
              ++ str_list_int levels,
            header_info, levels).

End Check.

End HTMLTagSequence.

(* ================================================================== *)
(** ** Image_Alt_Attribute_Test.py *)
(* ================================================================== *)

Module ImageAlt.

Section Check.
Context {W E : Type} (driver : WebDriver W E).

(** The loop variables of [check_image_alt_and_save]. *)
Record loop_state : Type := {
  index : Z;              (* the counter of [enumerate(images)] *)
  image_data : list dict;
  pass_count : Z;
  fail_count : Z
}.

(** Line 93: [status = "Pass" if img_alt else "Fail"] *)
Definition alt_status (img_alt : option string) : string :=
  if truthy img_alt then "Pass" else "Fail".

(** Lines 101-106: the row appended for an image; [idx] is the loop index. *)
Definition image_row (idx : Z) (img_src img_alt : option string)
    (status : string) : dict :=
  [ ("Image Index", VInt (idx + 1));
    ("Image Source", VStr (if_else img_src "No Source"));
    ("Alt Text", VStr (if_else img_alt "None"));
    ("Status", VStr status) ].

(** One iteration of [for index, img in enumerate(images)]. *)
Definition loop_body (img : E) (s : loop_state) : M W loop_state :=
  img_src <- get_attribute driver img "src" ;;
  img_alt <- get_attribute driver img "alt" ;;
  let status := alt_status img_alt in
  ret {| index := index s + 1;
         image_data :=
           (image_data s ++ [image_row (index s) img_src img_alt status])%list;
         pass_count := if String.eqb status "Pass"
                       then pass_count s + 1 else pass_count s;
         fail_count := if String.eqb status "Pass"
                       then fail_count s else fail_count s + 1 |}.

(** [check_image_alt_and_save(driver, url, output_xlsx, output_summary_xlsx)];
    the result is the pair of tables handed to [save_with_auto_width]:
    [image_data] and [summary_data]. *)
Definition check_image_alt_and_save (url : string)
  : M W (list dict * list dict) :=
  driver_get driver url ;;;
  sleep 2 ;;;
  images <- find_elements driver TAG_NAME "img" ;;
  s <- foldM loop_body images
         {| index := 0; image_data := []; pass_count := 0; fail_count := 0 |} ;;
  let summary_data : list dict :=
    [ [ ("Test", VStr "Image Alt Text Test Summary");
        ("Pass Count", VInt (pass_count s));
        ("Fail Count", VInt (fail_count s));
        ("Total Images", VInt (Z.of_nat (length images))) ] ] in
  ret (image_data s, summary_data).

End Check.

End ImageAlt.

(* ================================================================== *)
(** ** H1_Tag_Existence_Test.py *)
(* ================================================================== *)

Module H1Tag.

Section Check.
Context {W E : Type} (driver : WebDriver W E).

(** Lines 81-92: the body of the [try]. *)
Definition try_block (url : string)
  : M W (string * string * list string * string) :=
  driver_get driver url ;;;
  wait_presence driver 10 TAG_NAME "body" ;;;
  sleep 2 ;;;
  h1_tags <- find_elements driver TAG_NAME "h1" ;;
  match h1_tags with
  | _ :: _ =>
      h1_texts <- mapM_if
                    (fun h1 => t <- text driver h1 ;;
                               ret (negb (String.eqb (strip t) "")))
                    (fun h1 => t <- text driver h1 ;; ret (strip t))
                    h1_tags ;;
      ret ("Pass", "H1 tags found.", h1_texts, url)
  | [] => ret ("Fail", "No H1 tags found.", [], url)
  end.

(** Lines 93-98: [except TimeoutException] and [except Exception as e]. *)
Definition handler (url : string) (e : exn)
  : M W (string * string * list string * string) :=
  if String.eqb (exc_class e) "TimeoutException"
  then ret ("Fail", "Page load timeout.", [], url)
  else ret ("Fail", "Error: " ++ exc_str e, [], url).

(** [check_all_h1_tags(driver, url)]; the result is the returned tuple
    [(status, comment, h1_texts, url)]. *)
Definition check_all_h1_tags (url : string)
  : M W (string * string * list string * string) :=
  try_except (try_block url) (handler url).

End Check.

End H1Tag.

(* ================================================================== *)
(** ** Scrape_Data_from_Script_Tag.py *)
(* ================================================================== *)

Module ScriptData.

Section Check.
Context {W E : Type} (driver : WebDriver W E).

(** Lines 101-113: the body of the [try]. *)
Definition try_block (url : string) : M W (string * dict) :=
  script <- find_element driver TAG_NAME "script" ;;
  script_data <- get_attribute driver script "innerHTML" ;;
  let data : dict :=
    [ ("SiteURL", VStr url);
      ("CampaignID", VStr "12345");
      ("SiteName", VStr "Alojamiento");
      ("Browser", VStr "Chrome");
      ("CountryCode", VStr "US");
      ("IP", VStr "192.168.1.1") ] in
  ret ("Pass", data).

(** [scrape_script_data(driver, url)]; the result is the returned pair
    [(status, data)].  [driver.get] is called before the [try]. *)
Definition scrape_script_data (url : string) : M W (string * dict) :=
  driver_get driver url ;;;
  sleep 2 ;;;
  try_except (try_block url)
    (fun e => ret ("Fail", [("Error", VStr (exc_str e))])).

End Check.

End ScriptData.

(* ================================================================== *)
(** ** Currency_Filtering_Test.py *)
(* ================================================================== *)

Module CurrencyFilter.

(** An entry of [currency_options]; [country] is [None] when the option has
    no [data-currency-country] attribute. *)
Record currency : Type := { country : option string; symbol : string }.

Definition option_string_eqb (a b : option string) : bool :=
  match a, b with
  | None, None => true
  | Some x, Some y => String.eqb x y
  | _, _ => false
  end.

Definition pyval_of (o : option string) : pyval :=
  match o with
  | None => VNone
  | Some s => VStr s
  end.

(** A row of the currency report. *)
Definition result_row (name : pyval) (sym status reason : string) : dict :=
  [ ("Currency Name", name); ("Currency Symbol", VStr sym);
    ("Status", VStr status); ("Reason", VStr reason) ].

Section Check.
Context {W E : Type} (driver : WebDriver W E).

(** Lines 84-114: load the page, open the dropdown and parse its options.
    Returns the option elements and [currency_options]. *)
Definition discover_options (url : string) : M W (list E * list currency) :=
  driver_get driver url ;;;
  wait_presence driver 20 TAG_NAME "body" ;;;
  foldM (fun (_ : nat) (_ : unit) =>
           execute_script driver
             "window.scrollTo(0, document.body.scrollHeight);" [] ;;;
           sleep 2)
        [0; 1; 2]%nat tt ;;;
  dropdown <- wait_clickable driver 10 ID "js-currency-sort-footer" ;;
  click driver dropdown ;;;
  options <- elem_find_elements driver dropdown CSS_SELECTOR ".select-ul > li" ;;
  currency_options <-
    mapM (fun opt =>
            data_country <- get_attribute driver opt "data-currency-country" ;;
            currency_element <-
              elem_find_element driver opt CSS_SELECTOR ".option > p" ;;
            t <- text driver currency_element ;;
            let currency_symbol := strip (split_space_head t) in
            ret {| country := data_country; symbol := currency_symbol |})
         options ;;
  ret (options, currency_options).

(** Lines 124-157: the body of the [try] inside the loop.  Every branch
    appends its row as its last action. *)
Definition test_currency_body (options : list E) (c : currency)
    (results : list dict) : M W (list dict) :=
  let row status reason :=
    result_row (pyval_of (country c)) (symbol c) status reason in
  dropdown <- wait_clickable driver 10 ID "js-currency-sort-footer" ;;
  click driver dropdown ;;;
  chosen <- nextM (fun opt =>
                     a <- get_attribute driver opt "data-currency-country" ;;
                     ret (option_string_eqb a (country c)))
                  options ;;
  match chosen with
  | None =>
      ret (results ++ [row "Fail" "Currency option not found in dropdown"])%list
  | Some opt =>
      execute_script driver "arguments[0].scrollIntoView();" [opt] ;;;
      clickable <- wait_clickable_elem driver 10 opt ;;
      click driver clickable ;;;
      sleep 2 ;;;
      tiles <- find_elements driver CLASS_NAME "js-price-value" ;;
      match tiles with
      | [] => ret (results ++ [row "Fail" "No property tiles found"])%list
      | _ :: _ =>
          ok <- allM (fun tile =>
                        t <- text driver tile ;;
                        ret (contains (symbol c) t))
                     tiles ;;
          if ok
          then ret (results ++ [row "Pass" "Validation successful"])%list
          else ret (results ++
                      [row "Fail"
                         ("Currency symbol " ++ symbol c
                            ++ " not found in property tiles")%string])%list
      end
  end.

(** Lines 121-162: one iteration of [for currency in currency_options].
    The rows present when the handler runs are those the iteration started
    with, since a row is appended last. *)
Definition test_currency (options : list E) (c : currency)
    (results : list dict) : M W (list dict) :=
  try_except (test_currency_body options c results)
    (fun e =>
       ret (results ++
              [result_row (pyval_of (country c)) (symbol c) "Fail"
                 ("Exception: " ++ exc_str e)%string])%list).

(** The body of the outer [try] of [test_currency_filter]. *)
Definition try_block (url : string) : M W (list dict) :=
  found <- discover_options url ;;
  match snd found with
  | [] =>
      ret [result_row (VStr "All") "N/A" "Fail" "No currency options found"]
  | _ :: _ => foldM (test_currency (fst found)) (snd found) []
  end.

(** [test_currency_filter(driver, url)]; the result is the returned list of
    rows. *)
Definition test_currency_filter (url : string) : M W (list dict) :=
  try_except (try_block url)
    (fun e =>
       ret [result_row (VStr "All") "N/A" "Fail" ("Exception: " ++ exc_str e)]).

End Check.

End CurrencyFilter.

(* ================================================================== *)
(** ** The retrying HTTP session of URL_Status_Code_Test.py *)
(* ================================================================== *)

(** Lines 86-88 of the script build the session:
    [session = requests.Session()],
    [retries = Retry(total=5, backoff_factor=1, status_forcelist=[500, 502, 503, 504])],
    [session.mount('https://', HTTPAdapter(max_retries=retries))].
    What these objects do when [session.get] is called is the behaviour of
    [requests] and [urllib3]; this module follows
    [urllib3.util.retry.Retry], [HTTPConnectionPool.urlopen],
    [requests.adapters.HTTPAdapter] and [requests.Session.mount/get_adapter]
    for a [GET] request.  The network is an oracle giving the outcome of
    each attempt and the target of each redirect.  Proxies, TLS failures and
    errors met while the body of a response is read are left out. *)

Module Requests.

Open Scope Z_scope.

(** The transport errors [urlopen] catches and counts as a failed attempt. *)
Inductive net_error : Type :=
| ConnectTimeoutError
| NewConnectionError
| ReadTimeoutError
| ProtocolError.

(** The outcome of one attempt: a response with its status and the parsed
    value of its [Retry-After] header, if any, or a transport error. *)
Inductive attempt : Type :=
| HTTPResponse (status : Z) (retry_after : option Z)
| NetError (e : net_error).

(** A [Retry] object: the counters and settings that differ between the
    script's [Retry(total=5, ...)] and the default [Retry(0, read=False)].
    [connect], [redirect], [status] and [other] are [None] in both, the
    method is [GET] (in [allowed_methods]), [raise_on_status] and
    [respect_retry_after_header] are [True].  [history] is the number of
    failed attempts recorded so far. *)
Record Retry : Type := {
  total : Z;
  read_disabled : bool;          (* [read=False] *)
  status_forcelist : list Z;
  backoff_factor : Z;
  history : nat
}.

Definition RETRY_AFTER_STATUS_CODES : list Z := [413; 429; 503].
Definition DEFAULT_BACKOFF_MAX : Z := 120.

Definition status_in (status : Z) (l : list Z) : bool :=
  existsb (Z.eqb status) l.

(** [Retry.is_retry(method, status_code, has_retry_after)] *)
Definition is_retry (r : Retry) (status_code : Z) (has_retry_after : bool)
  : bool :=
  if status_in status_code (status_forcelist r) then true
  else negb (total r =? 0) && has_retry_after
       && status_in status_code RETRY_AFTER_STATUS_CODES.

(** [Retry.is_exhausted()]: the counters that are set and non-zero are
    collected ([total] only, here) and their minimum compared with 0. *)
Definition is_exhausted (r : Retry) : bool :=
  negb (total r =? 0) && (total r <? 0).

(** [Retry._is_read_error(err)] *)
Definition is_read_error (e : net_error) : bool :=
  match e with
  | ReadTimeoutError | ProtocolError => true
  | ConnectTimeoutError | NewConnectionError => false
  end.

(** How [urlopen] ends. *)
Inductive urlopen_result : Type :=
| Returned (status : Z)
| MaxRetryError (reason : option net_error)   (* [None]: a [ResponseError] *)
| Reraised (e : net_error).

(** What one pass of [urlopen] decides: stop with a result, or call
    [urlopen] again with the incremented [Retry]. *)
Inductive step : Type :=
| Done (res : urlopen_result)
| Again (r : Retry).

(** [Retry.increment(method, url, response=..., error=...)] *)
Definition increment (r : Retry) (a : attempt) : step :=
  let new_retry := {| total := total r - 1;
                      read_disabled := read_disabled r;
                      status_forcelist := status_forcelist r;
                      backoff_factor := backoff_factor r;
                      history := S (history r) |} in
  match a with
  | NetError e =>
      if is_read_error e && read_disabled r then Done (Reraised e)
      else if is_exhausted new_retry then Done (MaxRetryError (Some e))
           else Again new_retry
  | HTTPResponse _ _ =>
      if is_exhausted new_retry then Done (MaxRetryError None)
      else Again new_retry
  end.

(** One pass of [urlopen]: an error is handed to [increment]; a response
    is returned unless [is_retry] asks for another attempt. *)
Definition urlopen_step (r : Retry) (a : attempt) : step :=
  match a with
  | NetError _ => increment r a
  | HTTPResponse status retry_after =>
      if is_retry r status
           (match retry_after with Some _ => true | None => false end)
      then increment r a
      else Done (Returned status)
  end.

(** [Retry.get_backoff_time()] *)
Definition get_backoff_time (r : Retry) : Z :=
  if Nat.leb (history r) 1 then 0
  else Z.min DEFAULT_BACKOFF_MAX
             (backoff_factor r * 2 ^ (Z.of_nat (history r) - 1)).

(** The seconds [Retry.sleep(response)] sleeps before the next attempt: a
    positive [Retry-After] value of the response, else the backoff. *)
Definition sleep_seconds (r : Retry) (a : attempt) : Z :=
  match a with
  | HTTPResponse _ (Some seconds) =>
      if 0 <? seconds then seconds else get_backoff_time r
  | _ => get_backoff_time r
  end.

(** The trace of a probe: the number of requests made, the sleep before
    each retry and the way [urlopen] ended. *)
Record probe : Type := {
  attempts : nat;
  sleeps : list Z;
  final : urlopen_result
}.

(** [HTTPConnectionPool.urlopen(..., retries=r)]: attempt [i] of the network
    is made; on a retry the function calls itself with the incremented
    [Retry] after sleeping.  It terminates because [total] decreases and a
    negative [total] is exhausted. *)
Equations? urlopen (r : Retry) (net : nat -> attempt) (i : nat) : probe
  by wf (Z.to_nat (total r + 1)) lt :=
urlopen r net i with inspect (urlopen_step r (net i)) := {
  | exist _ (Done res) _ => {| attempts := 1; sleeps := []; final := res |}
  | exist _ (Again r') Heq =>
      let p := urlopen r' net (S i) in
      {| attempts := S (attempts p);
         sleeps := sleep_seconds r' (net i) :: sleeps p;
         final := final p |} }.
Proof.
  assert (Hdec : total r' = total r - 1 /\ 0 <= total r').
  { clear urlopen. revert Heq.
    unfold urlopen_step, increment, is_exhausted.
    destruct (net i) as [status retry_after | e];
      repeat match goal with
             | |- context [if ?b then _ else _] => destruct b eqn:?
             end;
      intros Heq; inversion Heq; subst; simpl in *; lia. }
  lia.
Qed.

(** The classes of [requests.exceptions] derived from [RequestException],
    which is what [except requests.exceptions.RequestException] catches.
    [Timeout], [ConnectTimeout] and [ReadTimeout] are the instances of
    [Timeout].  The model below raises [ConnectTimeout], [ReadTimeout],
    [ConnectionError], [RetryError], [InvalidSchema] and [TooManyRedirects]
    by itself; [MissingSchema] and [InvalidURL] come from [prepare_url]. *)
Inductive requests_exception : Type :=
| RequestException
| InvalidJSONError
| JSONDecodeError
| HTTPError
| ConnectionError
| ProxyError
| SSLError
| Timeout
| ConnectTimeout
| ReadTimeout
| URLRequired
| TooManyRedirects
| MissingSchema
| InvalidSchema
| InvalidURL
| InvalidHeader
| InvalidProxyURL
| ChunkedEncodingError
| ContentDecodingError
| StreamConsumedError
| RetryError
| UnrewindableBodyError.

(** [isinstance(e, requests.exceptions.Timeout)] *)
Definition is_Timeout (e : requests_exception) : bool :=
  match e with
  | Timeout | ConnectTimeout | ReadTimeout => true
  | _ => false
  end.

(** What [session.get(link, timeout=5, verify=False)] does. *)
Inductive get_outcome : Type :=
| Response (status_code : Z)
| Raised (e : requests_exception).

(** The [except] clauses of [HTTPAdapter.send]. *)
Definition send_outcome (res : urlopen_result) : get_outcome :=
  match res with
  | Returned status => Response status
  | MaxRetryError (Some ConnectTimeoutError) => Raised ConnectTimeout
  | MaxRetryError None => Raised RetryError
  | MaxRetryError (Some _) => Raised ConnectionError
  | Reraised ReadTimeoutError => Raised ReadTimeout
  | Reraised _ => Raised ConnectionError
  end.

(** [Retry(0, read=False)], the [max_retries] of a default [HTTPAdapter()]. *)
Definition default_retries : Retry :=
  {| total := 0; read_disabled := true; status_forcelist := [];
     backoff_factor := 0; history := 0 |}.

(** [session.adapters]: an ordered dictionary from URL prefix to adapter; an
    adapter is represented by its [max_retries]. *)
Definition adapters : Type := list (string * Retry).

Fixpoint adapters_set (prefix : string) (a : Retry) (d : adapters) : adapters :=
  match d with
  | [] => [(prefix, a)]
  | (k, v) :: d' =>
      if String.eqb prefix k then (k, a) :: d'
      else (k, v) :: adapters_set prefix a d'
  end.

(** [Session.mount(prefix, adapter)]: store the adapter, then move every
    shorter prefix to the end. *)
Definition mount (prefix : string) (a : Retry) (d : adapters) : adapters :=
  let d1 := adapters_set prefix a d in
  let shorter (kv : string * Retry) :=
    Nat.ltb (len (fst kv)) (len prefix) in
  (filter (fun kv => negb (shorter kv)) d1 ++ filter shorter d1)%list.

(** [requests.Session()] *)
Definition Session : adapters :=
  mount "http://" default_retries (mount "https://" default_retries []).

(** [Session.get_adapter(url)]; [None] stands for [InvalidSchema]. *)
Fixpoint get_adapter (d : adapters) (url : string) : option Retry :=
  match d with
  | [] => None
  | (prefix, a) :: d' =>
      if startswith (lower url) (lower prefix) then Some a
      else get_adapter d' url
  end.

(** The requests made for [url] itself by [Session.send]: the adapter
    found for the URL sends one request and retries it as its [max_retries]
    says, given the attempts of the network for this URL; [None] when no
    adapter is found and nothing is sent. *)
Definition session_probe (session : adapters) (url : string)
    (net : nat -> attempt) : option probe :=
  match get_adapter session url with
  | None => None
  | Some max_retries => Some (urlopen max_retries net 0)
  end.

(** [requests.models.REDIRECT_STATI] and [DEFAULT_REDIRECT_LIMIT], the
    [max_redirects] of a session. *)
Definition REDIRECT_STATI : list Z := [301; 302; 303; 307; 308].
Definition DEFAULT_REDIRECT_LIMIT : nat := 30.

(** What [session.get] meets behind the URLs. *)
Record network : Type := {
  (** [PreparedRequest.prepare_url]: the exception raised for a URL that
      [requests] does not accept ([MissingSchema] without a scheme,
      [InvalidURL] without a host or with an invalid label), if any *)
  refused : string -> option requests_exception;
  (** the outcome of a request for a URL that is sent as request number
      [k], counting from 0 the requests of this call of [session.get] *)
  attempt_at : string -> nat -> attempt;
  (** the [Location] header of the response to request number [k], sent
      for a URL, if it has one, as [resolve_redirects] resolves it into the
      URL of the next request *)
  location_at : string -> nat -> option string
}.

(** [Session.get_redirect_target(resp)] for the response with [status] that
    request number [k], sent for [url], was answered with; an empty header
    ends the [while url] loop of [resolve_redirects] like a missing one. *)
Definition get_redirect_target (net : network) (url : string) (k : nat)
    (status : Z) : option string :=
  if status_in status REDIRECT_STATI
  then match location_at net url k with
       | Some target => if String.eqb target "" then None else Some target
       | None => None
       end
  else None.

(** A request that was sent: its URL and what the adapter did for it. *)
Definition hop : Type := (string * probe)%type.

(** [Session.send(request, allow_redirects=True)] for a prepared request:
    the request is sent through the adapter of its URL; a response that
    redirects is followed by a request for its target, sent in the same
    way, until a response does not redirect.  [resolve_redirects] raises
    [TooManyRedirects] when a response redirects after [max_redirects]
    redirects have been followed; [redirects_left] counts the redirects
    that may still be followed and [sent] the requests sent so far.  The
    result lists the requests sent and tells what the caller sees: the
    last response, or the exception. *)
Fixpoint Session_send (session : adapters) (net : network)
    (redirects_left sent : nat) (url : string) : list hop * get_outcome :=
  match session_probe session url (fun i => attempt_at net url (sent + i)) with
  | None => ([], Raised InvalidSchema)
  | Some p =>
      match final p with
      | Returned status =>
          match get_redirect_target net url (sent + attempts p - 1) status with
          | Some target =>
              match redirects_left with
              | O => ([(url, p)], Raised TooManyRedirects)
              | S n =>
                  let rest :=
                    Session_send session net n (sent + attempts p) target in
                  ((url, p) :: fst rest, snd rest)
              end
          | None => ([(url, p)], Response status)
          end
      | res => ([(url, p)], send_outcome res)
      end
  end.

(** [session.get(url, timeout=5, verify=False)]: the request is prepared,
    then sent; redirects are allowed. *)
Definition session_trace (session : adapters) (net : network) (url : string)
  : list hop * get_outcome :=
  match refused net url with
  | Some e => ([], Raised e)
  | None => Session_send session net DEFAULT_REDIRECT_LIMIT 0 url
  end.

(** What the caller of [session.get(url, timeout=5, verify=False)] sees. *)
Definition session_get (session : adapters) (net : network) (url : string)
  : get_outcome :=
  snd (session_trace session net url).

(** The number of requests [session.get] sent and the seconds it slept. *)
Definition requests_sent (trace : list hop) : nat :=
  fold_right (fun h n => (attempts (snd h) + n)%nat) 0%nat trace.

Definition seconds_slept (trace : list hop) : list Z :=
  flat_map (fun h => sleeps (snd h)) trace.

(** Line 87: [Retry(total=5, backoff_factor=1, status_forcelist=[500, 502, 503, 504])] *)
Definition retries : Retry :=
  {| total := 5; read_disabled := false;
     status_forcelist := [500; 502; 503; 504];
     backoff_factor := 1; history := 0 |}.

(** Lines 86 and 88: the session of the script. *)
Definition session : adapters := mount "https://" retries Session.

End Requests.

(* ================================================================== *)
(** ** URL_Status_Code_Test.py *)
(* ================================================================== *)

Module URLStatus.

Import Requests.

Section Check.
Context {W E : Type} (driver : WebDriver W E).

(** The order in which [list(set(...))] lists the distinct links. *)
Variable list_of_set : list string -> list string.
(** The network the links are probed on. *)
Variable net : network.
(** [str(e)] of a raised [requests] exception. *)
Variable str_exc : requests_exception -> string.

(** Lines 97-127: the row appended for [link], given what [session.get]
    did.  ([pass_count], [fail_count], [failed_urls] and [any_404_error] are
    assigned in the loop and never read.) *)
Definition check_link (link : string) (r : get_outcome) : dict :=
  let status :=
    match r with
    | Response status_code => if (status_code =? 404)%Z then "Fail" else "pass"
    | Raised _ => "Fail"
    end in
  let error_message :=
    match r with
    | Response status_code => if (status_code =? 404)%Z then "404 Not Found" else ""
    | Raised e => if is_Timeout e then "Timeout" else "Error: " ++ str_exc e
    end in
  [ ("URL", VStr link);
    ("Status", VStr status);
    ("HTTP Status Code",
      match r with
      | Response status_code =>
          if (status_code =? 0)%Z then VStr "N/A" else VInt status_code
      | Raised _ => VStr "N/A"
      end);
    ("Error Message",
      VStr (if String.eqb error_message "" then "None" else error_message)) ].

Definition field_is (k : string) (v : pyval) (item : dict) : bool :=
  match dict_get k item with
  | Some x => pyval_eqb x v
  | None => false
  end.

(** [any(item["HTTP Status Code"] == 404 for item in link_data)] *)
Definition any_404 (link_data : list dict) : bool :=
  existsb (field_is "HTTP Status Code" (VInt 404)) link_data.

(** Lines 131-134: when no row has status code 404, every row's status is
    overwritten with ["Pass"]. *)
Definition normalize (link_data : list dict) : list dict :=
  if negb (any_404 link_data)
  then map (dict_set "Status" (VStr "Pass")) link_data
  else link_data.

(** Line 139 *)
Definition overall_status (link_data : list dict) : string :=
  if forallb (field_is "Status" (VStr "Pass")) link_data
  then "Pass" else "Fail".

(** Lines 142-154 *)
Definition summary_data (url : string) (link_data : list dict) : list dict :=
  let status := overall_status link_data in
  let comments :=
    if String.eqb status "Pass" then "All URLs passed successfully."
    else
      let failed_count :=
        length (filter (field_is "Status" (VStr "Fail")) link_data) in
      str_int (Z.of_nat failed_count) ++ " URL(s) failed." in
  [ [ ("page_url", VStr url); ("testcase", VStr "Test of URLs");
      ("status", VStr status); ("comments", VStr comments) ] ].

(** Line 81: [link for link in links if link and link.startswith("http")] *)
Fixpoint http_links (links : list (option string)) : list string :=
  match links with
  | [] => []
  | Some link :: rest =>
      if truthy (Some link) && startswith link "http"
      then link :: http_links rest else http_links rest
  | None :: rest => http_links rest
  end.

(** Lines 96-134: probe every link, then normalise. *)
Definition probe_links (links : list string) : list dict :=
  normalize
    (map (fun link => check_link link (session_get session net link))
         links).

(** [check_url_status_and_save(driver, url, output_xlsx, output_summary_xlsx)];
    the result is the pair of tables handed to [save_with_auto_width]:
    [link_data] and [summary_data]. *)
Definition check_url_status_and_save (url : string)
  : M W (list dict * list dict) :=
  driver_get driver url ;;;
  sleep 2 ;;;
  anchors <- find_elements driver TAG_NAME "a" ;;
  hrefs <- mapM_if (fun a => h <- get_attribute driver a "href" ;;
                             ret (truthy h))
                   (fun a => get_attribute driver a "href")
                   anchors ;;
  let links := list_of_set (http_links hrefs) in
  let link_data := probe_links links in
  ret (link_data, summary_data url link_data).

End Check.

End URLStatus.

(* ================================================================== *)
(** ** Pages and drivers used to run the checks *)
(* ================================================================== *)

Module Pages.

(** An element of a loaded page as the driver reports it. *)
Record Node : Type := {
  node_tag : string;                       (* [tag_name], lower case *)
  node_text : string;                      (* [text] *)
  node_attrs : list (string * string)      (* attributes that are present *)
}.

(** A loaded page: its elements in document order. *)
Definition Page : Type := list Node.

Fixpoint attr (name : string) (l : list (string * string)) : option string :=
  match l with
  | [] => None
  | (k, v) :: l' => if String.eqb name k then Some v else attr name l'
  end.

Definition heading_tags : list string := ["h1"; "h2"; "h3"; "h4"; "h5"; "h6"].

(** Which elements a locator selects: a tag name, or the heading XPath of
    the tag-sequence check.  Other locators select nothing on these pages. *)
Definition selects (loc : By) (value : string) (n : Node) : bool :=
  match loc with
  | TAG_NAME => String.eqb (node_tag n) value
  | XPATH =>
      String.eqb value HTMLTagSequence.headers_xpath
      && existsb (String.eqb (node_tag n)) heading_tags
  | _ => false
  end.

Definition first_or_raise (cls : string) (l : list Node) : M unit Node :=
  match l with
  | n :: _ => ret n
  | [] => raise (Exception cls "no such element")
  end.

(** A driver that has [page] loaded and never fails to read it: lookups
    list the selected elements in document order, a lookup of one element
    raises [NoSuchElementException] when nothing is selected, and a wait
    raises [TimeoutException]. *)
Definition static_driver (page : Page) : WebDriver unit Node :=
  {| driver_get := fun _ => ret tt;
     find_elements := fun loc value => ret (filter (selects loc value) page);
     find_element := fun loc value =>
       first_or_raise "NoSuchElementException" (filter (selects loc value) page);
     execute_script := fun _ _ => ret tt;
     wait_presence := fun _ loc value =>
       first_or_raise "TimeoutException" (filter (selects loc value) page);
     wait_clickable := fun _ loc value =>
       first_or_raise "TimeoutException" (filter (selects loc value) page);
     wait_clickable_elem := fun _ n => ret n;
     elem_find_elements := fun _ _ _ => ret [];
     elem_find_element := fun _ _ _ =>
       raise (Exception "NoSuchElementException" "no such element");
     get_attribute := fun n name => ret (attr name (node_attrs n));
     text := fun n => ret (node_text n);
     tag_name := fun n => ret (node_tag n);
     click := fun _ => ret tt |}.

(** A driver whose elements have gone stale when they are read: lookups
    work as for [static_driver], reading an attribute or the text of an
    element raises [StaleElementReferenceException]. *)
Definition stale_driver (page : Page) : WebDriver unit Node :=
  {| driver_get := driver_get (static_driver page);
     find_elements := find_elements (static_driver page);
     find_element := find_element (static_driver page);
     execute_script := execute_script (static_driver page);
     wait_presence := wait_presence (static_driver page);
     wait_clickable := wait_clickable (static_driver page);
     wait_clickable_elem := wait_clickable_elem (static_driver page);
     elem_find_elements := elem_find_elements (static_driver page);
     elem_find_element := elem_find_element (static_driver page);
     get_attribute := fun _ _ =>
       raise (Exception "StaleElementReferenceException"
                "stale element reference");
     text := fun _ =>
       raise (Exception "StaleElementReferenceException"
                "stale element reference");
     tag_name := tag_name (static_driver page);
     click := click (static_driver page) |}.

(** A driver whose navigation fails: [driver.get] raises. *)
Definition unreachable_driver (page : Page) : WebDriver unit Node :=
  {| driver_get := fun _ =>
       raise (Exception "WebDriverException" "net::ERR_NAME_NOT_RESOLVED");
     find_elements := find_elements (static_driver page);
     find_element := find_element (static_driver page);
     execute_script := execute_script (static_driver page);
     wait_presence := wait_presence (static_driver page);
     wait_clickable := wait_clickable (static_driver page);
     wait_clickable_elem := wait_clickable_elem (static_driver page);
     elem_find_elements := elem_find_elements (static_driver page);
     elem_find_element := elem_find_element (static_driver page);
     get_attribute := get_attribute (static_driver page);
     text := text (static_driver page);
     tag_name := tag_name (static_driver page);
     click := click (static_driver page) |}.

End Pages.

(* ================================================================== *)
(** ** Sample pages *)
(* ================================================================== *)

Module Samples.

Import Pages.

Definition url : string := "https://www.alojamiento.io/".

Definition element (tag txt : string) (attrs : list (string * string)) : Node :=
  {| node_tag := tag; node_text := txt; node_attrs := attrs |}.

(** Headings [h1], [h3], [h2] in this order, between other elements. *)
Definition page_h1_h3_h2 : Page :=
  [ element "body" "" [];
    element "h1" "Alojamiento" [];
    element "p" "Find a place to stay" [];
    element "h3" "Popular" [];
    element "h2" "Destinations" [] ].

(** Headings [h1], [h2], [h2], [h3]. *)
Definition page_h1_h2_h2_h3 : Page :=
  [ element "body" "" [];
    element "h1" "Alojamiento" [];
    element "h2" "Popular" [];
    element "h2" "Destinations" [];
    element "h3" "Madrid" [] ].

(** Three images: [alt="Logo"], [alt=""] and no [alt] attribute. *)
Definition page_images : Page :=
  [ element "body" "" [];
    element "img" "" [("src", "https://www.alojamiento.io/logo.png");
                      ("alt", "Logo")];
    element "img" "" [("src", "https://www.alojamiento.io/hero.jpg");
                      ("alt", "")];
    element "img" "" [] ].

(** A page whose only image has an empty [alt]. *)
Definition page_empty_alt : Page :=
  [ element "body" "" [];
    element "img" "" [("src", "https://www.alojamiento.io/hero.jpg");
                      ("alt", "")] ].

(** U+00A0, the no-break space, and U+2003, the em space. *)
Definition nbsp : string :=
  String (ascii_of_nat 194) (String (ascii_of_nat 160) "").
Definition emsp : string :=
  String (ascii_of_nat 226)
    (String (ascii_of_nat 128) (String (ascii_of_nat 131) "")).

(** A page whose only [h1] holds white space: a space, a no-break space,
    an em space and a line feed. *)
Definition blank_text : string :=
  " " ++ nbsp ++ emsp ++ String (ascii_of_nat 10) "".

Definition page_blank_h1 : Page :=
  [ element "body" "" []; element "h1" blank_text [] ].

(** A page with a blank [h1] and one whose text has white space around
    it. *)
Definition page_two_h1 : Page :=
  [ element "body" "" [];
    element "h1" blank_text [];
    element "h1" (nbsp ++ " Alojamiento en Madrid " ++ emsp) [] ].

(** A page with a script element. *)
Definition page_script : Page :=
  [ element "body" "" [];
    element "script" "" [("innerHTML", "window.dataLayer = [];")] ].

(** The elements of a page with a currency dropdown. *)
Inductive shop_element : Type :=
| Body
| Dropdown
| OptionLi (i : nat)
| OptionP (i : nat)
| Tile (j : nat).

Definition no_such_element {A} : M unit A :=
  raise (Exception "NoSuchElementException" "no such element").

(** The text of an element of the page: an option shows its text, a tile
    its price. *)
Definition shop_text (opts : list (option string * string))
    (tiles : list string) (e : shop_element) : string :=
  match e with
  | OptionP i => snd (nth i opts (None, ""))
  | Tile j => nth j tiles ""
  | _ => ""
  end.

(** A driver for a page whose dropdown lists [opts] (the value of
    [data-currency-country] and the text of the option) and whose price
    tiles always show [tiles], whichever option is selected. *)
Definition shop_driver (opts : list (option string * string))
    (tiles : list string) : WebDriver unit shop_element :=
  {| driver_get := fun _ => ret tt;
     find_elements := fun loc _ =>
       match loc with
       | CLASS_NAME => ret (map Tile (seq 0 (length tiles)))
       | _ => ret []
       end;
     find_element := fun _ _ => no_such_element;
     execute_script := fun _ _ => ret tt;
     wait_presence := fun _ _ _ => ret Body;
     wait_clickable := fun _ _ _ => ret Dropdown;
     wait_clickable_elem := fun _ e => ret e;
     elem_find_elements := fun e _ _ =>
       match e with
       | Dropdown => ret (map OptionLi (seq 0 (length opts)))
       | _ => ret []
       end;
     elem_find_element := fun e _ _ =>
       match e with
       | OptionLi i => ret (OptionP i)
       | _ => no_such_element
       end;
     get_attribute := fun e _ =>
       match e with
       | OptionLi i => ret (fst (nth i opts (None, "")))
       | _ => ret None
       end;
     text := fun e => ret (shop_text opts tiles e);
     tag_name := fun _ => ret "";
     click := fun _ => ret tt |}.

(** Two currencies; the tiles show dollar prices. *)
Definition shop_two_currencies : WebDriver unit shop_element :=
  shop_driver [(Some "US", "$ USD"); (Some "BD", "Tk BDT")] ["$120"; "$99"].

(** A dropdown without options. *)
Definition shop_no_currency : WebDriver unit shop_element :=
  shop_driver [] ["$120"].

(** Networks: the same outcome at every attempt. *)
Definition always (a : Requests.attempt) : nat -> Requests.attempt :=
  fun _ => a.

Definition link_a : string := "https://www.alojamiento.io/a".
Definition link_b : string := "https://www.alojamiento.io/b".
Definition link_c : string := "https://www.alojamiento.io/c".

(** A network on which every URL is accepted and no response redirects. *)
Definition plain_network (attempt_at : string -> nat -> Requests.attempt)
  : Requests.network :=
  {| Requests.refused := fun _ => None;
     Requests.attempt_at := attempt_at;
     Requests.location_at := fun _ _ => None |}.

(** [link_a] answers 200, [link_b] answers 404 and every other link refuses
    the connection at every attempt. *)
Definition net_abc : Requests.network :=
  plain_network
    (fun link =>
       if String.eqb link link_a then always (Requests.HTTPResponse 200 None)
       else if String.eqb link link_b
            then always (Requests.HTTPResponse 404 None)
            else always (Requests.NetError Requests.NewConnectionError)).

Definition link_old : string := "http://www.alojamiento.io/old".
Definition link_new : string := "https://www.alojamiento.io/new".
Definition link_gone : string := "https://www.alojamiento.io/gone".
Definition link_loop : string := "http://www.alojamiento.io/loop".

(** [link_old] answers 301 with the location [link_new], which answers 503
    to the requests number 1 and 2 and 200 afterwards; [link_a] answers 302
    with the location [link_gone], which answers 404; [link_loop] answers
    302 with its own address as location; [link_b] is a URL with an invalid
    label; every other link answers 200. *)
Definition net_redirects : Requests.network :=
  {| Requests.refused := fun link =>
       if String.eqb link link_b then Some Requests.InvalidURL else None;
     Requests.attempt_at := fun link i =>
       if String.eqb link link_old then Requests.HTTPResponse 301 None
       else if String.eqb link link_new
       then if Nat.ltb i 3 then Requests.HTTPResponse 503 None
            else Requests.HTTPResponse 200 None
       else if String.eqb link link_a then Requests.HTTPResponse 302 None
       else if String.eqb link link_gone then Requests.HTTPResponse 404 None
       else if String.eqb link link_loop then Requests.HTTPResponse 302 None
       else Requests.HTTPResponse 200 None;
     Requests.location_at := fun link _ =>
       if String.eqb link link_old then Some link_new
       else if String.eqb link link_a then Some link_gone
       else if String.eqb link link_loop then Some link_loop
       else None |}.

(** A link that passes the [startswith("http")] filter but has a scheme no
    adapter is mounted for. *)
Definition link_httpx : string := "httpx://www.alojamiento.io/".

(** A page with an anchor to [link_a], two to [link_c], one without
    [href] and a [mailto:] link. *)
Definition page_links : Page :=
  [ element "body" "" [];
    element "a" "A" [("href", link_a)];
    element "a" "C" [("href", link_c)];
    element "a" "top" [];
    element "a" "C again" [("href", link_c)];
    element "a" "mail" [("href", "mailto:info@alojamiento.io")] ].

(** One way [list(set(...))] may list the links: first occurrences, in
    order. *)
Definition first_occurrences (links : list string) : list string :=
  rev (nodup string_dec (rev links)).

(** A rendering of [str(e)] that names the exception class. *)
Definition str_exc (e : Requests.requests_exception) : string :=
  match e with
  | Requests.RequestException => "RequestException"
  | Requests.InvalidJSONError => "InvalidJSONError"
  | Requests.JSONDecodeError => "JSONDecodeError"
  | Requests.HTTPError => "HTTPError"
  | Requests.ConnectionError => "ConnectionError"
  | Requests.ProxyError => "ProxyError"
  | Requests.SSLError => "SSLError"
  | Requests.Timeout => "Timeout"
  | Requests.ConnectTimeout => "ConnectTimeout"
  | Requests.ReadTimeout => "ReadTimeout"
  | Requests.URLRequired => "URLRequired"
  | Requests.TooManyRedirects => "TooManyRedirects"
  | Requests.MissingSchema => "MissingSchema"
  | Requests.InvalidSchema => "InvalidSchema"
  | Requests.InvalidURL => "InvalidURL"
  | Requests.InvalidHeader => "InvalidHeader"
  | Requests.InvalidProxyURL => "InvalidProxyURL"
  | Requests.ChunkedEncodingError => "ChunkedEncodingError"
  | Requests.ContentDecodingError => "ContentDecodingError"
  | Requests.StreamConsumedError => "StreamConsumedError"
  | Requests.RetryError => "RetryError"
  | Requests.UnrewindableBodyError => "UnrewindableBodyError"
  end.

End Samples.

(* ================================================================== *)
(** ** Properties the checks are measured against *)
(* ================================================================== *)

Module Props.

(** For all consecutive [i], [L[i] <= L[i+1]]. *)
Definition nondecreasing (L : list Z) : Prop :=
  forall i : nat, (S i < length L)%nat -> (nth i L 0 <= nth (S i) L 0)%Z.

(** The tag name of a heading of level [l]. *)
Definition tag_of_level (l : Z) : string := "h" ++ str_int l.

(** The literal text of a sequence of levels 1..6, as in "[1, 3, 2]": the
    levels as digits, separated by a comma and a space, in brackets. *)
Definition digit (l : Z) : string :=
  match l with
  | 1 => "1" | 2 => "2" | 3 => "3" | 4 => "4" | 5 => "5" | 6 => "6"
  | _ => ""
  end%Z.

Fixpoint enumeration (L : list Z) : string :=
  match L with
  | [] => ""
  | [l] => digit l
  | l :: rest => digit l ++ ", " ++ enumeration rest
  end.

Definition literal (L : list Z) : string := "[" ++ enumeration L ++ "]".

(** [s] contains the literal text [sub]. *)
Definition occurs_in (sub s : string) : Prop :=
  exists pre post : string, s = pre ++ sub ++ post.



(** The [alt] attribute is present and non-empty. *)
Definition alt_present (alt : option string) : Prop :=
  exists s : string, alt = Some s /\ s <> "".

(** The rows appended for [images] whose attributes are given by [A],
    the first image having loop index [k]. *)
Fixpoint rows_from {E : Type} (A : E -> string -> option string) (k : Z)
    (images : list E) : list dict :=
  match images with
  | [] => []
  | img :: rest =>
      ImageAlt.image_row k (A img "src") (A img "alt")
        (ImageAlt.alt_status (A img "alt"))
      :: rows_from A (k + 1) rest
  end.

(** A row written for the currency [c]: it carries the name and symbol of
    [c] and a status "Pass" or "Fail". *)
Definition row_for (c : CurrencyFilter.currency) (row : dict) : Prop :=
  dict_get "Currency Name" row
  = Some (CurrencyFilter.pyval_of (CurrencyFilter.country c))
  /\ dict_get "Currency Symbol" row = Some (VStr (CurrencyFilter.symbol c))
  /\ (dict_get "Status" row = Some (VStr "Pass")
      \/ dict_get "Status" row = Some (VStr "Fail")).

(** The statuses the retry policy of the script lists. *)
Definition server_error (status : Z) : Prop :=
  (status = 500 \/ status = 502 \/ status = 503 \/ status = 504)%Z.

(** An attempt after which the retrying adapter asks for another one, as
    long as retries are left: a timeout or connection error, a response
    500/502/503/504, or a response 413/429/503 that carries a [Retry-After]
    header. *)
Definition retryable (a : Requests.attempt) : Prop :=
  match a with
  | Requests.NetError _ => True
  | Requests.HTTPResponse status retry_after =>
      server_error status
      \/ (retry_after <> None
          /\ (status = 413 \/ status = 429 \/ status = 503)%Z)
  end.

(** The [Retry] object of the script after [k] failed attempts. *)
Definition retries_after (k : nat) : Requests.Retry :=
  {| Requests.total := 5 - Z.of_nat k;
     Requests.read_disabled := false;
     Requests.status_forcelist := [500; 502; 503; 504]%Z;
     Requests.backoff_factor := 1;
     Requests.history := k |}.

(** How a probe ends, read off the network: a returned status is the
    status of the response to the last attempt [last]; a [MaxRetryError] is
    caused by the error of the last attempt or by its 500/502/503/504
    response; no error is raised untouched. *)
Definition ends_properly (net : nat -> Requests.attempt) (last : nat)
    (p : Requests.probe) : Prop :=
  match Requests.final p with
  | Requests.Returned s => exists ra, net last = Requests.HTTPResponse s ra
  | Requests.MaxRetryError (Some e) => net last = Requests.NetError e
  | Requests.MaxRetryError None =>
      exists s ra, net last = Requests.HTTPResponse s ra /\ server_error s
  | Requests.Reraised _ => False
  end.

(** The seconds slept before retry number [j+1] (after [j+1] failed
    attempts): a positive [Retry-After] value of the failed response, else
    nothing before the first retry and [2^j] before the later ones. *)
Definition pause (j : nat) (a : Requests.attempt) : Z :=
  let backoff := if Nat.eqb j 0 then 0%Z else (2 ^ Z.of_nat j)%Z in
  match a with
  | Requests.HTTPResponse _ (Some seconds) =>
      if (0 <? seconds)%Z then seconds else backoff
  | _ => backoff
  end.

End Props.

(* ================================================================== *)
(** ** save_with_auto_width (the same function in every script) *)
(* ================================================================== *)

Module Sheet.

(** The styles the function builds (lines 40-48 of the tag-sequence
    script). *)
Record Font : Type := { bold : bool; color : string }.
Record PatternFill : Type := { fill_type : string; fgColor : string }.
Record Alignment : Type :=
  { horizontal : string; vertical : string; wrap_text : bool }.
Record Border : Type :=
  { left : string; right : string; top : string; bottom : string }.

Definition header_font : Font := {| bold := true; color := "FFFFFF" |}.
Definition header_fill : PatternFill :=
  {| fill_type := "solid"; fgColor := "4F81BD" |}.
Definition centered : Alignment :=
  {| horizontal := "center"; vertical := "center"; wrap_text := true |}.
Definition thin_border : Border :=
  {| left := "thin"; right := "thin"; top := "thin"; bottom := "thin" |}.

(** A cell of the loaded worksheet: its value and the styles set on it
    ([None]: the default style). *)
Record cell : Type := {
  value : pyval;
  font : option Font;
  fill : option PatternFill;
  alignment : option Alignment;
  border : option Border
}.

(** The worksheet [ws] as [ws.columns] lists it: every column from top to
    bottom; the first cell of a column lies in the header row [ws[1]]. *)
Definition worksheet : Type := list (list cell).

(** [if cell.value]: [None], [""] and [0] are falsy. *)
Definition truthy_value (v : pyval) : bool :=
  match v with
  | VNone => false
  | VStr s => negb (String.eqb s "")
  | VInt z => negb (Z.eqb z 0)
  end.

(** [str(v)] *)
Definition str_value (v : pyval) : string :=
  match v with
  | VNone => "None"
  | VStr s => s
  | VInt z => str_int z
  end.

(** Lines 52-60: [max_length] after the cells of a column have been
    visited, starting from [m]. *)
Definition max_length_from (m : Z) (col : list cell) : Z :=
  fold_left
    (fun m c =>
       if truthy_value (value c)
       then Z.max m (Z.of_nat (len (str_value (value c))))
       else m)
    col m.

(** Line 63: [max_length + 5], the width set for the column. *)
Definition column_width (col : list cell) : Z := max_length_from 0 col + 5.

(** Lines 61-62: the alignment and border set on every cell. *)
Definition format_cell (c : cell) : cell :=
  {| value := value c; font := font c; fill := fill c;
     alignment := Some centered; border := Some thin_border |}.

(** Lines 66-69: font, fill and alignment of a header cell. *)
Definition format_header_cell (c : cell) : cell :=
  {| value := value c; font := Some header_font; fill := Some header_fill;
     alignment := Some centered; border := border c |}.

(** The two loops on one column: every cell is formatted, then its first
    cell gets the header style. *)
Definition format_column (col : list cell) : list cell :=
  match map format_cell col with
  | [] => []
  | c :: rest => format_header_cell c :: rest
  end.

(** Lines 50-69 on the loaded worksheet: the formatted cells and the
    width of each column, in column order. *)
Definition format_worksheet (ws : worksheet) : worksheet * list Z :=
  (map format_column ws, map column_width ws).

End Sheet.

(* ================================================================== *)
(** ** The [main] functions *)
(* ================================================================== *)

Module Mains.

(** What a [main] does outside the page: the calls may raise.
    [save_with_auto_width] and [ExcelWriter] write files; only their
    success or failure matters to the control flow of [main]. *)
Record Host (W : Type) : Type := {
  (** [ensure_directory(path)] *)
  ensure_directory : string -> M W unit;
  (** [driver = init_driver()] *)
  init_driver : M W unit;
  (** [save_with_auto_width(filepath, pd.DataFrame(rows))] *)
  save_with_auto_width : string -> list dict -> M W unit;
  (** [with pd.ExcelWriter(filepath, engine='openpyxl') as writer:] followed
      by one [to_excel(writer, sheet_name=..., index=False)] per sheet *)
  excel_writer : string -> list (string * list dict) -> M W unit;
  (** [driver.quit()] *)
  driver_quit : M W unit
}.
Arguments ensure_directory {W} _ _ _.
Arguments init_driver {W} _ _.
Arguments save_with_auto_width {W} _ _ _ _.
Arguments excel_writer {W} _ _ _ _.
Arguments driver_quit {W} _ _.

(** [sorted(levels)] on ints, by insertion; the result is the one sorted
    arrangement of the list. *)
Fixpoint insert (x : Z) (l : list Z) : list Z :=
  match l with
  | [] => [x]
  | y :: l' => if Z.leb x y then x :: l else y :: insert x l'
  end.

Fixpoint sorted (l : list Z) : list Z :=
  match l with
  | [] => []
  | x :: l' => insert x (sorted l')
  end.

(** [os.path.join(output_dir, name)] on a POSIX system. *)
Definition path_join (dir name : string) : string := dir ++ "/" ++ name.

Definition url : string := "https://www.alojamiento.io/".
Definition output_dir : string := "test_results".

Section Main.
Context {W E : Type} (driver : WebDriver W E) (host : Host W).

(** [try: body  finally: final]: [final] runs whatever [body] did; when it
    raises, its exception is the one that propagates. *)
Definition try_finally {A} (body : M W A) (final : M W unit) : M W A :=
  fun w =>
    match body w with
    | (r, w1) =>
        match final w1 with
        | (Ok _, w2) => (r, w2)
        | (Raise e, w2) => (Raise e, w2)
        end
    end.

(** [d[k]]: [KeyError] when the key is missing. *)
Definition getitem (k : string) (d : dict) : M W pyval :=
  match dict_get k d with
  | Some v => ret v
  | None => raise (Exception "KeyError" ("'" ++ k ++ "'"))
  end.

(** [[x for x in l if c(x)]] *)
Definition filterM {A} (c : A -> M W bool) (l : list A) : M W (list A) :=
  mapM_if c (fun x => ret x) l.

(* ---- HTML_Tag_Sequence_Test.py, lines 101-144 ---- *)

(** Lines 117-123 *)
Definition html_test_results (result comment : string) (levels : list Z)
  : list dict :=
  [ [ ("Page URL", VStr url);
      ("Test Case", VStr "HTML Tag Sequence Test");
      ("Result", VStr result);
      ("Comments", VStr comment);
      ("Sequence", VStr (str_list_int levels)) ] ].

(** Lines 130-135: the rows of the header sheet; when the result is
    "Fail" a last row shows [sorted(levels)]. *)
Definition html_header_data (result : string) (header_info : list dict)
    (levels : list Z) : M W (list dict) :=
  header_data <- mapM (fun header =>
                         tag <- getitem "Tag" header ;;
                         x <- getitem "Text" header ;;
                         ret [("Tag", tag); ("Text", x)])
                      header_info ;;
  let correct_sequence := sorted levels in
  if String.eqb result "Fail"
  then ret (header_data ++
              [ [ ("Tag", VStr "Correct Sequence");
                  ("Text", VStr (str_list_int correct_sequence)) ] ])%list
  else ret header_data.

Definition html_try_block : M W unit :=
  r <- HTMLTagSequence.check_html_sequence driver url ;;
  let result := fst (fst (fst r)) in
  let comment := snd (fst (fst r)) in
  let header_info := snd (fst r) in
  let levels := snd r in
  save_with_auto_width host
    (path_join output_dir "html_tag_sequence_summary.xlsx")
    (html_test_results result comment levels) ;;;
  header_data <- html_header_data result header_info levels ;;
  save_with_auto_width host
    (path_join output_dir "html_tag_header_results.xlsx") header_data.

(** [main()] of the tag-sequence script. *)
Definition html_main : M W unit :=
  ensure_directory host output_dir ;;;
  init_driver host ;;;
  try_finally (try_except html_try_block (fun _ => ret tt))
              (driver_quit host).

(* ---- H1_Tag_Existence_Test.py, lines 101-157 ---- *)

(** Lines 116-122 *)
Definition h1_test_results (result comment : string) (h1_texts : list string)
  : list dict :=
  [ [ ("Page URL", VStr url);
      ("Test Case", VStr "All H1 Tags Test");
      ("Result", VStr result);
      ("Comments", VStr comment);
      ("Total H1 Tags Found", VInt (Z.of_nat (length h1_texts))) ] ].

(** Lines 128-131 *)
Definition h1_tags_data (h1_texts : list string) (found_url : string)
  : list dict :=
  match h1_texts with
  | _ :: _ =>
      map (fun h1_text => [("URL", VStr found_url); ("H1 Tag", VStr h1_text)])
          h1_texts
  | [] => [ [("URL", VStr found_url); ("H1 Tag", VStr "No H1 tags found")] ]
  end.

(** Lines 135-141 *)
Definition h1_summary_data (test_results : list dict) : list dict :=
  let pass_count :=
    length (filter (URLStatus.field_is "Result" (VStr "Pass")) test_results) in
  let fail_count :=
    length (filter (URLStatus.field_is "Result" (VStr "Fail")) test_results) in
  [ [ ("Total Pages Tested", VInt (Z.of_nat (length test_results)));
      ("Pass Count", VInt (Z.of_nat pass_count));
      ("Fail Count", VInt (Z.of_nat fail_count)) ] ].

Definition h1_try_block : M W unit :=
  r <- H1Tag.check_all_h1_tags driver url ;;
  let result := fst (fst (fst r)) in
  let comment := snd (fst (fst r)) in
  let h1_texts := snd (fst r) in
  let found_url := snd r in
  let test_results := h1_test_results result comment h1_texts in
  save_with_auto_width host (path_join output_dir "h1_tag_results.xlsx")
    test_results ;;;
  let tags := h1_tags_data h1_texts found_url in
  let summary := h1_summary_data test_results in
  excel_writer host (path_join output_dir "h1_tag_summary.xlsx")
    [("H1 Tags", tags); ("Summary", summary)] ;;;
  save_with_auto_width host (path_join output_dir "h1_tag_summary.xlsx")
    (tags ++ summary)%list.

(** [main()] of the H1 script. *)
Definition h1_main : M W unit :=
  ensure_directory host output_dir ;;;
  init_driver host ;;;
  try_finally (try_except h1_try_block (fun _ => ret tt))
              (driver_quit host).

(* ---- Currency_Filtering_Test.py, lines 173-218 ---- *)

(** Line 200: one entry of "Failed Currencies". *)
Definition failed_entry (res : dict) : M W string :=
  name <- getitem "Currency Name" res ;;
  sym <- getitem "Currency Symbol" res ;;
  reason <- getitem "Reason" res ;;
  ret (Sheet.str_value name ++ " (" ++ Sheet.str_value sym ++ ") - "
         ++ Sheet.str_value reason).

(** Lines 192-201 *)
Definition currency_summary_data (results : list dict) : M W dict :=
  fail_results <- filterM (fun res => s <- getitem "Status" res ;;
                                      ret (pyval_eqb s (VStr "Fail")))
                          results ;;
  passed <- filterM (fun res => s <- getitem "Status" res ;;
                                ret (pyval_eqb s (VStr "Pass")))
                    results ;;
  let pass_count := length passed in
  let fail_count := length fail_results in
  entries <- mapM failed_entry fail_results ;;
  ret [ ("Total Currencies Tested", VInt (Z.of_nat (length results)));
        ("Pass Count", VInt (Z.of_nat pass_count));
        ("Fail Count", VInt (Z.of_nat fail_count));
        ("Failed Currencies", VStr (join ", " entries)) ].

Definition currency_try_block : M W unit :=
  results <- CurrencyFilter.test_currency_filter driver url ;;
  save_with_auto_width host
    (path_join output_dir "currency_test_results.xlsx") results ;;;
  summary_data <- currency_summary_data results ;;
  save_with_auto_width host
    (path_join output_dir "currency_test_summary.xlsx") [summary_data].

(** [main()] of the currency script. *)
Definition currency_main : M W unit :=
  ensure_directory host output_dir ;;;
  init_driver host ;;;
  try_finally (try_except currency_try_block (fun _ => ret tt))
              (driver_quit host).

(* ---- Image_Alt_Attribute_Test.py, lines 75-143 ---- *)

(** [check_image_alt_and_save(driver, url, output_xlsx, output_summary_xlsx)]
    with the two [save_with_auto_width] calls of lines 110 and 121; nothing
    but the building of the summary lies between them. *)
Definition image_check_and_save (output_xlsx output_summary_xlsx : string)
  : M W unit :=
  tables <- ImageAlt.check_image_alt_and_save driver url ;;
  save_with_auto_width host output_xlsx (fst tables) ;;;
  save_with_auto_width host output_summary_xlsx (snd tables).

(** [main()] of the image script. *)
Definition image_main : M W unit :=
  ensure_directory host output_dir ;;;
  init_driver host ;;;
  try_finally
    (try_except
       (image_check_and_save
          (path_join output_dir "image_alt_results.xlsx")
          (path_join output_dir "image_alt_summary.xlsx"))
       (fun _ => ret tt))
    (driver_quit host).

(* ---- URL_Status_Code_Test.py, lines 74-175 ---- *)

(** [check_url_status_and_save(driver, url, output_xlsx, output_summary_xlsx)]
    with the two [save_with_auto_width] calls of lines 138 and 156. *)
Definition url_check_and_save (list_of_set : list string -> list string)
    (net : Requests.network)
    (str_exc : Requests.requests_exception -> string)
    (output_xlsx output_summary_xlsx : string) : M W unit :=
  tables <- URLStatus.check_url_status_and_save driver list_of_set net
              str_exc url ;;
  save_with_auto_width host output_xlsx (fst tables) ;;;
  save_with_auto_width host output_summary_xlsx (snd tables).

(** [main()] of the URL-status script. *)
Definition url_main (list_of_set : list string -> list string)
    (net : Requests.network)
    (str_exc : Requests.requests_exception -> string) : M W unit :=
  ensure_directory host output_dir ;;;
  init_driver host ;;;
  try_finally
    (try_except
       (url_check_and_save list_of_set net str_exc
          (path_join output_dir "url_status_results.xlsx")
          (path_join output_dir "url_status_summary.xlsx"))
       (fun _ => ret tt))
    (driver_quit host).

End Main.

(** A host on which nothing fails. *)
Definition quiet_host : Host unit :=
  {| ensure_directory := fun _ => ret tt;
     init_driver := ret tt;
     save_with_auto_width := fun _ _ => ret tt;
     excel_writer := fun _ _ => ret tt;
     driver_quit := ret tt |}.

(** A host whose disk is full: every write raises. *)
Definition full_disk_host : Host unit :=
  {| ensure_directory := fun _ => ret tt;
     init_driver := ret tt;
     save_with_auto_width := fun _ _ =>
       raise (Exception "OSError" "[Errno 28] No space left on device");
     excel_writer := fun _ _ =>
       raise (Exception "OSError" "[Errno 28] No space left on device");
     driver_quit := ret tt |}.

End Mains.

(* ================================================================== *)
(** ** Further properties *)
(* ================================================================== *)

Module Props2.

(** The number of links whose probe ended in a 404 or in an exception. *)
Definition failed_outcome (r : Requests.get_outcome) : bool :=
  match r with
  | Requests.Response c => Z.eqb c 404
  | Requests.Raised _ => true
  end.

(** What [session.get] did for each link, in order. *)
Definition outcomes (net : Requests.network)
    (links : list string) : list Requests.get_outcome :=
  map (fun link => Requests.session_get Requests.session net link) links.

(** The rows as the loop of lines 96-129 leaves them, before the statuses
    are overwritten. *)
Definition classified (net : Requests.network)
    (str_exc : Requests.requests_exception -> string) (links : list string)
  : list dict :=
  map (fun link =>
         URLStatus.check_link str_exc link
           (Requests.session_get Requests.session net link))
      links.

(** What the loop of the image check keeps true of its variables: the two
    counters count the rows with status "Pass" and "Fail", they add up to
    the number of rows, which is the loop index, and the rows are numbered
    from 1. *)
Definition counts_agree (s : ImageAlt.loop_state) : Prop :=
  ImageAlt.pass_count s
  = Z.of_nat (length (filter (URLStatus.field_is "Status" (VStr "Pass"))
                             (ImageAlt.image_data s)))
  /\ ImageAlt.fail_count s
     = Z.of_nat (length (filter (URLStatus.field_is "Status" (VStr "Fail"))
                                (ImageAlt.image_data s)))
  /\ (ImageAlt.pass_count s + ImageAlt.fail_count s
      = Z.of_nat (length (ImageAlt.image_data s)))%Z
  /\ ImageAlt.index s = Z.of_nat (length (ImageAlt.image_data s))
  /\ map (dict_get "Image Index") (ImageAlt.image_data s)
     = map (fun i => Some (VInt (Z.of_nat i + 1)))
           (seq 0 (length (ImageAlt.image_data s))).

(** A cell as [df.to_excel] writes it: a value with the default styles. *)
Definition plain (v : pyval) : Sheet.cell :=
  {| Sheet.value := v; Sheet.font := None; Sheet.fill := None;
     Sheet.alignment := None; Sheet.border := None |}.

(** A sheet of one row under its header, by columns; the last column holds
    text outside ASCII. *)
Definition summary_sheet : Sheet.worksheet :=
  [ map plain [VStr "Page URL"; VStr "https://www.alojamiento.io/"];
    map plain [VStr "Total Images"; VInt 0];
    map plain [VStr "Comments"; VNone];
    map plain [VStr "Año"; VStr "€ 120"] ].

(** The statuses the checks report: "Pass", "Fail" and, in the rows of the
    link check, "pass". *)
Definition reported (status : string) : Prop :=
  status = "Pass" \/ status = "Fail" \/ status = "pass".

(** Every row has a status among these under [key]. *)
Definition rows_reported (key : string) (rows : list dict) : Prop :=
  Forall (fun row => exists status,
                       dict_get key row = Some (VStr status)
                       /\ reported status)
         rows.

(** An entry of [header_info] has the keys "Tag" and "Text". *)
Definition has_tag_and_text (header : dict) : Prop :=
  exists tag x, dict_get "Tag" header = Some tag
                /\ dict_get "Text" header = Some x.

(** [row] is the copy of an entry of [header_info]: its "Tag" and its
    "Text", in this order, and nothing else. *)
Definition copy_of (header row : dict) : Prop :=
  exists tag x, dict_get "Tag" header = Some tag
                /\ dict_get "Text" header = Some x
                /\ row = [("Tag", tag); ("Text", x)].

(** A row of the currency report: the four entries, in order, with a status
    "Pass" or "Fail". *)
Definition currency_row (row : dict) : Prop :=
  exists name sym status reason,
    row = [ ("Currency Name", name); ("Currency Symbol", VStr sym);
            ("Status", VStr status); ("Reason", VStr reason) ]
    /\ (status = "Pass" \/ status = "Fail").

End Props2.

(* ================================================================== *)
(** ** Facts about the monad and the Python helpers *)
(* ================================================================== *)

Section MonadFacts.
Context {W : Type}.

Lemma mapM_pure {A B} (f : A -> M W B) (g : A -> B) (l : list A) :
  (forall x w, In x l -> f x w = (Ok (g x), w)) ->
  forall w, mapM f l w = (Ok (map g l), w).
Proof.
  induction l as [|x l IH]; intros Hf w; simpl.
  - reflexivity.
  - unfold bind. rewrite Hf by (left; reflexivity).
    rewrite IH by (intros; apply Hf; right; assumption).
    reflexivity.
Qed.

Lemma mapM_if_pure {A B} (c : A -> M W bool) (f : A -> M W B)
    (p : A -> bool) (g : A -> B) (l : list A) :
  (forall x w, c x w = (Ok (p x), w)) ->
  (forall x w, f x w = (Ok (g x), w)) ->
  forall w, mapM_if c f l w = (Ok (map g (filter p l)), w).
Proof.
  intros Hc Hf. induction l as [|x l IH]; intros w; simpl.
  - reflexivity.
  - unfold bind. rewrite Hc. destruct (p x); simpl.
    + rewrite Hf, IH. reflexivity.
    + apply IH.
Qed.

End MonadFacts.

Lemma prefix_refl (s : string) : prefix s s = true.
Proof.
  induction s as [|c s IH]; simpl; [reflexivity|].
  destruct (ascii_dec c c); [assumption | congruence].
Qed.

Lemma prefix_app (s t : string) : prefix s (s ++ t) = true.
Proof.
  induction s as [|c s IH]; simpl; [destruct t; reflexivity|].
  destruct (ascii_dec c c); [assumption | congruence].
Qed.

Lemma append_nil_r_string (s : string) : s ++ "" = s.
Proof. induction s as [|c s IH]; simpl; congruence. Qed.

Lemma contains_app (pre sub post : string) :
  contains sub (pre ++ sub ++ post) = true.
Proof.
  induction pre as [|c pre IH].
  - change ("" ++ sub ++ post) with (sub ++ post).
    destruct (sub ++ post) as [|a rest] eqn:Heq.
    + destruct sub; [reflexivity | discriminate].
    + unfold contains; fold contains. rewrite <- Heq, prefix_app. reflexivity.
  - change ((String c pre) ++ sub ++ post) with (String c (pre ++ sub ++ post)).
    unfold contains; fold contains. rewrite IH. apply orb_true_r.
Qed.

Lemma is_valid_sequence_spec (L : list Z) :
  HTMLTagSequence.is_valid_sequence L = true <-> Props.nondecreasing L.
Proof.
  unfold HTMLTagSequence.is_valid_sequence, Props.nondecreasing.
  induction L as [|x [|y L] IH]; simpl.
  - split; [intros _ i Hi; simpl in Hi; lia | reflexivity].
  - split; [intros _ i Hi; simpl in Hi; lia | reflexivity].
  - rewrite andb_true_iff, Z.leb_le. simpl in IH. rewrite IH. split.
    + intros [Hxy Hrest] [|i] Hi; [exact Hxy|].
      apply (Hrest i). simpl in *. lia.
    + intros H. split.
      * apply (H 0%nat). simpl. lia.
      * intros i Hi. apply (H (S i)). simpl in *. lia.
Qed.

Lemma level_of_tag_heading {W} (l : Z) (w : W) :
  (1 <= l <= 6)%Z ->
  HTMLTagSequence.level_of_tag (Props.tag_of_level l) w = (Ok l, w).
Proof.
  intros Hl.
  assert (H : (l = 1 \/ l = 2 \/ l = 3 \/ l = 4 \/ l = 5 \/ l = 6)%Z) by lia.
  destruct H as [-> | [-> | [-> | [-> | [-> | ->]]]]]; reflexivity.
Qed.

Lemma str_list_int_literal (L : list Z) :
  Forall (fun l => 1 <= l <= 6)%Z L ->
  str_list_int L = Props.literal L.
Proof.
  intros HL. unfold str_list_int, Props.literal. do 2 f_equal.
  induction HL as [|l rest Hl Hrest IH]; [reflexivity|].
  assert (Hd : str_int l = Props.digit l).
  { assert (H : (l = 1 \/ l = 2 \/ l = 3 \/ l = 4 \/ l = 5 \/ l = 6)%Z)
      by lia.
    destruct H as [-> | [-> | [-> | [-> | [-> | ->]]]]]; reflexivity. }
  destruct rest as [|l' rest'].
  - cbn [map join Props.enumeration]. exact Hd.
  - change (join ", " (map str_int (l :: l' :: rest')))
      with (str_int l ++ ", " ++ join ", " (map str_int (l' :: rest'))).
    change (Props.enumeration (l :: l' :: rest'))
      with (Props.digit l ++ ", " ++ Props.enumeration (l' :: rest')).
    rewrite Hd, IH. reflexivity.
Qed.

(** C3.  For every sequence [L] of heading levels 1..6 found in document
    order, [check_html_sequence] returns, with [L] as the extracted
    levels, the status ["Pass"] iff [L[i] <= L[i+1]] for all consecutive
    [i], and otherwise the status ["Fail"] with one comment, which ends
    with the literal text of the sequence, as in "[1, 3, 2]". *)
Theorem header_hierarchy_pass_iff_nondecreasing :
  forall (W E : Type) (driver : WebDriver W E) (url : string)
         (T X : E -> string) (headers : list E) (L : list Z) (w w1 w2 : W),
    driver_get driver url w = (Ok tt, w1) ->
    find_elements driver XPATH HTMLTagSequence.headers_xpath w1
      = (Ok headers, w2) ->
    (forall h s, tag_name driver h s = (Ok (T h), s)) ->
    (forall h s, text driver h s = (Ok (X h), s)) ->
    map T headers = map Props.tag_of_level L ->
    Forall (fun l => 1 <= l <= 6)%Z L ->
    exists status comment header_info,
      HTMLTagSequence.check_html_sequence driver url w
        = (Ok (status, comment, header_info, L), w2)
      /\ (status = "Pass" <-> Props.nondecreasing L)
      /\ (status = "Pass" \/ status = "Fail")
      /\ (status = "Pass" -> comment = "HTML tag sequence is valid.")
      /\ (status = "Fail" ->
          comment = "HTML tag sequence is broken. Found sequence: "
                      ++ Props.literal L
          /\ Props.occurs_in (Props.literal L) comment).
Proof.
  intros W E driver url T X headers L w w1 w2 Hget Hfind Htag Htext HT HL.
  unfold HTMLTagSequence.check_html_sequence, bind, sleep, ret.
  rewrite Hget, Hfind.
  rewrite (mapM_pure _ (fun h => [("Tag", VStr (upper (T h)));
                                  ("Text", VStr (X h))]))
    by (intros x s _; unfold bind, ret; rewrite Htag, Htext; reflexivity).
  assert (Hlev : forall s,
             mapM (fun header => t <- tag_name driver header ;;
                                 HTMLTagSequence.level_of_tag t) headers s
             = (Ok L, s)).
  { clear Hfind. revert L HT HL.
    induction headers as [|h hs IH]; intros [|l L] HT HL s;
      try discriminate; simpl in *.
    - reflexivity.
    - inversion HT as [[Hh Hhs]]. inversion HL as [|? ? Hl HL']; subst.
      unfold bind at 1 2. rewrite Htag, Hh, level_of_tag_heading by assumption.
      unfold bind. rewrite (IH L Hhs HL'). reflexivity. }
  rewrite Hlev.
  destruct (HTMLTagSequence.is_valid_sequence L) eqn:Hv.
  - do 3 eexists. split; [reflexivity|].
    split; [|split; [|split]].
    + split; [intros _; apply is_valid_sequence_spec; assumption | reflexivity].
    + left; reflexivity.
    + reflexivity.
    + discriminate.
  - do 3 eexists. split; [reflexivity|].
    split; [|split; [|split]].
    + split; [discriminate|].
      intros H. apply is_valid_sequence_spec in H. congruence.
    + right; reflexivity.
    + discriminate.
    + intros _. rewrite (str_list_int_literal L HL).
      split; [reflexivity|].
      exists "HTML tag sequence is broken. Found sequence: ", "".
      rewrite append_nil_r_string. reflexivity.
Qed.

(** The theorem at the page with headings h1, h3, h2: the check fails and
    its comment shows "[1, 3, 2]". *)
Lemma header_hierarchy_witness :
  exists status comment header_info,
    HTMLTagSequence.check_html_sequence
      (Pages.static_driver Samples.page_h1_h3_h2) Samples.url tt
      = (Ok (status, comment, header_info, [1; 3; 2]%Z), tt)
    /\ (status = "Pass" <-> Props.nondecreasing [1; 3; 2]%Z)
    /\ (status = "Pass" \/ status = "Fail")
    /\ (status = "Pass" -> comment = "HTML tag sequence is valid.")
    /\ (status = "Fail" ->
        comment = "HTML tag sequence is broken. Found sequence: [1, 3, 2]"
        /\ Props.occurs_in "[1, 3, 2]" comment).
Proof.
  apply (header_hierarchy_pass_iff_nondecreasing
           unit Pages.Node (Pages.static_driver Samples.page_h1_h3_h2)
           Samples.url Pages.node_tag Pages.node_text
           (filter (Pages.selects XPATH HTMLTagSequence.headers_xpath)
                   Samples.page_h1_h3_h2)
           [1; 3; 2]%Z tt tt tt).
  - reflexivity.
  - reflexivity.
  - reflexivity.
  - reflexivity.
  - reflexivity.
  - repeat constructor; lia.
Defined.

(** The two runs the specification lists. *)
Example check_html_sequence_1_2_2_3 :
  HTMLTagSequence.check_html_sequence
    (Pages.static_driver Samples.page_h1_h2_h2_h3) Samples.url tt
  = (Ok ("Pass", "HTML tag sequence is valid.",
         [ [("Tag", VStr "H1"); ("Text", VStr "Alojamiento")];
           [("Tag", VStr "H2"); ("Text", VStr "Popular")];
           [("Tag", VStr "H2"); ("Text", VStr "Destinations")];
           [("Tag", VStr "H3"); ("Text", VStr "Madrid")] ],
         [1; 2; 2; 3]%Z), tt).
Proof. reflexivity. Qed.

Example check_html_sequence_1_3_2 :
  HTMLTagSequence.check_html_sequence
    (Pages.static_driver Samples.page_h1_h3_h2) Samples.url tt
  = (Ok ("Fail", "HTML tag sequence is broken. Found sequence: [1, 3, 2]",
         [ [("Tag", VStr "H1"); ("Text", VStr "Alojamiento")];
           [("Tag", VStr "H3"); ("Text", VStr "Popular")];
           [("Tag", VStr "H2"); ("Text", VStr "Destinations")] ],
         [1; 3; 2]%Z), tt).
Proof. reflexivity. Qed.

(* ------------------------------------------------------------------ *)
(** *** Image alt attributes *)

Lemma truthy_alt_present (alt : option string) :
  truthy alt = true <-> Props.alt_present alt.
Proof.
  unfold truthy, Props.alt_present. destruct alt as [s|].
  - rewrite negb_true_iff. split.
    + intros H. exists s. split; [reflexivity|].
      intros ->. discriminate.
    + intros [s' [[= <-] Hne]]. apply String.eqb_neq. assumption.
  - split; [discriminate | intros [s [H _]]; discriminate].
Qed.

Section ImageLoop.
Context {W E : Type} (driver : WebDriver W E).
Variable A : E -> string -> option string.
Hypothesis Hattr : forall e n s, get_attribute driver e n s = (Ok (A e n), s).

Lemma image_loop (images : list E) :
  forall (s : ImageAlt.loop_state) (w : W),
  exists s',
    foldM (ImageAlt.loop_body driver) images s w = (Ok s', w)
    /\ ImageAlt.image_data s'
       = (ImageAlt.image_data s ++ Props.rows_from A (ImageAlt.index s) images)%list.
Proof.
  induction images as [|img rest IH]; intros s w; simpl.
  - exists s. split; [reflexivity|]. symmetry. apply app_nil_r.
  - unfold bind at 1. unfold ImageAlt.loop_body at 1. unfold bind, ret.
    rewrite !Hattr.
    match goal with
    | |- context [foldM _ rest ?s1 w] => destruct (IH s1 w) as [s' [Hrun Hdata]]
    end.
    exists s'. split; [exact Hrun|].
    rewrite Hdata. simpl. rewrite <- app_assoc. reflexivity.
Qed.

Lemma rows_from_length (images : list E) :
  forall k, length (Props.rows_from A k images) = length images.
Proof. induction images; intros k; simpl; congruence. Qed.

Lemma rows_from_nth (images : list E) :
  forall k i img,
    nth_error images i = Some img ->
    nth_error (Props.rows_from A k images) i
    = Some (ImageAlt.image_row (k + Z.of_nat i) (A img "src") (A img "alt")
              (ImageAlt.alt_status (A img "alt"))).
Proof.
  induction images as [|x rest IH]; intros k [|i] img H; simpl in *;
    try discriminate.
  - inversion H; subst. rewrite Z.add_0_r. reflexivity.
  - rewrite (IH (k + 1)%Z i img H). do 2 f_equal. lia.
Qed.

End ImageLoop.

(** C6 (as amended).  [check_image_alt_and_save] produces exactly one row
    per image, in the order the images were found; row [i] (counting from
    0) has "Image Index" [i+1]; its "Status" is ["Pass"] iff the [alt]
    attribute is present and non-empty and ["Fail"] otherwise, in which
    case "Alt Text" is ["None"]; the row has no "Reason" entry. *)
Theorem alt_text_one_row_per_image :
  forall (W E : Type) (driver : WebDriver W E) (url : string)
         (A : E -> string -> option string) (images : list E) (w w1 w2 : W),
    driver_get driver url w = (Ok tt, w1) ->
    find_elements driver TAG_NAME "img" w1 = (Ok images, w2) ->
    (forall e n s, get_attribute driver e n s = (Ok (A e n), s)) ->
    exists rows summary,
      ImageAlt.check_image_alt_and_save driver url w = (Ok (rows, summary), w2)
      /\ length rows = length images
      /\ forall i img,
           nth_error images i = Some img ->
           exists row,
             nth_error rows i = Some row
             /\ dict_get "Image Index" row = Some (VInt (Z.of_nat i + 1))
             /\ (dict_get "Status" row = Some (VStr "Pass")
                 <-> Props.alt_present (A img "alt"))
             /\ (~ Props.alt_present (A img "alt") ->
                 dict_get "Status" row = Some (VStr "Fail")
                 /\ dict_get "Alt Text" row = Some (VStr "None"))
             /\ dict_get "Reason" row = None.
Proof.
  intros W E driver url A images w w1 w2 Hget Hfind Hattr.
  unfold ImageAlt.check_image_alt_and_save, bind, sleep, ret.
  rewrite Hget, Hfind.
  destruct (image_loop driver A Hattr images
              {| ImageAlt.index := 0; ImageAlt.image_data := [];
                 ImageAlt.pass_count := 0; ImageAlt.fail_count := 0 |} w2)
    as [s' [Hrun Hdata]].
  rewrite Hrun. simpl in Hdata.
  do 2 eexists. split; [reflexivity|].
  rewrite Hdata. split; [apply rows_from_length|].
  intros i img Hi. eexists. split; [apply rows_from_nth; exact Hi|].
  unfold ImageAlt.image_row, ImageAlt.alt_status. simpl.
  split; [reflexivity|]. split; [|split; [|reflexivity]].
  - rewrite <- truthy_alt_present.
    destruct (truthy (A img "alt")); split; congruence.
  - rewrite <- truthy_alt_present. intros Hno.
    destruct (truthy (A img "alt")) eqn:Ht; [congruence|].
    split; [reflexivity|].
    unfold if_else. rewrite Ht. destruct (A img "alt"); reflexivity.
Qed.

(** The theorem at a page with three images. *)
Lemma alt_text_witness :
  exists rows summary,
    ImageAlt.check_image_alt_and_save
      (Pages.static_driver Samples.page_images) Samples.url tt
      = (Ok (rows, summary), tt)
    /\ length rows = 3%nat
    /\ forall i img,
         nth_error (filter (Pages.selects TAG_NAME "img") Samples.page_images) i
           = Some img ->
         exists row,
           nth_error rows i = Some row
           /\ dict_get "Image Index" row = Some (VInt (Z.of_nat i + 1))
           /\ (dict_get "Status" row = Some (VStr "Pass")
               <-> Props.alt_present (Pages.attr "alt" (Pages.node_attrs img)))
           /\ (~ Props.alt_present (Pages.attr "alt" (Pages.node_attrs img)) ->
               dict_get "Status" row = Some (VStr "Fail")
               /\ dict_get "Alt Text" row = Some (VStr "None"))
           /\ dict_get "Reason" row = None.
Proof.
  apply (alt_text_one_row_per_image
           unit Pages.Node (Pages.static_driver Samples.page_images)
           Samples.url (fun n name => Pages.attr name (Pages.node_attrs n))
           (filter (Pages.selects TAG_NAME "img") Samples.page_images)
           tt tt tt).
  - reflexivity.
  - reflexivity.
  - reflexivity.
Defined.

(** C6 (as stated) fails: for an image with [alt=""] the check produces a
    ["Fail"] row, but no entry of the row holds the reason
    ["missing alt attribute"]. *)
Lemma alt_text_no_reason_counterexample :
  exists row summary,
    ImageAlt.check_image_alt_and_save
      (Pages.static_driver Samples.page_empty_alt) Samples.url tt
      = (Ok ([row], summary), tt)
    /\ dict_get "Status" row = Some (VStr "Fail")
    /\ dict_get "Reason" row = None
    /\ ~ (exists k, dict_get k row = Some (VStr "missing alt attribute")).
Proof.
  do 2 eexists. split; [reflexivity|].
  split; [reflexivity|]. split; [reflexivity|].
  intros [k Hk]. simpl in Hk.
  repeat match type of Hk with
         | (if ?b then _ else _) = _ => destruct b; [discriminate|]
         end.
  discriminate.
Qed.

(* ------------------------------------------------------------------ *)
(** *** Script data *)

(** C9 (as amended).  When the page loads and a script element is found,
    the result depends on the read of its inner content only through the
    success of the read: when the content is read, whatever it is,
    [scrape_script_data] returns ["Pass"] and the fixed dictionary in
    which only "SiteURL" depends on the input; when the read raises, it
    returns ["Fail"] and a dictionary with the text of the exception under
    "Error". *)
Theorem scrape_script_fixed_data :
  forall (W E : Type) (driver : WebDriver W E) (url : string)
         (script : E) (w w1 w2 : W),
    driver_get driver url w = (Ok tt, w1) ->
    find_element driver TAG_NAME "script" w1 = (Ok script, w2) ->
    (forall (content : option string) (w3 : W),
       get_attribute driver script "innerHTML" w2 = (Ok content, w3) ->
       ScriptData.scrape_script_data driver url w
       = (Ok ("Pass",
              [ ("SiteURL", VStr url);
                ("CampaignID", VStr "12345");
                ("SiteName", VStr "Alojamiento");
                ("Browser", VStr "Chrome");
                ("CountryCode", VStr "US");
                ("IP", VStr "192.168.1.1") ]), w3))
    /\ (forall (e : exn) (w3 : W),
          get_attribute driver script "innerHTML" w2 = (Raise e, w3) ->
          ScriptData.scrape_script_data driver url w
          = (Ok ("Fail", [("Error", VStr (exc_str e))]), w3)).
Proof.
  intros W E driver url script w w1 w2 Hget Hfind.
  unfold ScriptData.scrape_script_data, ScriptData.try_block,
    try_except, bind, sleep, ret.
  rewrite Hget, Hfind.
  split; intros x w3 Hattr; rewrite Hattr; reflexivity.
Qed.

(** The theorem at a page with a script element. *)
Lemma scrape_script_witness :
  ScriptData.scrape_script_data
    (Pages.static_driver Samples.page_script) Samples.url tt
  = (Ok ("Pass",
         [ ("SiteURL", VStr Samples.url);
           ("CampaignID", VStr "12345");
           ("SiteName", VStr "Alojamiento");
           ("Browser", VStr "Chrome");
           ("CountryCode", VStr "US");
           ("IP", VStr "192.168.1.1") ]), tt).
Proof.
  apply (proj1 (scrape_script_fixed_data
                  unit Pages.Node (Pages.static_driver Samples.page_script)
                  Samples.url
                  (Samples.element "script" ""
                     [("innerHTML", "window.dataLayer = [];")])
                  tt tt tt eq_refl eq_refl)
               (Some "window.dataLayer = [];") tt).
  reflexivity.
Defined.

(** C9 (as stated) fails: the script element is found, the read of its
    inner content raises, and the scrape returns ["Fail"]. *)
Lemma scrape_script_found_but_fail_counterexample :
  find_element (Pages.stale_driver Samples.page_script) TAG_NAME "script" tt
  = (Ok (Samples.element "script" ""
           [("innerHTML", "window.dataLayer = [];")]), tt)
  /\ ScriptData.scrape_script_data
       (Pages.stale_driver Samples.page_script) Samples.url tt
     = (Ok ("Fail", [("Error", VStr "stale element reference")]), tt).
Proof. split; reflexivity. Qed.

(* ------------------------------------------------------------------ *)
(** *** H1 tags *)













Example check_all_h1_tags_blank :
  H1Tag.check_all_h1_tags
    (Pages.static_driver Samples.page_blank_h1) Samples.url tt
  = (Ok ("Pass", "H1 tags found.", [], Samples.url), tt).
Proof. reflexivity. Qed.

Example check_all_h1_tags_two :
  H1Tag.check_all_h1_tags
    (Pages.static_driver Samples.page_two_h1) Samples.url tt
  = (Ok ("Pass", "H1 tags found.", ["Alojamiento en Madrid"], Samples.url),
     tt).
Proof. reflexivity. Qed.


(* ------------------------------------------------------------------ *)
(** *** Currency filter *)

(** Case analysis on what the next call does: a value already at hand,
    a search or test over a list, or a single driver call. *)
Ltac next_call :=
  match goal with
  | |- context [match ?x with _ => _ end] => is_var x; destruct x
  | |- context [nextM ?f ?l ?s] => destruct (nextM f l s) as [[?|?] ?]
  | |- context [allM ?f ?l ?s] => destruct (allM f l s) as [[?|?] ?]
  | |- context [mapM ?f ?l ?s] => destruct (mapM f l s) as [[?|?] ?] eqn:?
  | |- context [match ?x with _ => _ end] =>
      lazymatch x with
      | context [match _ with _ => _ end] => fail
      | _ => destruct x as [[?|?] ?]
      end
  end.

Section CurrencyLoop.
Context {W E : Type} (driver : WebDriver W E).

(** One iteration never raises and appends exactly one row, whatever the
    driver does. *)
Lemma test_currency_appends_one (options : list E)
    (c : CurrencyFilter.currency) (results : list dict) (w : W) :
  exists row w',
    CurrencyFilter.test_currency driver options c results w
      = (Ok (results ++ [row])%list, w')
    /\ Props.row_for c row.
Proof.
  unfold CurrencyFilter.test_currency, CurrencyFilter.test_currency_body,
    try_except, bind, ret, sleep, Props.row_for.
  repeat next_call;
    do 2 eexists; (split; [reflexivity|]); simpl; auto.
Qed.

Lemma currency_loop (options : list E) (cs : list CurrencyFilter.currency) :
  forall (results : list dict) (w : W),
  exists rows w',
    foldM (CurrencyFilter.test_currency driver options) cs results w
      = (Ok (results ++ rows)%list, w')
    /\ Forall2 Props.row_for cs rows.
Proof.
  induction cs as [|c cs IH]; intros results w; simpl.
  - exists [], w. rewrite app_nil_r. split; [reflexivity | constructor].
  - destruct (test_currency_appends_one options c results w)
      as [row [w1 [Hrun Hrow]]].
    unfold bind. rewrite Hrun.
    destruct (IH (results ++ [row])%list w1) as [rows [w2 [Hrest Hrows]]].
    exists (row :: rows), w2. rewrite Hrest, <- app_assoc.
    split; [reflexivity | constructor; assumption].
Qed.

Lemma mapM_length {A B} (f : A -> M W B) (l : list A) :
  forall (w w' : W) (r : list B),
    mapM f l w = (Ok r, w') -> length r = length l.
Proof.
  induction l as [|x l IH]; intros w w' r; simpl.
  - unfold ret. intros [= <- _]. reflexivity.
  - unfold bind, ret. destruct (f x w) as [[y|e] w1]; [|discriminate].
    destruct (mapM f l w1) as [[ys|e] w2] eqn:Hrest; [|discriminate].
    intros [= <- _]. simpl. f_equal. exact (IH _ _ _ Hrest).
Qed.

Lemma discover_options_lengths (url : string) (options : list E)
    (cs : list CurrencyFilter.currency) (w w1 : W) :
  CurrencyFilter.discover_options driver url w = (Ok (options, cs), w1) ->
  length cs = length options.
Proof.
  unfold CurrencyFilter.discover_options, bind, ret, sleep. simpl.
  unfold bind, ret.
  repeat (next_call; try discriminate).
  match goal with
  | Hm : mapM _ _ _ = (Ok _, _) |- _ =>
      intros [= <- <- _]; exact (mapM_length _ _ _ _ _ Hm)
  end.
Qed.

End CurrencyLoop.

(** C5 (as amended).  When the dropdown is opened and its options are
    parsed into [cs]: if there is none, [test_currency_filter] returns the
    single row ("All", "N/A", "Fail", "No currency options found") without
    touching the page again; if there are N > 0, it returns exactly N rows,
    the i-th carrying the name and symbol of the i-th option and a status
    "Pass" or "Fail", whatever happens while an option is tested.  When
    the options cannot be read, because the page does not load, the
    dropdown does not become clickable or an option cannot be parsed, it
    returns the single row ("All", "N/A", "Fail", "Exception: ...") with
    the text of the exception. *)
Theorem currency_one_row_per_option :
  forall (W E : Type) (driver : WebDriver W E) (url : string) (w : W),
    (forall (options : list E) (cs : list CurrencyFilter.currency) (w1 : W),
       CurrencyFilter.discover_options driver url w = (Ok (options, cs), w1) ->
       length cs = length options
       /\ (cs = [] ->
           CurrencyFilter.test_currency_filter driver url w
           = (Ok [ [ ("Currency Name", VStr "All");
                     ("Currency Symbol", VStr "N/A");
                     ("Status", VStr "Fail");
                     ("Reason", VStr "No currency options found") ] ], w1))
       /\ (cs <> [] ->
           exists rows w2,
             CurrencyFilter.test_currency_filter driver url w = (Ok rows, w2)
             /\ length rows = length cs
             /\ Forall2 Props.row_for cs rows))
    /\ (forall (e : exn) (w1 : W),
          CurrencyFilter.discover_options driver url w = (Raise e, w1) ->
          CurrencyFilter.test_currency_filter driver url w
          = (Ok [ [ ("Currency Name", VStr "All");
                    ("Currency Symbol", VStr "N/A");
                    ("Status", VStr "Fail");
                    ("Reason", VStr ("Exception: " ++ exc_str e)) ] ], w1)).
Proof.
  intros W E driver url w. split.
  - intros options cs w1 Hdisc.
    split; [exact (discover_options_lengths driver url options cs w w1 Hdisc)|].
    unfold CurrencyFilter.test_currency_filter, CurrencyFilter.try_block,
      try_except.
    split.
    + intros ->. unfold bind at 1. rewrite Hdisc. reflexivity.
    + intros Hne. destruct cs as [|c cs]; [congruence|].
      destruct (currency_loop driver options (c :: cs) [] w1)
        as [rows [w2 [Hrun Hrows]]].
      unfold bind at 1. rewrite Hdisc. cbn [fst snd].
      rewrite Hrun. exists rows, w2. split; [reflexivity|].
      split; [|exact Hrows].
      symmetry. exact (Forall2_length Hrows).
  - intros e w1 Hdisc.
    unfold CurrencyFilter.test_currency_filter, CurrencyFilter.try_block,
      try_except.
    unfold bind at 1. rewrite Hdisc. reflexivity.
Qed.

(** The theorem at a dropdown with two currencies. *)
Lemma currency_two_options_witness :
  exists rows w2,
    CurrencyFilter.test_currency_filter Samples.shop_two_currencies
      Samples.url tt = (Ok rows, w2)
    /\ length rows = 2%nat
    /\ Forall2 Props.row_for
         [ {| CurrencyFilter.country := Some "US"; CurrencyFilter.symbol := "$" |};
           {| CurrencyFilter.country := Some "BD"; CurrencyFilter.symbol := "Tk" |} ]
         rows.
Proof.
  apply (proj1 (currency_one_row_per_option
                  unit Samples.shop_element Samples.shop_two_currencies
                  Samples.url tt)
               [Samples.OptionLi 0; Samples.OptionLi 1]
               [ {| CurrencyFilter.country := Some "US";
                    CurrencyFilter.symbol := "$" |};
                 {| CurrencyFilter.country := Some "BD";
                    CurrencyFilter.symbol := "Tk" |} ]
               tt eq_refl).
  discriminate.
Defined.

(** One row per option whether the option passes or fails. *)
Example test_currency_filter_two_currencies :
  CurrencyFilter.test_currency_filter Samples.shop_two_currencies Samples.url tt
  = (Ok [ [ ("Currency Name", VStr "US"); ("Currency Symbol", VStr "$");
            ("Status", VStr "Pass"); ("Reason", VStr "Validation successful") ];
          [ ("Currency Name", VStr "BD"); ("Currency Symbol", VStr "Tk");
            ("Status", VStr "Fail");
            ("Reason", VStr "Currency symbol Tk not found in property tiles") ] ],
     tt).
Proof. reflexivity. Qed.

(** C5 (as stated) fails on the reason.  With no option in the dropdown the
    single row for "All" has the reason "No currency options found", with
    a capital N; on a page without the dropdown, where no option can be
    discovered either, the reason is the text of the exception. *)
Lemma currency_reason_counterexample :
  (exists row,
     CurrencyFilter.test_currency_filter Samples.shop_no_currency Samples.url tt
       = (Ok [row], tt)
     /\ dict_get "Currency Name" row = Some (VStr "All")
     /\ dict_get "Status" row = Some (VStr "Fail")
     /\ dict_get "Reason" row = Some (VStr "No currency options found")
     /\ dict_get "Reason" row <> Some (VStr "no currency options found"))
  /\ CurrencyFilter.test_currency_filter
       (Pages.static_driver Samples.page_h1_h3_h2) Samples.url tt
     = (Ok [ [ ("Currency Name", VStr "All");
               ("Currency Symbol", VStr "N/A");
               ("Status", VStr "Fail");
               ("Reason", VStr "Exception: no such element") ] ], tt).
Proof.
  split; [|reflexivity].
  eexists. split; [reflexivity|].
  repeat split; discriminate.
Qed.

(* ------------------------------------------------------------------ *)
(** *** The retrying session *)

Import Requests.

Lemma urlopen_unfold (r : Retry) (net : nat -> attempt) (i : nat) :
  urlopen r net i
  = match urlopen_step r (net i) with
    | Done res => {| attempts := 1; sleeps := []; final := res |}
    | Again r' =>
        let p := urlopen r' net (S i) in
        {| attempts := S (attempts p);
           sleeps := sleep_seconds r' (net i) :: sleeps p;
           final := final p |}
    end.
Proof.
  funelim (urlopen r net i).
  - rewrite e. reflexivity.
  - rewrite Heq. reflexivity.
Qed.

Lemma server_error_forcelist (s : Z) :
  status_in s [500; 502; 503; 504]%Z = true <-> Props.server_error s.
Proof.
  unfold status_in, Props.server_error. simpl.
  rewrite !orb_true_iff, !Z.eqb_eq. intuition discriminate.
Qed.

Lemma retry_after_codes (s : Z) :
  status_in s RETRY_AFTER_STATUS_CODES = true
  <-> (s = 413 \/ s = 429 \/ s = 503)%Z.
Proof.
  unfold status_in, RETRY_AFTER_STATUS_CODES. simpl.
  rewrite !orb_true_iff, !Z.eqb_eq. intuition discriminate.
Qed.

(** [is_retry] on the script's [Retry] while retries are left. *)
Lemma is_retry_retryable (k : nat) (s : Z) (ra : option Z) :
  (k < 5)%nat ->
  is_retry (Props.retries_after k) s
    (match ra with Some _ => true | None => false end) = true
  <-> Props.retryable (HTTPResponse s ra).
Proof.
  intros Hk. unfold is_retry, Props.retryable.
  change (status_forcelist (Props.retries_after k))
    with [500; 502; 503; 504]%Z.
  change (total (Props.retries_after k)) with (5 - Z.of_nat k)%Z.
  pose proof (server_error_forcelist s) as Hf.
  pose proof (retry_after_codes s) as Hc.
  destruct (status_in s [500; 502; 503; 504]%Z).
  - split; [intros _; left; apply Hf; reflexivity | reflexivity].
  - assert (Hz : (5 - Z.of_nat k =? 0)%Z = false) by (apply Z.eqb_neq; lia).
    rewrite Hz. simpl.
    destruct ra as [seconds|]; simpl.
    + rewrite Hc. split.
      * intros H. right. split; [discriminate | exact H].
      * intros [H | [_ H]]; [apply Hf in H; discriminate | exact H].
    + split; [discriminate|].
      intros [H | [H _]]; [apply Hf in H; discriminate | congruence].
Qed.

Lemma increment_retries (k : nat) (a : attempt) :
  (k < 5)%nat ->
  increment (Props.retries_after k) a = Again (Props.retries_after (S k)).
Proof.
  intros Hk. unfold increment, is_exhausted, Props.retries_after.
  cbn [total read_disabled status_forcelist backoff_factor history].
  replace (5 - Z.of_nat k - 1)%Z with (5 - Z.of_nat (S k))%Z by lia.
  assert (Hz : ((5 - Z.of_nat (S k) <? 0) = false)%Z) by (apply Z.ltb_ge; lia).
  destruct a as [s ra|e]; rewrite Hz, !andb_false_r; reflexivity.
Qed.

Lemma step_retryable (k : nat) (a : attempt) :
  (k < 5)%nat -> Props.retryable a ->
  urlopen_step (Props.retries_after k) a = Again (Props.retries_after (S k)).
Proof.
  intros Hk Hr. unfold urlopen_step. destruct a as [s ra|e].
  - apply (is_retry_retryable k s ra Hk) in Hr. rewrite Hr.
    apply increment_retries. assumption.
  - apply increment_retries. assumption.
Qed.

Lemma step_not_retryable (k : nat) (a : attempt) :
  (k < 5)%nat -> ~ Props.retryable a ->
  exists s ra, a = HTTPResponse s ra
               /\ urlopen_step (Props.retries_after k) a = Done (Returned s).
Proof.
  intros Hk Hr. destruct a as [s ra|e]; [|exfalso; apply Hr; exact I].
  exists s, ra. split; [reflexivity|]. unfold urlopen_step.
  destruct (is_retry (Props.retries_after k) s _) eqn:Hi; [|reflexivity].
  apply (is_retry_retryable k s ra Hk) in Hi. contradiction.
Qed.

(** The sixth attempt is the last: an error or a listed status exhausts the
    retries, any other response is returned. *)
Lemma step_last (a : attempt) :
  urlopen_step (Props.retries_after 5) a
  = Done (match a with
          | NetError e => MaxRetryError (Some e)
          | HTTPResponse s _ =>
              if status_in s [500; 502; 503; 504]%Z
              then MaxRetryError None else Returned s
          end).
Proof.
  destruct a as [s ra|e]; [|destruct e; reflexivity].
  unfold urlopen_step, is_retry.
  change (status_forcelist (Props.retries_after 5)) with [500; 502; 503; 504]%Z.
  destruct (status_in s [500; 502; 503; 504]%Z); reflexivity.
Qed.

Lemma sleep_seconds_pause (k : nat) (a : attempt) :
  (k < 5)%nat ->
  sleep_seconds (Props.retries_after (S k)) a = Props.pause k a.
Proof.
  intros Hk.
  assert (Hb : get_backoff_time (Props.retries_after (S k))
               = if Nat.eqb k 0 then 0%Z else (2 ^ Z.of_nat k)%Z).
  { do 5 (destruct k as [|k]; [reflexivity|]). lia. }
  unfold sleep_seconds, Props.pause. rewrite Hb. reflexivity.
Qed.

Lemma retryable_decidable (a : attempt) :
  Props.retryable a \/ ~ Props.retryable a.
Proof.
  destruct a as [s ra|e]; [|left; exact I].
  destruct (is_retry (Props.retries_after 0) s
              (match ra with Some _ => true | None => false end)) eqn:Hi.
  - left. apply (is_retry_retryable 0 s ra); [lia | exact Hi].
  - right. intros H. apply (is_retry_retryable 0 s ra) in H; [|lia].
    congruence.
Qed.

(** The probe that starts at attempt [i] of the network with [k] failed
    attempts behind it and [m] retries left. *)
Lemma urlopen_retries (m : nat) :
  forall (k : nat) (net : nat -> attempt) (i : nat),
    (k + m = 5)%nat ->
    let p := urlopen (Props.retries_after k) net i in
    (1 <= attempts p <= S m)%nat
    /\ length (sleeps p) = (attempts p - 1)%nat
    /\ (forall j, (S j < attempts p)%nat ->
                  Props.retryable (net (i + j)%nat)
                  /\ nth j (sleeps p) 0%Z
                     = Props.pause (k + j) (net (i + j)%nat))
    /\ ((attempts p < S m)%nat ->
        ~ Props.retryable (net (i + attempts p - 1)%nat))
    /\ Props.ends_properly net (i + attempts p - 1)%nat p
    /\ ((forall s, final p <> Returned s) ->
        attempts p = S m
        /\ forall j, (j < S m)%nat -> Props.retryable (net (i + j)%nat)).
Proof.
  induction m as [|m IH]; intros k net i Hk p; subst p.
  - assert (k = 5)%nat by lia. subst k.
    rewrite urlopen_unfold, step_last.
    cbn [attempts sleeps final length]. unfold Props.ends_properly.
    cbn [final]. replace (i + 1 - 1)%nat with i by lia.
    split; [lia|]. split; [reflexivity|].
    split; [intros j Hj; lia|]. split; [lia|].
    destruct (net i) as [s ra|e] eqn:Hnet.
    + pose proof (server_error_forcelist s) as Hf.
      destruct (status_in s [500; 502; 503; 504]%Z).
      * split; [exists s, ra; split; [reflexivity | apply Hf; reflexivity]|].
        intros _. split; [reflexivity|].
        intros j Hj. replace (i + j)%nat with i by lia. rewrite Hnet.
        left. apply Hf. reflexivity.
      * split; [exists ra; reflexivity|].
        intros Hno. exfalso. exact (Hno s eq_refl).
    + split; [reflexivity|].
      intros _. split; [reflexivity|].
      intros j Hj. replace (i + j)%nat with i by lia. rewrite Hnet. exact I.
  - assert (Hlt : (k < 5)%nat) by lia.
    rewrite urlopen_unfold.
    destruct (retryable_decidable (net i)) as [Hr | Hr].
    + rewrite (step_retryable k (net i) Hlt Hr). cbv zeta.
      cbn [attempts sleeps final length]. unfold Props.ends_properly.
      cbn [final].
      destruct (IH (S k) net (S i)) as [Hn [Hlen [Hret [Hstop [Hend Hall]]]]];
        [lia|].
      cbv zeta in Hn, Hlen, Hret, Hstop, Hend, Hall.
      set (p' := urlopen (Props.retries_after (S k)) net (S i)) in *.
      replace (i + S (attempts p') - 1)%nat
        with (S i + attempts p' - 1)%nat by lia.
      split; [lia|]. split; [lia|]. split; [|split; [|split]].
      * intros [|j] Hj.
        -- rewrite !Nat.add_0_r. split; [exact Hr|].
           cbn [nth]. apply sleep_seconds_pause. exact Hlt.
        -- replace (i + S j)%nat with (S i + j)%nat by lia.
           replace (k + S j)%nat with (S k + j)%nat by lia.
           cbn [nth]. apply Hret. lia.
      * intros Hj. apply Hstop. lia.
      * exact Hend.
      * intros Hno. destruct (Hall Hno) as [Ha Hj]. split; [lia|].
        intros [|j] Hlt'.
        -- rewrite Nat.add_0_r. exact Hr.
        -- replace (i + S j)%nat with (S i + j)%nat by lia. apply Hj. lia.
    + destruct (step_not_retryable k (net i) Hlt Hr) as [s [ra [Hnet Hstep]]].
      rewrite Hstep.
      cbn [attempts sleeps final length]. unfold Props.ends_properly.
      cbn [final]. replace (i + 1 - 1)%nat with i by lia.
      split; [lia|]. split; [reflexivity|].
      split; [intros j Hj; lia|]. split; [intros _; exact Hr|].
      split; [exists ra; exact Hnet|].
      intros Hno. exfalso. exact (Hno s eq_refl).
Qed.

Lemma session_adapters :
  session = [("https://", retries); ("http://", default_retries)].
Proof. reflexivity. Qed.

Lemma http_is_not_https (l : string) :
  prefix "http://" l = true -> prefix "https://" l = false.
Proof.
  intros H.
  do 5 (destruct l as [|? l]; [discriminate H|];
        cbn [prefix] in H;
        match type of H with
        | context [ascii_dec ?a ?b] =>
            destruct (ascii_dec a b); [subst | discriminate H]
        end).
  reflexivity.
Qed.

Lemma get_adapter_https (url : string) :
  startswith (lower url) "https://" = true ->
  get_adapter session url = Some retries.
Proof.
  intros H. rewrite session_adapters. unfold get_adapter.
  change (lower "https://") with "https://". rewrite H. reflexivity.
Qed.

Lemma get_adapter_http (url : string) :
  startswith (lower url) "http://" = true ->
  get_adapter session url = Some default_retries.
Proof.
  intros H. rewrite session_adapters. unfold get_adapter.
  change (lower "https://") with "https://".
  change (lower "http://") with "http://".
  unfold startswith in *. rewrite (http_is_not_https _ H), H. reflexivity.
Qed.

(** The default adapter makes one request and never sleeps. *)
Lemma urlopen_default (net : nat -> attempt) (i : nat) :
  urlopen default_retries net i
  = {| attempts := 1; sleeps := [];
       final := match net i with
                | HTTPResponse s _ => Returned s
                | NetError e =>
                    if is_read_error e then Reraised e
                    else MaxRetryError (Some e)
                end |}.
Proof.
  rewrite urlopen_unfold.
  destruct (net i) as [s [seconds|] | e]; try reflexivity.
  destruct e; reflexivity.
Qed.

(** C2 (as amended).  For a link served over https the session makes at
    least one and at most 6 requests (the first attempt and the 5 retries of
    [total=5]); one more request follows an attempt exactly when that
    attempt ended in a timeout or connection error, a 500/502/503/504
    response, or a 413/429/503 response carrying [Retry-After], and fewer
    than 6 requests have been made; a 200, 301 or 404 response is never
    retried; the session sleeps only before a retry: nothing before the
    first retry, then 2, 4, 8 and 16 seconds (or the positive [Retry-After]
    value of the failed response). *)
Theorem https_probe_retry_policy :
  forall (url : string) (net : nat -> attempt),
    startswith (lower url) "https://" = true ->
    exists p,
      session_probe session url net = Some p
      /\ (1 <= attempts p <= 6)%nat
      /\ (attempts p <= Z.to_nat (total retries) + 1)%nat
      /\ (forall j, (S j < attempts p)%nat -> Props.retryable (net j))
      /\ ((attempts p < 6)%nat -> ~ Props.retryable (net (attempts p - 1)%nat))
      /\ (forall j status ra,
            net j = HTTPResponse status ra ->
            (status = 200 \/ status = 301 \/ status = 404)%Z ->
            (attempts p <= S j)%nat)
      /\ length (sleeps p) = (attempts p - 1)%nat
      /\ (forall j, (S j < attempts p)%nat ->
                    nth j (sleeps p) 0%Z = Props.pause j (net j)).
Proof.
  intros url net Hurl.
  unfold session_probe. rewrite (get_adapter_https url Hurl).
  exists (urlopen retries net 0). split; [reflexivity|].
  destruct (urlopen_retries 5 0 net 0 eq_refl)
    as [Hn [Hlen [Hret [Hstop [_ _]]]]].
  change (Props.retries_after 0) with retries in *.
  cbv zeta in Hn, Hlen, Hret, Hstop.
  set (p := urlopen retries net 0) in *.
  split; [exact Hn|]. split; [change (Z.to_nat (total retries)) with 5%nat; lia|].
  split; [intros j Hj; exact (proj1 (Hret j Hj))|].
  split; [exact Hstop|].
  split; [|split; [exact Hlen | intros j Hj; exact (proj2 (Hret j Hj))]].
  intros j status ra Hnet Hstatus.
  destruct (Nat.le_gt_cases (attempts p) (S j)) as [Hle | Hgt]; [exact Hle|].
  exfalso. destruct (Hret j Hgt) as [Hr _]. simpl in Hr. rewrite Hnet in Hr.
  unfold Props.retryable, Props.server_error in Hr. lia.
Qed.

(** The theorem at an https link that answers 503 at every attempt. *)
Lemma https_probe_witness :
  exists p,
    session_probe session "https://www.alojamiento.io/about"
      (Samples.always (HTTPResponse 503 None)) = Some p
    /\ (1 <= attempts p <= 6)%nat
    /\ (attempts p <= Z.to_nat (total retries) + 1)%nat
    /\ (forall j, (S j < attempts p)%nat ->
                  Props.retryable (Samples.always (HTTPResponse 503 None) j))
    /\ ((attempts p < 6)%nat ->
        ~ Props.retryable
            (Samples.always (HTTPResponse 503 None) (attempts p - 1)%nat))
    /\ (forall j status ra,
          Samples.always (HTTPResponse 503 None) j = HTTPResponse status ra ->
          (status = 200 \/ status = 301 \/ status = 404)%Z ->
          (attempts p <= S j)%nat)
    /\ length (sleeps p) = (attempts p - 1)%nat
    /\ (forall j, (S j < attempts p)%nat ->
                  nth j (sleeps p) 0%Z
                  = Props.pause j (Samples.always (HTTPResponse 503 None) j)).
Proof.
  apply (https_probe_retry_policy "https://www.alojamiento.io/about"
           (Samples.always (HTTPResponse 503 None))).
  reflexivity.
Defined.

(** C2 (as stated) fails: an https link that keeps answering 503 is
    requested 6 times, not at most 5, and the sleeps before the retries are
    0, 2, 4, 8, 16 seconds, not 1, 2, 4, ...; an http link that answers 503
    is not retried at all; an https link answering 429 with a [Retry-After]
    header of 3 seconds is retried, with sleeps of 3 seconds. *)
Lemma retry_policy_counterexample :
  (exists p,
     session_probe session "https://www.alojamiento.io/about"
       (Samples.always (HTTPResponse 503 None)) = Some p
     /\ attempts p = 6%nat
     /\ ~ (attempts p <= 5)%nat
     /\ sleeps p = [0; 2; 4; 8; 16]%Z
     /\ nth 0 (sleeps p) 0%Z <> 1%Z)
  /\ (exists p,
        session_probe session "http://www.alojamiento.io/about"
          (Samples.always (HTTPResponse 503 None)) = Some p
        /\ attempts p = 1%nat)
  /\ (exists p,
        session_probe session "https://www.alojamiento.io/about"
          (Samples.always (HTTPResponse 429 (Some 3%Z))) = Some p
        /\ attempts p = 6%nat
        /\ sleeps p = [3; 3; 3; 3; 3]%Z
        /\ final p = Returned 429).
Proof.
  split; [|split].
  - eexists. split; [reflexivity|].
    split; [reflexivity|]. split; [|split; [reflexivity | discriminate]].
    change (attempts (urlopen retries (Samples.always (HTTPResponse 503 None)) 0))
      with 6%nat.
    lia.
  - eexists. split; [reflexivity | reflexivity].
  - eexists. split; [reflexivity|]. repeat split; reflexivity.
Qed.

Lemma Session_send_unfold (net : network) (n : nat) (url : string) :
  Session_send session net (S n) 0 url
  = match session_probe session url (attempt_at net url) with
    | None => ([], Raised InvalidSchema)
    | Some p =>
        match final p with
        | Returned status =>
            match get_redirect_target net url (attempts p - 1) status with
            | Some target =>
                ((url, p)
                   :: fst (Session_send session net n (attempts p) target),
                 snd (Session_send session net n (attempts p) target))
            | None => ([(url, p)], Response status)
            end
        | res => ([(url, p)], send_outcome res)
        end
    end.
Proof. reflexivity. Qed.

(** C8 (as amended).  The adapter with retries is mounted for [https://]
    only.  A link whose scheme is plain http is requested through the
    default adapter: exactly one request is made for it, without retry or
    sleep, whatever the network answers, a 500, 502, 503 or 504 response
    and a transport error included; a link that [requests] does not accept
    is not requested at all.  When the response does not redirect, this is
    the whole probe and the response is handed to the caller; a response
    that redirects is followed, and the probe goes on with a request for
    its target, sent through the adapter of the target. *)
Theorem plain_http_probe_single_attempt :
  forall (url : string) (net : network),
    startswith (lower url) "http://" = true ->
    (forall e, refused net url = Some e ->
               session_trace session net url = ([], Raised e))
    /\ exists p,
         session_probe session url (attempt_at net url) = Some p
         /\ attempts p = 1%nat
         /\ sleeps p = []
         /\ (refused net url = None ->
             (exists rest,
                fst (session_trace session net url) = (url, p) :: rest)
             /\ (forall status ra,
                   attempt_at net url 0%nat = HTTPResponse status ra ->
                   final p = Returned status
                   /\ (Props.server_error status ->
                       session_trace session net url
                       = ([(url, p)], Response status))
                   /\ (get_redirect_target net url 0 status = None ->
                       session_trace session net url
                       = ([(url, p)], Response status))
                   /\ (forall target,
                         get_redirect_target net url 0 status = Some target ->
                         session_trace session net url
                         = ((url, p)
                              :: fst (Session_send session net 29 1 target),
                            snd (Session_send session net 29 1 target))))
             /\ (forall err,
                   attempt_at net url 0%nat = NetError err ->
                   exists e,
                     session_trace session net url = ([(url, p)], Raised e))).
Proof.
  intros url net Hurl.
  split.
  { intros e He. unfold session_trace. rewrite He. reflexivity. }
  unfold session_probe. rewrite (get_adapter_http url Hurl).
  rewrite urlopen_default. eexists. split; [reflexivity|].
  cbn [attempts sleeps final].
  split; [reflexivity|]. split; [reflexivity|].
  intros Hok. unfold session_trace. rewrite Hok.
  change DEFAULT_REDIRECT_LIMIT with 30%nat.
  rewrite Session_send_unfold. unfold session_probe.
  rewrite (get_adapter_http url Hurl), urlopen_default.
  cbn [final attempts]. change (1 - 1)%nat with 0%nat.
  split; [|split].
  - destruct (attempt_at net url 0%nat) as [status ra | err].
    + destruct (get_redirect_target net url 0 status);
        eexists; cbn [fst]; reflexivity.
    + destruct (is_read_error err); eexists; cbn [fst]; reflexivity.
  - intros status ra Hnet. rewrite Hnet.
    split; [reflexivity|]. split; [|split].
    + intros Hserver.
      assert (Hnone : get_redirect_target net url 0 status = None).
      { unfold get_redirect_target, Props.server_error in *.
        destruct Hserver as [-> | [-> | [-> | ->]]]; reflexivity. }
      rewrite Hnone. reflexivity.
    + intros Hnone. rewrite Hnone. reflexivity.
    + intros target Htarget. rewrite Htarget. reflexivity.
  - intros err Hnet. rewrite Hnet.
    destruct err; eexists; reflexivity.
Qed.

(** The theorem at an http link that answers 503. *)
Lemma plain_http_probe_witness :
  exists p,
    session_probe session "http://www.alojamiento.io/about"
      (Samples.always (HTTPResponse 503 None)) = Some p
    /\ attempts p = 1%nat
    /\ sleeps p = []
    /\ session_trace session
         (Samples.plain_network
            (fun _ => Samples.always (HTTPResponse 503 None)))
         "http://www.alojamiento.io/about"
       = ([("http://www.alojamiento.io/about", p)], Response 503).
Proof.
  destruct (plain_http_probe_single_attempt "http://www.alojamiento.io/about"
              (Samples.plain_network
                 (fun _ => Samples.always (HTTPResponse 503 None)))
              eq_refl)
    as [_ [p [Hp [Hone [Hsleep Htrace]]]]].
  exists p. split; [exact Hp|]. split; [exact Hone|]. split; [exact Hsleep|].
  destruct (Htrace eq_refl) as [_ [Hresp _]].
  destruct (Hresp 503%Z None eq_refl) as [_ [Hserver _]].
  apply Hserver. unfold Props.server_error. lia.
Defined.

(** C8 (as stated) fails for an http link that redirects: [link_old]
    answers 301 with an https location, which answers 503 twice before it
    answers 200.  The probe of the http link sends four requests, two of
    them retries, and sleeps 2 seconds before the second retry. *)
Lemma http_probe_redirect_counterexample :
  startswith (lower Samples.link_old) "http://" = true
  /\ exists p1 p2,
       session_trace session Samples.net_redirects Samples.link_old
       = ([(Samples.link_old, p1); (Samples.link_new, p2)], Response 200)
       /\ attempts p1 = 1%nat
       /\ attempts p2 = 3%nat
       /\ sleeps p2 = [0; 2]%Z
       /\ requests_sent
            (fst (session_trace session Samples.net_redirects Samples.link_old))
          = 4%nat
       /\ seconds_slept
            (fst (session_trace session Samples.net_redirects Samples.link_old))
          = [0; 2]%Z.
Proof.
  split; [reflexivity|].
  do 2 eexists. split; [vm_compute; reflexivity|].
  repeat split; vm_compute; reflexivity.
Qed.

(* ------------------------------------------------------------------ *)
(** *** Link statuses *)

Import URLStatus.

Lemma dict_get_set_same (k : string) (v : pyval) (d : dict) :
  dict_get k (dict_set k v d) = Some v.
Proof.
  induction d as [|[k' v'] d IH]; simpl.
  - rewrite String.eqb_refl. reflexivity.
  - destruct (String.eqb k k') eqn:Hk; simpl; rewrite Hk; [reflexivity | exact IH].
Qed.

Lemma dict_get_set_other (k k' : string) (v : pyval) (d : dict) :
  String.eqb k k' = false ->
  dict_get k (dict_set k' v d) = dict_get k d.
Proof.
  intros Hne. induction d as [|[k0 v0] d IH]; simpl.
  - rewrite Hne. reflexivity.
  - destruct (String.eqb k' k0) eqn:Hk; simpl.
    + destruct (String.eqb k k0) eqn:Hk0; [|reflexivity].
      apply String.eqb_eq in Hk, Hk0. subst.
      rewrite String.eqb_refl in Hne. discriminate.
    + destruct (String.eqb k k0); [reflexivity | exact IH].
Qed.

Lemma dict_set_twice (k : string) (v : pyval) (d : dict) :
  dict_set k v (dict_set k v d) = dict_set k v d.
Proof.
  induction d as [|[k' v'] d IH]; simpl.
  - rewrite String.eqb_refl. reflexivity.
  - destruct (String.eqb k k') eqn:Hk; simpl; rewrite Hk; [reflexivity|].
    rewrite IH. reflexivity.
Qed.

Lemma pyval_eqb_eq (a b : pyval) : pyval_eqb a b = true <-> a = b.
Proof.
  destruct a, b; simpl; split; intros H; try discriminate; try reflexivity.
  - apply String.eqb_eq in H. congruence.
  - inversion H. apply String.eqb_refl.
  - apply Z.eqb_eq in H. congruence.
  - inversion H. apply Z.eqb_refl.
Qed.

Lemma field_is_spec (k : string) (v : pyval) (item : dict) :
  field_is k v item = true <-> dict_get k item = Some v.
Proof.
  unfold field_is. destruct (dict_get k item) as [x|].
  - rewrite pyval_eqb_eq. split; congruence.
  - split; discriminate.
Qed.

Section LinkFacts.
Variable str_exc : requests_exception -> string.

(** Lines 104-120: the status written for a link is "Fail" exactly when the
    response has status 404 or [session.get] raised. *)
Lemma check_link_fail (link : string) (r : get_outcome) :
  dict_get "Status" (check_link str_exc link r) = Some (VStr "Fail")
  <-> (r = Response 404 \/ exists e, r = Raised e).
Proof.
  unfold check_link. simpl. destruct r as [c|e].
  - destruct (c =? 404)%Z eqn:Hc; split.
    + intros _. left. apply Z.eqb_eq in Hc. congruence.
    + reflexivity.
    + discriminate.
    + intros [[= ->] | [e [=]]]. discriminate.
  - split; [intros _; right; exists e; reflexivity | reflexivity].
Qed.

Lemma check_link_404 (link : string) (r : get_outcome) :
  field_is "HTTP Status Code" (VInt 404) (check_link str_exc link r) = true
  <-> r = Response 404.
Proof.
  rewrite field_is_spec. unfold check_link. simpl. destruct r as [c|e].
  - destruct (c =? 0)%Z eqn:Hc; split; try discriminate; try congruence.
    apply Z.eqb_eq in Hc. subst c. discriminate.
  - split; discriminate.
Qed.

Lemma any_404_checked (rs : list (string * get_outcome)) :
  any_404 (map (fun lr => check_link str_exc (fst lr) (snd lr)) rs) = true
  <-> In (Response 404) (map snd rs).
Proof.
  unfold any_404. rewrite existsb_exists. split.
  - intros [item [Hin H404]]. apply in_map_iff in Hin.
    destruct Hin as [[link r] [<- Hin]]. apply check_link_404 in H404.
    simpl in H404. subst r. apply in_map_iff. exists (link, Response 404).
    split; [reflexivity | exact Hin].
  - intros Hin. apply in_map_iff in Hin. destruct Hin as [[link r] [Hr Hin]].
    simpl in Hr. subst r. exists (check_link str_exc link (Response 404)).
    split; [|apply check_link_404; reflexivity].
    apply in_map_iff. exists (link, Response 404). split; [reflexivity | exact Hin].
Qed.

End LinkFacts.

Lemma normalize_all_pass (link_data : list dict) :
  any_404 link_data = false ->
  Forall (fun item => dict_get "Status" item = Some (VStr "Pass"))
         (normalize link_data)
  /\ overall_status (normalize link_data) = "Pass".
Proof.
  intros H. unfold normalize. rewrite H. simpl.
  assert (Hall : Forall (fun item => dict_get "Status" item = Some (VStr "Pass"))
                        (map (dict_set "Status" (VStr "Pass")) link_data)).
  { apply Forall_forall. intros item Hin. apply in_map_iff in Hin.
    destruct Hin as [d [<- _]]. apply dict_get_set_same. }
  split; [exact Hall|].
  unfold overall_status.
  replace (forallb (field_is "Status" (VStr "Pass"))
             (map (dict_set "Status" (VStr "Pass")) link_data)) with true;
    [reflexivity|].
  symmetry. apply forallb_forall. intros item Hin.
  apply field_is_spec. rewrite Forall_forall in Hall. apply Hall. exact Hin.
Qed.

Lemma overall_status_spec (link_data : list dict) :
  overall_status link_data = "Pass"
  <-> Forall (fun item => dict_get "Status" item = Some (VStr "Pass")) link_data.
Proof.
  unfold overall_status.
  destruct (forallb (field_is "Status" (VStr "Pass")) link_data) eqn:Hall.
  - split; [intros _ | reflexivity].
    apply Forall_forall. intros item Hin. apply field_is_spec.
    rewrite forallb_forall in Hall. apply Hall. exact Hin.
  - split; [discriminate|]. intros H. exfalso.
    assert (Ht : forallb (field_is "Status" (VStr "Pass")) link_data = true).
    { apply forallb_forall. intros item Hin. apply field_is_spec.
      rewrite Forall_forall in H. apply H. exact Hin. }
    congruence.
Qed.

Lemma any_404_after_set (link_data : list dict) :
  any_404 (map (dict_set "Status" (VStr "Pass")) link_data) = any_404 link_data.
Proof.
  unfold any_404. induction link_data as [|item rest IH]; simpl; [reflexivity|].
  rewrite IH. f_equal. unfold field_is.
  rewrite dict_get_set_other by reflexivity. reflexivity.
Qed.

Lemma normalize_idempotent (link_data : list dict) :
  normalize (normalize link_data) = normalize link_data.
Proof.
  unfold normalize. destruct (any_404 link_data) eqn:H; simpl.
  - rewrite H. reflexivity.
  - rewrite any_404_after_set, H. simpl.
    rewrite map_map. apply map_ext. intros d. apply dict_set_twice.
Qed.

(** With a 404 among the links the rows stay as they were classified. *)
Lemma normalize_with_404 (link_data : list dict) :
  any_404 link_data = true ->
  normalize link_data = link_data.
Proof. intros H. unfold normalize. rewrite H. reflexivity. Qed.

Section ClassifiedRows.
Variable net : network.
Variable str_exc : requests_exception -> string.


Lemma any_404_classified (links : list string) :
  any_404 (Props2.classified net str_exc links) = true <-> In (Response 404) (Props2.outcomes net links).
Proof.
  pose proof (any_404_checked str_exc
                (map (fun link => (link, session_get session net link))
                     links)) as H.
  rewrite !map_map in H. exact H.
Qed.

Lemma check_link_failed (link : string) (r : get_outcome) :
  field_is "Status" (VStr "Fail") (check_link str_exc link r)
  = Props2.failed_outcome r.
Proof.
  destruct r as [c|e]; simpl; [|reflexivity].
  unfold field_is. simpl. destruct (c =? 404)%Z; reflexivity.
Qed.

Lemma failed_rows_count (links : list string) :
  length (filter (field_is "Status" (VStr "Fail")) (Props2.classified net str_exc links))
  = length (filter Props2.failed_outcome (Props2.outcomes net links)).
Proof.
  unfold Props2.classified, Props2.outcomes.
  induction links as [|link rest IH]; [reflexivity|].
  cbn [map filter]. rewrite check_link_failed.
  destruct (Props2.failed_outcome _); simpl; congruence.
Qed.

Lemma overall_fail_with_404 (links : list string) :
  In (Response 404) (Props2.outcomes net links) ->
  overall_status (Props2.classified net str_exc links) = "Fail".
Proof.
  intros Hin. unfold overall_status.
  destruct (forallb _ (Props2.classified net str_exc links)) eqn:Hall; [|reflexivity].
  exfalso. rewrite forallb_forall in Hall.
  unfold Props2.outcomes in Hin. apply in_map_iff in Hin.
  destruct Hin as [link [Hr Hin]].
  assert (Hrow : In (check_link str_exc link (Response 404)) (Props2.classified net str_exc links)).
  { unfold Props2.classified. apply in_map_iff. exists link.
    split; [rewrite Hr; reflexivity | exact Hin]. }
  apply Hall in Hrow. discriminate.
Qed.

Lemma probe_links_with_a_404 (links : list string) :
  In (Response 404) (Props2.outcomes net links) ->
  probe_links net str_exc links = Props2.classified net str_exc links
  /\ overall_status (probe_links net str_exc links) = "Fail".
Proof.
  intros Hin.
  assert (Heq : probe_links net str_exc links
                = Props2.classified net str_exc links).
  { unfold probe_links. apply normalize_with_404.
    apply any_404_classified. exact Hin. }
  split; [exact Heq|]. rewrite Heq. apply overall_fail_with_404. exact Hin.
Qed.

Lemma probe_links_without_a_404 (links : list string) :
  ~ In (Response 404) (Props2.outcomes net links) ->
  Forall (fun item => dict_get "Status" item = Some (VStr "Pass"))
         (probe_links net str_exc links)
  /\ overall_status (probe_links net str_exc links) = "Pass".
Proof.
  intros Hnot. unfold probe_links. apply normalize_all_pass.
  destruct (any_404 _) eqn:H404; [|reflexivity].
  exfalso. apply Hnot. apply any_404_classified. exact H404.
Qed.

End ClassifiedRows.

(** A request whose attempts all end in a transport error is given up by
    either adapter of the session. *)
Lemma probe_unreachable (url : string) (attempts_of : nat -> attempt)
    (p : probe) :
  (forall j, exists err, attempts_of j = NetError err) ->
  session_probe session url attempts_of = Some p ->
  exists e, send_outcome (final p) = Raised e
            /\ forall status, final p <> Returned status.
Proof.
  intros Hdown. unfold session_probe. rewrite session_adapters.
  unfold get_adapter.
  destruct (startswith (lower url) (lower "https://")).
  - intros [= <-].
    destruct (urlopen_retries 5 0 attempts_of 0 eq_refl)
      as [_ [_ [_ [_ [Hend _]]]]].
    change (Props.retries_after 0) with retries in Hend. cbv zeta in Hend.
    unfold Props.ends_properly in Hend.
    destruct (Hdown (0 + attempts (urlopen retries attempts_of 0) - 1)%nat)
      as [err Herr].
    rewrite Herr in Hend.
    destruct (final (urlopen retries attempts_of 0)) as [s | [err'|] | err'].
    + destruct Hend as [ra Hra]. discriminate.
    + destruct err'; eexists; (split; [reflexivity | discriminate]).
    + eexists; (split; [reflexivity | discriminate]).
    + contradiction.
  - destruct (startswith (lower url) (lower "http://")); [|discriminate].
    intros [= <-]. rewrite urlopen_default. cbn [final].
    destruct (Hdown 0%nat) as [err ->].
    destruct err; eexists; (split; [reflexivity | discriminate]).
Qed.

(** When the request for the link itself is given up, [session.get]
    raises. *)
Lemma session_get_given_up (net : network) (url : string) (p : probe) :
  session_probe session url (attempt_at net url) = Some p ->
  (forall status, final p <> Returned status) ->
  exists e, session_get session net url = Raised e.
Proof.
  intros Hp Hfinal. unfold session_get, session_trace.
  destruct (refused net url) as [e|]; [exists e; reflexivity|].
  change DEFAULT_REDIRECT_LIMIT with 30%nat.
  rewrite Session_send_unfold, Hp.
  destruct (final p) as [status | [err|] | err].
  - exfalso. exact (Hfinal status eq_refl).
  - destruct err; eexists; reflexivity.
  - eexists; reflexivity.
  - destruct err; eexists; reflexivity.
Qed.

(** A network that fails every attempt makes [session.get] raise. *)
Lemma session_get_unreachable (net : network) (url : string) :
  (forall j, exists err, attempt_at net url j = NetError err) ->
  exists e, session_get session net url = Raised e.
Proof.
  intros Hdown.
  destruct (session_probe session url (attempt_at net url)) as [p|] eqn:Hp.
  - destruct (probe_unreachable url (attempt_at net url) p Hdown Hp)
      as [_ [_ Hfinal]].
    exact (session_get_given_up net url p Hp Hfinal).
  - unfold session_get, session_trace.
    destruct (refused net url) as [e|]; [exists e; reflexivity|].
    change DEFAULT_REDIRECT_LIMIT with 30%nat.
    rewrite Session_send_unfold, Hp. eexists; reflexivity.
Qed.

(** C1 (as amended).  The status written for a link is "Fail" iff
    [session.get] handed back a response with status 404 (the last
    response, when redirects were followed) or raised a
    [RequestException]; otherwise it is "pass".  [session.get] raises when
    the retries for the link are used up, as they are when every attempt
    ends in a timeout or connection error; this is one cause among others.
    Once every link has its row: if no link resolved to 404, the status of
    every row is "Pass" and so is the overall status; if some link did, the
    rows stay as they were classified and the overall status is "Fail". *)
Theorem link_status_classification :
  forall (net : network) (str_exc : requests_exception -> string)
         (links : list string),
    (forall link r,
       (dict_get "Status" (check_link str_exc link r) = Some (VStr "Fail")
        <-> (r = Response 404 \/ exists e, r = Raised e))
       /\ (dict_get "Status" (check_link str_exc link r) = Some (VStr "Fail")
           \/ dict_get "Status" (check_link str_exc link r)
              = Some (VStr "pass")))
    /\ Props2.classified net str_exc links
       = map (fun link =>
                check_link str_exc link (session_get session net link))
             links
    /\ (forall link p reason,
          session_probe session link (attempt_at net link) = Some p ->
          final p = MaxRetryError reason ->
          exists e, session_get session net link = Raised e)
    /\ (forall link,
          (forall j, exists err, attempt_at net link j = NetError err) ->
          exists e, session_get session net link = Raised e)
    /\ (~ In (Response 404) (Props2.outcomes net links) ->
        Forall (fun item => dict_get "Status" item = Some (VStr "Pass"))
               (probe_links net str_exc links)
        /\ overall_status (probe_links net str_exc links) = "Pass")
    /\ (In (Response 404) (Props2.outcomes net links) ->
        probe_links net str_exc links = Props2.classified net str_exc links
        /\ overall_status (probe_links net str_exc links) = "Fail").
Proof.
  intros net str_exc links.
  split.
  { intros link r. split; [apply check_link_fail|].
    unfold check_link. cbn [dict_get String.eqb Ascii.eqb Bool.eqb].
    destruct r as [c|e]; [destruct (c =? 404)%Z|]; auto. }
  split; [reflexivity|].
  split.
  { intros link p reason Hp Hfinal.
    apply (session_get_given_up net link p Hp).
    intros status. rewrite Hfinal. discriminate. }
  split; [intros link; apply session_get_unreachable|].
  split; [apply probe_links_without_a_404 | apply probe_links_with_a_404].
Qed.

(** The theorem at two links, one answering 200 and one unreachable, and
    at three links, one of them answering 404. *)
Lemma link_status_witness :
  (Forall (fun item => dict_get "Status" item = Some (VStr "Pass"))
          (probe_links Samples.net_abc Samples.str_exc
             [Samples.link_a; Samples.link_c])
   /\ overall_status
        (probe_links Samples.net_abc Samples.str_exc
           [Samples.link_a; Samples.link_c]) = "Pass")
  /\ (probe_links Samples.net_abc Samples.str_exc
        [Samples.link_a; Samples.link_b; Samples.link_c]
      = Props2.classified Samples.net_abc Samples.str_exc
          [Samples.link_a; Samples.link_b; Samples.link_c]
      /\ overall_status
           (probe_links Samples.net_abc Samples.str_exc
              [Samples.link_a; Samples.link_b; Samples.link_c]) = "Fail").
Proof.
  split.
  - apply (proj1 (proj2 (proj2 (proj2 (proj2 (link_status_classification
             Samples.net_abc Samples.str_exc
             [Samples.link_a; Samples.link_c])))))).
    vm_compute. intros [H | [H | H]]; [discriminate | discriminate | exact H].
  - apply (proj2 (proj2 (proj2 (proj2 (proj2 (link_status_classification
             Samples.net_abc Samples.str_exc
             [Samples.link_a; Samples.link_b; Samples.link_c])))))).
    vm_compute. right. left. reflexivity.
Defined.

(** The two runs the specification lists: with a 404 among the links the
    rows stay as classified, without one they are all set to "Pass". *)
Example probe_links_with_404 :
  probe_links Samples.net_abc Samples.str_exc
    [Samples.link_a; Samples.link_b; Samples.link_c]
  = [ [ ("URL", VStr Samples.link_a); ("Status", VStr "pass");
        ("HTTP Status Code", VInt 200); ("Error Message", VStr "None") ];
      [ ("URL", VStr Samples.link_b); ("Status", VStr "Fail");
        ("HTTP Status Code", VInt 404); ("Error Message", VStr "404 Not Found") ];
      [ ("URL", VStr Samples.link_c); ("Status", VStr "Fail");
        ("HTTP Status Code", VStr "N/A");
        ("Error Message", VStr "Error: ConnectionError") ] ].
Proof. vm_compute. reflexivity. Qed.

Example probe_links_without_404 :
  probe_links Samples.net_abc Samples.str_exc [Samples.link_a; Samples.link_c]
  = [ [ ("URL", VStr Samples.link_a); ("Status", VStr "Pass");
        ("HTTP Status Code", VInt 200); ("Error Message", VStr "None") ];
      [ ("URL", VStr Samples.link_c); ("Status", VStr "Pass");
        ("HTTP Status Code", VStr "N/A");
        ("Error Message", VStr "Error: ConnectionError") ] ].
Proof. vm_compute. reflexivity. Qed.

(** A link that redirects to a missing page is classified by the last
    response. *)
Example probe_links_redirect_to_404 :
  probe_links Samples.net_redirects Samples.str_exc
    [Samples.link_old; Samples.link_a]
  = [ [ ("URL", VStr Samples.link_old); ("Status", VStr "pass");
        ("HTTP Status Code", VInt 200); ("Error Message", VStr "None") ];
      [ ("URL", VStr Samples.link_a); ("Status", VStr "Fail");
        ("HTTP Status Code", VInt 404);
        ("Error Message", VStr "404 Not Found") ] ].
Proof. vm_compute. reflexivity. Qed.

(** The whole check on a page with links: one row per distinct http link,
    all "Pass" since none resolves to 404. *)
Example check_url_status_and_save_links :
  check_url_status_and_save (Pages.static_driver Samples.page_links)
    Samples.first_occurrences Samples.net_abc Samples.str_exc Samples.url tt
  = (Ok ([ [ ("URL", VStr Samples.link_a); ("Status", VStr "Pass");
             ("HTTP Status Code", VInt 200); ("Error Message", VStr "None") ];
           [ ("URL", VStr Samples.link_c); ("Status", VStr "Pass");
             ("HTTP Status Code", VStr "N/A");
             ("Error Message", VStr "Error: ConnectionError") ] ],
         [ [ ("page_url", VStr Samples.url); ("testcase", VStr "Test of URLs");
             ("status", VStr "Pass");
             ("comments", VStr "All URLs passed successfully.") ] ]), tt).
Proof. vm_compute. reflexivity. Qed.

(** C1 (as stated) fails: a row is "Fail" although the link did not resolve
    to 404 and no retry was used up on a transient error.  A link with the
    scheme [httpx] is kept by the [startswith("http")] filter; no adapter
    is mounted for it, so no request and no retry is made, yet its row is
    "Fail" (and stays "Fail" when another link resolves to 404).  A link
    that redirects to itself is answered 31 times, never with an error,
    and its row is "Fail" as well. *)
Lemma link_fail_without_attempt_counterexample :
  http_links [Some Samples.link_httpx] = [Samples.link_httpx]
  /\ session_trace session Samples.net_abc Samples.link_httpx
     = ([], Raised InvalidSchema)
  /\ dict_get "Status"
       (check_link Samples.str_exc Samples.link_httpx
          (session_get session Samples.net_abc Samples.link_httpx))
     = Some (VStr "Fail")
  /\ map (dict_get "Status")
       (probe_links Samples.net_abc Samples.str_exc
          [Samples.link_b; Samples.link_httpx])
     = [Some (VStr "Fail"); Some (VStr "Fail")]
  /\ session_get session Samples.net_redirects Samples.link_loop
     = Raised TooManyRedirects
  /\ requests_sent
       (fst (session_trace session Samples.net_redirects Samples.link_loop))
     = 31%nat
  /\ Forall (fun h => final (snd h) = Returned 302)
            (fst (session_trace session Samples.net_redirects
                    Samples.link_loop))
  /\ map (dict_get "Status")
       (probe_links Samples.net_redirects Samples.str_exc
          [Samples.link_a; Samples.link_loop])
     = [Some (VStr "Fail"); Some (VStr "Fail")].
Proof.
  split; [reflexivity|]. split; [reflexivity|].
  split; [reflexivity|]. split; [vm_compute; reflexivity|].
  split; [vm_compute; reflexivity|]. split; [vm_compute; reflexivity|].
  split; [|vm_compute; reflexivity].
  vm_compute. repeat constructor.
Qed.

(* ------------------------------------------------------------------ *)
(** *** Overall status *)

Lemma overall_status_same_items (d1 d2 : list dict) :
  (forall item, In item d1 <-> In item d2) ->
  overall_status d1 = overall_status d2.
Proof.
  intros Hsame.
  pose proof (overall_status_spec d1) as H1.
  pose proof (overall_status_spec d2) as H2.
  rewrite Forall_forall in H1, H2.
  assert (Hor : forall d, overall_status d = "Pass" \/ overall_status d = "Fail").
  { intros d. unfold overall_status. destruct (forallb _ d); auto. }
  destruct (Hor d1) as [E1 | E1], (Hor d2) as [E2 | E2]; try congruence.
  - exfalso. assert (overall_status d2 = "Pass"); [|congruence].
    apply H2. intros item Hin. apply H1; [exact E1 | apply Hsame; exact Hin].
  - exfalso. assert (overall_status d1 = "Pass"); [|congruence].
    apply H1. intros item Hin. apply H2; [exact E2 | apply Hsame; exact Hin].
Qed.

Lemma overall_status_fail (link_data : list dict) :
  overall_status link_data = "Fail"
  <-> Exists (fun item => dict_get "Status" item <> Some (VStr "Pass"))
             link_data.
Proof.
  unfold overall_status.
  induction link_data as [|item rest IH]; cbn [forallb].
  - split; [discriminate | intros H; inversion H].
  - destruct (field_is "Status" (VStr "Pass") item) eqn:Hitem; cbn [andb].
    + rewrite IH. split.
      * intros H. right. exact H.
      * intros H. inversion H as [? ? Hne | ? ? Hrest]; subst; [|exact Hrest].
        exfalso. apply Hne. apply field_is_spec. exact Hitem.
    + split; [|reflexivity]. intros _. left. intros Hpass.
      apply field_is_spec in Hpass. congruence.
Qed.

(** C7 (as amended).  The overall status, which only the URL-status script
    computes, is taken over the rows of that script's own report: it is
    "Pass" iff the "Status" of every row is "Pass", and "Fail" as soon as
    one row has another status; it is determined by the set of rows, so
    that computing it again from the same rows, in any order, gives the
    same status; the check reports it as the status of the one row of its
    summary. *)
Theorem overall_status_pass_iff_all_pass :
  forall (link_data : list dict),
    (overall_status link_data = "Pass"
     <-> Forall (fun item => dict_get "Status" item = Some (VStr "Pass"))
                link_data)
    /\ (overall_status link_data = "Fail"
        <-> Exists (fun item => dict_get "Status" item <> Some (VStr "Pass"))
                   link_data)
    /\ (overall_status link_data = "Pass" \/ overall_status link_data = "Fail")
    /\ (forall other : list dict,
          (forall item, In item link_data <-> In item other) ->
          overall_status other = overall_status link_data)
    /\ (forall (W E : Type) (driver : WebDriver W E)
               (list_of_set : list string -> list string) (net : network)
               (str_exc : requests_exception -> string) (url : string)
               (summary : list dict) (w w' : W),
          check_url_status_and_save driver list_of_set net str_exc url w
          = (Ok (link_data, summary), w') ->
          exists comments,
            summary
            = [ [ ("page_url", VStr url); ("testcase", VStr "Test of URLs");
                  ("status", VStr (overall_status link_data));
                  ("comments", VStr comments) ] ]).
Proof.
  intros link_data.
  split; [apply overall_status_spec|].
  split; [apply overall_status_fail|].
  split; [unfold overall_status; destruct (forallb _ link_data); auto|].
  split; [intros other Hsame; symmetry;
          apply overall_status_same_items; exact Hsame|].
  intros W E driver list_of_set net str_exc url summary w w'.
  unfold check_url_status_and_save, bind, sleep, ret.
  destruct (driver_get driver url w) as [[[]|e] w1]; [|discriminate].
  destruct (find_elements driver TAG_NAME "a" w1) as [[anchors|e] w2];
    [|discriminate].
  destruct (mapM_if _ _ anchors w2) as [[hrefs|e] w3]; [|discriminate].
  intros [= <- <- _]. eexists. reflexivity.
Qed.

(** The theorem at the rows of three links, in two orders. *)
Lemma overall_status_witness :
  overall_status
    (probe_links Samples.net_abc Samples.str_exc
       [Samples.link_c; Samples.link_b; Samples.link_a])
  = overall_status
      (probe_links Samples.net_abc Samples.str_exc
         [Samples.link_a; Samples.link_b; Samples.link_c]).
Proof.
  apply (proj1 (proj2 (proj2 (proj2 (overall_status_pass_iff_all_pass
           (probe_links Samples.net_abc Samples.str_exc
              [Samples.link_a; Samples.link_b; Samples.link_c])))))).
  vm_compute. intros item. split; intros H; tauto.
Defined.

(** C7 (as stated) fails: the overall status takes no other check into
    account.  On a page whose links all answer and that has no [h1], the
    overall status is "Pass" while the H1 check of the same page returns
    "Fail". *)
Lemma overall_status_other_checks_counterexample :
  exists rows summary,
    check_url_status_and_save (Pages.static_driver Samples.page_links)
      Samples.first_occurrences Samples.net_abc Samples.str_exc Samples.url tt
    = (Ok (rows, summary), tt)
    /\ overall_status rows = "Pass"
    /\ map (dict_get "status") summary = [Some (VStr "Pass")]
    /\ H1Tag.check_all_h1_tags (Pages.static_driver Samples.page_links)
         Samples.url tt
       = (Ok ("Fail", "No H1 tags found.", [], Samples.url), tt).
Proof.
  do 2 eexists. split; [vm_compute; reflexivity|].
  split; [reflexivity|]. split; reflexivity.
Qed.

(* ================================================================== *)
(** ** Further properties of the scripts *)
(* ================================================================== *)

(* ------------------------------------------------------------------ *)
(** *** URL_Status_Code_Test.py *)

Section LinkRows.
Variable net : network.
Variable str_exc : requests_exception -> string.

(** X1.  The overall status of the link check is "Fail" exactly when some
    link resolved to 404.  In that case the rows stay as the loop
    classified them and the summary comment counts the links that resolved
    to 404 or whose request raised; otherwise the comment is
    "All URLs passed successfully.". *)
Theorem url_overall_fail_iff_404 :
  forall (page_url : string) (links : list string),
    (overall_status (probe_links net str_exc links) = "Fail"
     <-> In (Response 404) (Props2.outcomes net links))
    /\ (In (Response 404) (Props2.outcomes net links) ->
        probe_links net str_exc links = Props2.classified net str_exc links
        /\ summary_data page_url (probe_links net str_exc links)
           = [ [ ("page_url", VStr page_url); ("testcase", VStr "Test of URLs");
                 ("status", VStr "Fail");
                 ("comments",
                   VStr (str_int
                           (Z.of_nat
                              (length (filter Props2.failed_outcome
                                         (Props2.outcomes net links))))
                           ++ " URL(s) failed.")) ] ])
    /\ (~ In (Response 404) (Props2.outcomes net links) ->
        summary_data page_url (probe_links net str_exc links)
        = [ [ ("page_url", VStr page_url); ("testcase", VStr "Test of URLs");
              ("status", VStr "Pass");
              ("comments", VStr "All URLs passed successfully.") ] ]).
Proof.
  intros page_url links.
  assert (Hyes : In (Response 404) (Props2.outcomes net links) ->
                 probe_links net str_exc links = Props2.classified net str_exc links
                 /\ overall_status (probe_links net str_exc links) = "Fail").
  { intros Hin. assert (Heq : probe_links net str_exc links = Props2.classified net str_exc links).
    { unfold probe_links. apply normalize_with_404.
      apply (any_404_classified net str_exc). exact Hin. }
    split; [exact Heq|]. rewrite Heq. apply overall_fail_with_404. exact Hin. }
  assert (Hno : ~ In (Response 404) (Props2.outcomes net links) ->
                overall_status (probe_links net str_exc links) = "Pass").
  { intros Hnot. unfold probe_links. apply normalize_all_pass.
    destruct (any_404 _) eqn:H404; [|reflexivity].
    exfalso. apply Hnot. apply (any_404_classified net str_exc). exact H404. }
  split; [|split].
  - split.
    + intros Hfail.
      destruct (any_404 (Props2.classified net str_exc links)) eqn:H404;
        [apply (any_404_classified net str_exc); exact H404|].
      assert (Hnot : ~ In (Response 404) (Props2.outcomes net links)).
      { intros Hin. apply (any_404_classified net str_exc) in Hin. congruence. }
      rewrite (Hno Hnot) in Hfail. discriminate.
    + intros Hin. exact (proj2 (Hyes Hin)).
  - intros Hin. destruct (Hyes Hin) as [Heq Hfail]. split; [exact Heq|].
    unfold summary_data. rewrite Hfail. cbn [String.eqb Ascii.eqb Bool.eqb].
    rewrite Heq, failed_rows_count. reflexivity.
  - intros Hnot. unfold summary_data. rewrite (Hno Hnot). reflexivity.
Qed.

End LinkRows.

(** The theorem at three links, one of them answering 404. *)
Lemma url_overall_fail_witness :
  probe_links Samples.net_abc Samples.str_exc
    [Samples.link_a; Samples.link_b; Samples.link_c]
  = Props2.classified Samples.net_abc Samples.str_exc
      [Samples.link_a; Samples.link_b; Samples.link_c]
  /\ summary_data Samples.url
       (probe_links Samples.net_abc Samples.str_exc
          [Samples.link_a; Samples.link_b; Samples.link_c])
     = [ [ ("page_url", VStr Samples.url); ("testcase", VStr "Test of URLs");
           ("status", VStr "Fail");
           ("comments",
             VStr (str_int
                     (Z.of_nat
                        (length (filter Props2.failed_outcome
                                   (Props2.outcomes Samples.net_abc
                                      [Samples.link_a; Samples.link_b;
                                       Samples.link_c]))))
                     ++ " URL(s) failed.")) ] ].
Proof.
  apply (proj1 (proj2 (url_overall_fail_iff_404 Samples.net_abc Samples.str_exc
           Samples.url [Samples.link_a; Samples.link_b; Samples.link_c]))).
  vm_compute. right. left. reflexivity.
Defined.

Lemma normalize_keeps_field (k : string) (link_data : list dict) :
  String.eqb k "Status" = false ->
  map (dict_get k) (normalize link_data) = map (dict_get k) link_data.
Proof.
  intros Hk. unfold normalize. destruct (negb (any_404 link_data)); [|reflexivity].
  rewrite map_map. apply map_ext. intros d.
  apply dict_get_set_other. exact Hk.
Qed.



Lemma http_links_In (hrefs : list (option string)) (link : string) :
  In link (http_links hrefs)
  <-> In (Some link) hrefs /\ startswith link "http" = true.
Proof.
  assert (Hne : startswith link "http" = true -> String.eqb link "" = false).
  { destruct link; [discriminate | reflexivity]. }
  induction hrefs as [|[h|] rest IH]; simpl.
  - tauto.
  - destruct (negb (String.eqb h "") && startswith h "http") eqn:Hc; simpl.
    + rewrite IH. apply andb_true_iff in Hc. destruct Hc as [_ Hc]. split.
      * intros [-> | [Hin Hs]]; [split; [left; reflexivity | exact Hc]|].
        split; [right; exact Hin | exact Hs].
      * intros [[[= ->] | Hin] Hs]; [left; reflexivity | right; split; assumption].
    + rewrite IH. split.
      * intros [Hin Hs]. split; [right; exact Hin | exact Hs].
      * intros [[[= ->] | Hin] Hs]; [|split; assumption].
        exfalso. rewrite Hs, (Hne Hs) in Hc. discriminate.
  - rewrite IH. split.
    + intros [Hin Hs]. split; [right; exact Hin | exact Hs].
    + intros [[Habs | Hin] Hs]; [discriminate | split; assumption].
Qed.

(** X3.  On a page whose anchors are read without fault, and for any way
    [list(set(...))] may list a set (no repetition, the same elements), the
    link check writes its rows for exactly the distinct [href] values that
    start with "http": no link twice, no other link, none left out. *)
Theorem url_rows_are_the_distinct_http_links :
  forall (W E : Type) (driver : WebDriver W E)
         (list_of_set : list string -> list string)
         (net : network)
         (str_exc : requests_exception -> string) (url : string)
         (A : E -> option string) (anchors : list E) (w w1 w2 : W),
    driver_get driver url w = (Ok tt, w1) ->
    find_elements driver TAG_NAME "a" w1 = (Ok anchors, w2) ->
    (forall a s, get_attribute driver a "href" s = (Ok (A a), s)) ->
    (forall l, NoDup (list_of_set l)) ->
    (forall l x, In x (list_of_set l) <-> In x l) ->
    exists rows summary links,
      check_url_status_and_save driver list_of_set net str_exc url w
        = (Ok (rows, summary), w2)
      /\ map (dict_get "URL") rows = map (fun link => Some (VStr link)) links
      /\ NoDup links
      /\ forall link,
           In link links
           <-> (exists a, In a anchors /\ A a = Some link)
               /\ startswith link "http" = true.
Proof.
  intros W E driver list_of_set net str_exc url A anchors w w1 w2
         Hget Hfind Hattr Hnodup Hsame.
  unfold check_url_status_and_save, bind, sleep, ret.
  rewrite Hget, Hfind.
  rewrite (mapM_if_pure _ _ (fun a => truthy (A a)) A)
    by (intros x s; unfold bind, ret; rewrite ?Hattr; reflexivity).
  set (links := list_of_set (http_links (map A (filter (fun a => truthy (A a)) anchors)))).
  exists (probe_links net str_exc links),
         (summary_data url (probe_links net str_exc links)), links.
  split; [reflexivity|]. split; [|split].
  - unfold probe_links.
    rewrite (normalize_keeps_field "URL") by reflexivity.
    rewrite map_map. reflexivity.
  - apply Hnodup.
  - intros link. unfold links. rewrite Hsame, http_links_In. split.
    + intros [Hin Hs]. split; [|exact Hs].
      apply in_map_iff in Hin. destruct Hin as [a [Ha Hin]].
      apply filter_In in Hin. exists a. split; [tauto | exact Ha].
    + intros [[a [Hin Ha]] Hs]. split; [|exact Hs].
      apply in_map_iff. exists a. split; [exact Ha|].
      apply filter_In. split; [exact Hin|].
      rewrite Ha. destruct link; [discriminate | reflexivity].
Qed.

Lemma first_occurrences_set (l : list string) :
  NoDup (Samples.first_occurrences l)
  /\ forall x, In x (Samples.first_occurrences l) <-> In x l.
Proof.
  unfold Samples.first_occurrences. split.
  - apply NoDup_rev. apply NoDup_nodup.
  - intros x. rewrite <- in_rev, nodup_In, <- in_rev. reflexivity.
Qed.

(** The theorem at a page with five anchors. *)
Lemma url_rows_distinct_witness :
  exists rows summary links,
    check_url_status_and_save (Pages.static_driver Samples.page_links)
      Samples.first_occurrences Samples.net_abc Samples.str_exc Samples.url tt
      = (Ok (rows, summary), tt)
    /\ map (dict_get "URL") rows = map (fun link => Some (VStr link)) links
    /\ NoDup links
    /\ forall link,
         In link links
         <-> (exists a,
                In a (filter (Pages.selects TAG_NAME "a") Samples.page_links)
                /\ Pages.attr "href" (Pages.node_attrs a) = Some link)
             /\ startswith link "http" = true.
Proof.
  apply (url_rows_are_the_distinct_http_links
           unit Pages.Node (Pages.static_driver Samples.page_links)
           Samples.first_occurrences Samples.net_abc Samples.str_exc
           Samples.url (fun a => Pages.attr "href" (Pages.node_attrs a))
           (filter (Pages.selects TAG_NAME "a") Samples.page_links) tt tt tt).
  - reflexivity.
  - reflexivity.
  - reflexivity.
  - intros l. exact (proj1 (first_occurrences_set l)).
  - intros l x. exact (proj2 (first_occurrences_set l) x).
Defined.

(* ------------------------------------------------------------------ *)
(** *** HTML_Tag_Sequence_Test.py *)

(** What [check_html_sequence] returns on a page that is read without
    fault and whose headings have the levels [L]. *)
Lemma check_html_sequence_returns :
  forall (W E : Type) (driver : WebDriver W E) (url : string)
         (T X : E -> string) (headers : list E) (L : list Z) (w w1 w2 : W),
    driver_get driver url w = (Ok tt, w1) ->
    find_elements driver XPATH HTMLTagSequence.headers_xpath w1
      = (Ok headers, w2) ->
    (forall h s, tag_name driver h s = (Ok (T h), s)) ->
    (forall h s, text driver h s = (Ok (X h), s)) ->
    map T headers = map Props.tag_of_level L ->
    Forall (fun l => 1 <= l <= 6)%Z L ->
    HTMLTagSequence.check_html_sequence driver url w
    = (Ok (if HTMLTagSequence.is_valid_sequence L then "Pass" else "Fail",
           if HTMLTagSequence.is_valid_sequence L
           then "HTML tag sequence is valid."
           else "HTML tag sequence is broken. Found sequence: "
                  ++ str_list_int L,
           map (fun h => [("Tag", VStr (upper (T h))); ("Text", VStr (X h))])
               headers,
           L), w2).
Proof.
  intros W E driver url T X headers L w w1 w2 Hget Hfind Htag Htext HT HL.
  unfold HTMLTagSequence.check_html_sequence, bind, sleep, ret.
  rewrite Hget, Hfind.
  rewrite (mapM_pure _ (fun h => [("Tag", VStr (upper (T h)));
                                  ("Text", VStr (X h))]))
    by (intros x s _; unfold bind, ret; rewrite Htag, Htext; reflexivity).
  assert (Hlev : forall s,
             mapM (fun header => t <- tag_name driver header ;;
                                 HTMLTagSequence.level_of_tag t) headers s
             = (Ok L, s)).
  { clear Hfind. revert L HT HL.
    induction headers as [|h hs IH]; intros [|l L] HT HL s;
      try discriminate; simpl in *.
    - reflexivity.
    - inversion HT as [[Hh Hhs]]. inversion HL as [|? ? Hl HL']; subst.
      unfold bind at 1 2. rewrite Htag, Hh, level_of_tag_heading by assumption.
      unfold bind. rewrite (IH L Hhs HL'). reflexivity. }
  rewrite Hlev.
  destruct (HTMLTagSequence.is_valid_sequence L); reflexivity.
Qed.

Lemma upper_tag_of_level (l : Z) :
  (1 <= l <= 6)%Z -> upper (Props.tag_of_level l) = "H" ++ str_int l.
Proof.
  intros Hl.
  assert (H : (l = 1 \/ l = 2 \/ l = 3 \/ l = 4 \/ l = 5 \/ l = 6)%Z) by lia.
  destruct H as [-> | [-> | [-> | [-> | [-> | ->]]]]]; reflexivity.
Qed.

(** X4.  On a page read without fault, [header_info] holds one entry per
    heading, in document order: its "Tag" is the upper-case tag name, "H"
    followed by the level, and its "Text" is the text of the heading; the
    entries do not depend on the verdict. *)
Theorem html_header_info_lists_headings :
  forall (W E : Type) (driver : WebDriver W E) (url : string)
         (T X : E -> string) (headers : list E) (L : list Z) (w w1 w2 : W),
    driver_get driver url w = (Ok tt, w1) ->
    find_elements driver XPATH HTMLTagSequence.headers_xpath w1
      = (Ok headers, w2) ->
    (forall h s, tag_name driver h s = (Ok (T h), s)) ->
    (forall h s, text driver h s = (Ok (X h), s)) ->
    map T headers = map Props.tag_of_level L ->
    Forall (fun l => 1 <= l <= 6)%Z L ->
    exists status comment header_info,
      HTMLTagSequence.check_html_sequence driver url w
        = (Ok (status, comment, header_info, L), w2)
      /\ length header_info = length headers
      /\ map (dict_get "Tag") header_info
         = map (fun l => Some (VStr ("H" ++ str_int l))) L
      /\ map (dict_get "Text") header_info
         = map (fun h => Some (VStr (X h))) headers.
Proof.
  intros W E driver url T X headers L w w1 w2 Hget Hfind Htag Htext HT HL.
  do 3 eexists.
  split; [exact (check_html_sequence_returns W E driver url T X headers L
                   w w1 w2 Hget Hfind Htag Htext HT HL)|].
  split; [apply length_map|]. split.
  - rewrite map_map. cbn [dict_get String.eqb Ascii.eqb Bool.eqb].
    clear Hfind. revert L HT HL.
    induction headers as [|h hs IH]; intros [|l L] HT HL; try discriminate;
      [reflexivity|].
    inversion HT as [[Hh Hhs]]. inversion HL as [|? ? Hl HL']; subst.
    cbn [map]. rewrite Hh, (upper_tag_of_level l Hl), (IH L Hhs HL').
    reflexivity.
  - rewrite map_map. reflexivity.
Qed.

(** The theorem at the page with headings h1, h3, h2. *)
Lemma html_header_info_witness :
  exists status comment header_info,
    HTMLTagSequence.check_html_sequence
      (Pages.static_driver Samples.page_h1_h3_h2) Samples.url tt
      = (Ok (status, comment, header_info, [1; 3; 2]%Z), tt)
    /\ length header_info = 3%nat
    /\ map (dict_get "Tag") header_info
       = map (fun l => Some (VStr ("H" ++ str_int l))) [1; 3; 2]%Z
    /\ map (dict_get "Text") header_info
       = map (fun h => Some (VStr (Pages.node_text h)))
             (filter (Pages.selects XPATH HTMLTagSequence.headers_xpath)
                     Samples.page_h1_h3_h2).
Proof.
  apply (html_header_info_lists_headings
           unit Pages.Node (Pages.static_driver Samples.page_h1_h3_h2)
           Samples.url Pages.node_tag Pages.node_text
           (filter (Pages.selects XPATH HTMLTagSequence.headers_xpath)
                   Samples.page_h1_h3_h2)
           [1; 3; 2]%Z tt tt tt).
  - reflexivity.
  - reflexivity.
  - reflexivity.
  - reflexivity.
  - reflexivity.
  - repeat constructor; lia.
Defined.

(** X5.  A page with no heading, or with a single heading, passes the
    tag-sequence check: there is no pair of consecutive levels to compare. *)
Theorem html_short_sequence_passes :
  forall (W E : Type) (driver : WebDriver W E) (url : string)
         (T X : E -> string) (headers : list E) (L : list Z) (w w1 w2 : W),
    driver_get driver url w = (Ok tt, w1) ->
    find_elements driver XPATH HTMLTagSequence.headers_xpath w1
      = (Ok headers, w2) ->
    (forall h s, tag_name driver h s = (Ok (T h), s)) ->
    (forall h s, text driver h s = (Ok (X h), s)) ->
    map T headers = map Props.tag_of_level L ->
    Forall (fun l => 1 <= l <= 6)%Z L ->
    (length headers <= 1)%nat ->
    exists header_info,
      HTMLTagSequence.check_html_sequence driver url w
      = (Ok ("Pass", "HTML tag sequence is valid.", header_info, L), w2).
Proof.
  intros W E driver url T X headers L w w1 w2 Hget Hfind Htag Htext HT HL Hshort.
  eexists.
  rewrite (check_html_sequence_returns W E driver url T X headers L
             w w1 w2 Hget Hfind Htag Htext HT HL).
  assert (Hlen : (length L <= 1)%nat).
  { rewrite <- (length_map Props.tag_of_level), <- HT, length_map. exact Hshort. }
  destruct L as [|l [|l' L]]; [reflexivity | reflexivity | simpl in Hlen; lia].
Qed.

(** The theorem at a page without headings. *)
Lemma html_short_sequence_witness :
  exists header_info,
    HTMLTagSequence.check_html_sequence
      (Pages.static_driver Samples.page_images) Samples.url tt
    = (Ok ("Pass", "HTML tag sequence is valid.", header_info, []), tt).
Proof.
  apply (html_short_sequence_passes
           unit Pages.Node (Pages.static_driver Samples.page_images)
           Samples.url Pages.node_tag Pages.node_text [] [] tt tt tt).
  - reflexivity.
  - reflexivity.
  - reflexivity.
  - reflexivity.
  - reflexivity.
  - constructor.
  - simpl. lia.
Defined.

Lemma insert_permutation (x : Z) (l : list Z) :
  Permutation (x :: l) (Mains.insert x l).
Proof.
  induction l as [|y l IH]; simpl; [apply Permutation_refl|].
  destruct (x <=? y)%Z; [apply Permutation_refl|].
  apply perm_trans with (y :: x :: l); [apply perm_swap|].
  apply perm_skip. exact IH.
Qed.

Lemma sorted_permutation (l : list Z) : Permutation l (Mains.sorted l).
Proof.
  induction l as [|x l IH]; simpl; [apply perm_nil|].
  apply perm_trans with (x :: Mains.sorted l);
    [apply perm_skip; exact IH | apply insert_permutation].
Qed.

Lemma is_valid_sequence_cons (x y : Z) (l : list Z) :
  HTMLTagSequence.is_valid_sequence (x :: y :: l)
  = ((x <=? y)%Z && HTMLTagSequence.is_valid_sequence (y :: l)).
Proof. reflexivity. Qed.

Lemma insert_valid (x : Z) (l : list Z) :
  HTMLTagSequence.is_valid_sequence l = true ->
  HTMLTagSequence.is_valid_sequence (Mains.insert x l) = true.
Proof.
  induction l as [|y l IH]; intros Hl; [reflexivity|].
  cbn [Mains.insert]. destruct (x <=? y)%Z eqn:Hxy.
  - rewrite is_valid_sequence_cons, Hxy. exact Hl.
  - assert (Hyx : (y <=? x)%Z = true) by (apply Z.leb_le; apply Z.leb_gt in Hxy; lia).
    destruct l as [|z l].
    + cbn [Mains.insert]. rewrite is_valid_sequence_cons, Hyx. reflexivity.
    + rewrite is_valid_sequence_cons in Hl. apply andb_true_iff in Hl.
      destruct Hl as [Hyz Hrest]. specialize (IH Hrest).
      cbn [Mains.insert] in *. destruct (x <=? z)%Z.
      * rewrite is_valid_sequence_cons, Hyx. exact IH.
      * rewrite is_valid_sequence_cons, Hyz. exact IH.
Qed.

Lemma sorted_valid (l : list Z) :
  HTMLTagSequence.is_valid_sequence (Mains.sorted l) = true.
Proof.
  induction l as [|x l IH]; [reflexivity|].
  cbn [Mains.sorted]. apply insert_valid. exact IH.
Qed.

(** X6.  [main] of the tag-sequence script copies every entry of
    [header_info] to the header sheet, as a row with the "Tag" and the
    "Text" of the entry, in order, and, exactly when the result is "Fail",
    appends one row "Correct Sequence" showing [sorted(levels)]: a
    rearrangement of the levels found that the check itself accepts, and
    that differs from the levels found whenever these were rejected. *)
Theorem html_correct_sequence_row :
  forall (W : Type) (result : string) (header_info : list dict)
         (levels : list Z) (w : W),
    Forall Props2.has_tag_and_text header_info ->
    exists rows copied,
      Mains.html_header_data result header_info levels w = (Ok rows, w)
      /\ Forall2 Props2.copy_of header_info copied
      /\ (result = "Fail" ->
          rows = (copied ++
                    [ [ ("Tag", VStr "Correct Sequence");
                        ("Text", VStr (str_list_int (Mains.sorted levels))) ] ])%list)
      /\ (result <> "Fail" -> rows = copied)
      /\ Permutation levels (Mains.sorted levels)
      /\ HTMLTagSequence.is_valid_sequence (Mains.sorted levels) = true
      /\ (HTMLTagSequence.is_valid_sequence levels = false ->
          Mains.sorted levels <> levels).
Proof.
  intros W result header_info levels w Hkeys.
  assert (Hcopy : forall s : W,
            exists copied,
              mapM (fun header =>
                      tag <- Mains.getitem "Tag" header ;;
                      x <- Mains.getitem "Text" header ;;
                      ret [("Tag", tag); ("Text", x)]) header_info s
              = (Ok copied, s)
              /\ Forall2 Props2.copy_of header_info copied).
  { induction Hkeys as [|header rest [tag [x [Htag Hx]]] _ IH]; intros s.
    - exists []. split; [reflexivity | constructor].
    - destruct (IH s) as [copied [Hrun Hrows]].
      exists ([("Tag", tag); ("Text", x)] :: copied).
      assert (Hrow : (tag <- Mains.getitem "Tag" header ;;
                      x <- Mains.getitem "Text" header ;;
                      ret [("Tag", tag); ("Text", x)]) s
                     = (Ok [("Tag", tag); ("Text", x)], s)).
      { unfold bind, Mains.getitem. rewrite Htag, Hx. reflexivity. }
      cbn [mapM]. unfold bind at 1. rewrite Hrow.
      unfold bind at 1. rewrite Hrun.
      split; [reflexivity|]. constructor; [|exact Hrows].
      exists tag, x. repeat split; assumption. }
  destruct (Hcopy w) as [copied [Hrun Hrows]].
  unfold Mains.html_header_data. unfold bind at 1. rewrite Hrun.
  destruct (String.eqb result "Fail") eqn:Hres.
  - eexists. exists copied. split; [reflexivity|]. split; [exact Hrows|].
    split; [intros _; reflexivity|].
    split; [intros Hne; apply String.eqb_eq in Hres; contradiction|].
    split; [apply sorted_permutation|]. split; [apply sorted_valid|].
    intros Hbad Heq. rewrite <- Heq, sorted_valid in Hbad. discriminate.
  - exists copied, copied. split; [reflexivity|]. split; [exact Hrows|].
    split; [intros ->; discriminate|].
    split; [intros _; reflexivity|].
    split; [apply sorted_permutation|]. split; [apply sorted_valid|].
    intros Hbad Heq. rewrite <- Heq, sorted_valid in Hbad. discriminate.
Qed.

(** The theorem at the header entries of a failing page. *)
Lemma html_correct_sequence_witness :
  exists rows copied,
    Mains.html_header_data (W := unit) "Fail"
      [ [("Tag", VStr "H1"); ("Text", VStr "Alojamiento")];
        [("Tag", VStr "H3"); ("Text", VStr "Popular")];
        [("Tag", VStr "H2"); ("Text", VStr "Destinations")] ]
      [1; 3; 2]%Z tt = (Ok rows, tt)
    /\ Forall2 Props2.copy_of
         [ [("Tag", VStr "H1"); ("Text", VStr "Alojamiento")];
           [("Tag", VStr "H3"); ("Text", VStr "Popular")];
           [("Tag", VStr "H2"); ("Text", VStr "Destinations")] ]
         copied
    /\ ("Fail" = "Fail" ->
        rows = (copied ++
                  [ [ ("Tag", VStr "Correct Sequence");
                      ("Text",
                        VStr (str_list_int (Mains.sorted [1; 3; 2]%Z))) ] ])%list)
    /\ ("Fail" <> "Fail" -> rows = copied)
    /\ Permutation [1; 3; 2]%Z (Mains.sorted [1; 3; 2]%Z)
    /\ HTMLTagSequence.is_valid_sequence (Mains.sorted [1; 3; 2]%Z) = true
    /\ (HTMLTagSequence.is_valid_sequence [1; 3; 2]%Z = false ->
        Mains.sorted [1; 3; 2]%Z <> [1; 3; 2]%Z).
Proof.
  apply (html_correct_sequence_row unit "Fail"
           [ [("Tag", VStr "H1"); ("Text", VStr "Alojamiento")];
             [("Tag", VStr "H3"); ("Text", VStr "Popular")];
             [("Tag", VStr "H2"); ("Text", VStr "Destinations")] ]
           [1; 3; 2]%Z tt).
  repeat constructor; do 2 eexists; split; reflexivity.
Defined.

Example html_header_data_fail :
  Mains.html_header_data (W := unit) "Fail"
    [ [("Tag", VStr "H1"); ("Text", VStr "Alojamiento")];
      [("Tag", VStr "H3"); ("Text", VStr "Popular")];
      [("Tag", VStr "H2"); ("Text", VStr "Destinations")] ]
    [1; 3; 2]%Z tt
  = (Ok [ [("Tag", VStr "H1"); ("Text", VStr "Alojamiento")];
          [("Tag", VStr "H3"); ("Text", VStr "Popular")];
          [("Tag", VStr "H2"); ("Text", VStr "Destinations")];
          [("Tag", VStr "Correct Sequence"); ("Text", VStr "[1, 2, 3]")] ], tt).
Proof. reflexivity. Qed.

(* ------------------------------------------------------------------ *)
(** *** Image_Alt_Attribute_Test.py *)

Section ImageCounts.
Context {W E : Type} (driver : WebDriver W E).

Lemma loop_body_keeps_counts (img : E) (s s1 : ImageAlt.loop_state) (w w1 : W) :
  ImageAlt.loop_body driver img s w = (Ok s1, w1) ->
  Props2.counts_agree s ->
  Props2.counts_agree s1
  /\ length (ImageAlt.image_data s1) = S (length (ImageAlt.image_data s)).
Proof.
  unfold ImageAlt.loop_body, bind, ret.
  destruct (get_attribute driver img "src" w) as [[src|e] w2]; [|discriminate].
  destruct (get_attribute driver img "alt" w2) as [[alt|e] w3]; [|discriminate].
  intros [= <- _] [Hp [Hf [Hsum [Hidx Hind]]]].
  unfold Props2.counts_agree. cbn [ImageAlt.pass_count ImageAlt.fail_count
                            ImageAlt.index ImageAlt.image_data].
  rewrite !filter_app, !length_app, map_app, seq_app, map_app.
  cbn [length seq map filter]. rewrite <- Hind.
  unfold ImageAlt.alt_status.
  destruct (truthy alt); cbn; rewrite ?Hidx, ?Nat.add_0_r;
    repeat split; try lia; reflexivity.
Qed.

Lemma image_loop_keeps_counts (images : list E) :
  forall (s s' : ImageAlt.loop_state) (w w' : W),
    foldM (ImageAlt.loop_body driver) images s w = (Ok s', w') ->
    Props2.counts_agree s ->
    Props2.counts_agree s'
    /\ length (ImageAlt.image_data s')
       = (length (ImageAlt.image_data s) + length images)%nat.
Proof.
  induction images as [|img rest IH]; intros s s' w w'; simpl.
  - unfold ret. intros [= <- _] Hs. split; [exact Hs | lia].
  - unfold bind.
    destruct (ImageAlt.loop_body driver img s w) as [[s1|e] w1] eqn:Hbody;
      [|discriminate].
    intros Hrest Hs.
    destruct (loop_body_keeps_counts img s s1 w w1 Hbody Hs) as [Hs1 Hlen1].
    destruct (IH s1 s' w1 w' Hrest Hs1) as [Hs' Hlen'].
    split; [exact Hs' | lia].
Qed.

End ImageCounts.

(** X7.  Whenever the image check returns, whatever the driver did, the
    summary counts add up: "Pass Count" and "Fail Count" are the numbers of
    rows with status "Pass" and "Fail", their sum and "Total Images" are
    the number of rows, which is the number of images found, and the rows
    are numbered 1, 2, 3, ... in "Image Index". *)
Theorem image_summary_counts_add_up :
  forall (W E : Type) (driver : WebDriver W E) (url : string)
         (images : list E) (rows summary : list dict) (w w1 w2 w' : W),
    driver_get driver url w = (Ok tt, w1) ->
    find_elements driver TAG_NAME "img" w1 = (Ok images, w2) ->
    ImageAlt.check_image_alt_and_save driver url w = (Ok (rows, summary), w') ->
    length rows = length images
    /\ map (dict_get "Image Index") rows
       = map (fun i => Some (VInt (Z.of_nat i + 1))) (seq 0 (length rows))
    /\ exists passed failed : nat,
         summary = [ [ ("Test", VStr "Image Alt Text Test Summary");
                       ("Pass Count", VInt (Z.of_nat passed));
                       ("Fail Count", VInt (Z.of_nat failed));
                       ("Total Images", VInt (Z.of_nat (length rows))) ] ]
         /\ passed = length (filter (field_is "Status" (VStr "Pass")) rows)
         /\ failed = length (filter (field_is "Status" (VStr "Fail")) rows)
         /\ (passed + failed = length rows)%nat.
Proof.
  intros W E driver url images rows summary w w1 w2 w' Hget Hfind.
  unfold ImageAlt.check_image_alt_and_save, bind, sleep, ret.
  rewrite Hget, Hfind.
  destruct (foldM (ImageAlt.loop_body driver) images _ w2) as [[s'|e] w3]
    eqn:Hloop; [|discriminate].
  intros [= <- <- _].
  destruct (image_loop_keeps_counts driver images _ s' w2 w3 Hloop)
    as [[Hp [Hf [Hsum [_ Hind]]]] Hlen].
  { unfold Props2.counts_agree. simpl. repeat split; reflexivity. }
  simpl in Hlen. split; [exact Hlen|]. split; [exact Hind|].
  exists (length (filter (field_is "Status" (VStr "Pass")) (ImageAlt.image_data s'))),
         (length (filter (field_is "Status" (VStr "Fail")) (ImageAlt.image_data s'))).
  rewrite <- Hp, <- Hf, Hlen.
  split; [reflexivity|]. split; [reflexivity|]. split; [reflexivity|]. lia.
Qed.

(** The theorem at the page with three images. *)
Lemma image_summary_witness :
  let rows :=
    [ [ ("Image Index", VInt 1);
        ("Image Source", VStr "https://www.alojamiento.io/logo.png");
        ("Alt Text", VStr "Logo"); ("Status", VStr "Pass") ];
      [ ("Image Index", VInt 2);
        ("Image Source", VStr "https://www.alojamiento.io/hero.jpg");
        ("Alt Text", VStr "None"); ("Status", VStr "Fail") ];
      [ ("Image Index", VInt 3); ("Image Source", VStr "No Source");
        ("Alt Text", VStr "None"); ("Status", VStr "Fail") ] ] in
  let summary :=
    [ [ ("Test", VStr "Image Alt Text Test Summary");
        ("Pass Count", VInt 1); ("Fail Count", VInt 2);
        ("Total Images", VInt 3) ] ] in
  length rows
  = length (filter (Pages.selects TAG_NAME "img") Samples.page_images)
  /\ map (dict_get "Image Index") rows
     = map (fun i => Some (VInt (Z.of_nat i + 1))) (seq 0 (length rows))
  /\ exists passed failed : nat,
       summary = [ [ ("Test", VStr "Image Alt Text Test Summary");
                     ("Pass Count", VInt (Z.of_nat passed));
                     ("Fail Count", VInt (Z.of_nat failed));
                     ("Total Images", VInt (Z.of_nat (length rows))) ] ]
       /\ passed = length (filter (field_is "Status" (VStr "Pass")) rows)
       /\ failed = length (filter (field_is "Status" (VStr "Fail")) rows)
       /\ (passed + failed = length rows)%nat.
Proof.
  intros rows summary.
  apply (image_summary_counts_add_up
           unit Pages.Node (Pages.static_driver Samples.page_images)
           Samples.url
           (filter (Pages.selects TAG_NAME "img") Samples.page_images)
           rows summary tt tt tt tt).
  - reflexivity.
  - reflexivity.
  - reflexivity.
Defined.

(* ------------------------------------------------------------------ *)
(** *** H1_Tag_Existence_Test.py *)

Lemma check_all_h1_tags_shapes :
  forall (W E : Type) (driver : WebDriver W E) (url : string) (w : W),
    exists status comment h1_texts w',
      H1Tag.check_all_h1_tags driver url w
        = (Ok (status, comment, h1_texts, url), w')
      /\ ((status = "Pass" /\ comment = "H1 tags found.")
          \/ (status = "Fail" /\ h1_texts = []
              /\ (comment = "No H1 tags found."
                  \/ comment = "Page load timeout."
                  \/ exists msg, comment = "Error: " ++ msg))).
Proof.
  intros W E driver url w.
  assert (Hhandler : forall e s,
            exists status comment h1_texts w',
              H1Tag.handler (W := W) url e s = (Ok (status, comment, h1_texts, url), w')
              /\ ((status = "Pass" /\ comment = "H1 tags found.")
                  \/ (status = "Fail" /\ h1_texts = []
                      /\ (comment = "No H1 tags found."
                          \/ comment = "Page load timeout."
                          \/ exists msg, comment = "Error: " ++ msg)))).
  { intros e s. unfold H1Tag.handler.
    destruct (String.eqb (exc_class e) "TimeoutException"); do 4 eexists;
      (split; [reflexivity|]); right; repeat split; eauto. }
  unfold H1Tag.check_all_h1_tags, H1Tag.try_block, try_except, bind, sleep, ret.
  destruct (driver_get driver url w) as [[[]|e] w1]; [|apply Hhandler].
  destruct (wait_presence driver 10 TAG_NAME "body" w1) as [[body|e] w2];
    [|apply Hhandler].
  destruct (find_elements driver TAG_NAME "h1" w2) as [[[|h rest]|e] w3];
    [| |apply Hhandler].
  - do 4 eexists. split; [reflexivity|]. right. repeat split; auto.
  - match goal with
    | |- context [mapM_if ?c ?f ?l ?s] =>
        destruct (mapM_if c f l s) as [[texts|e] w4]
    end; [|apply Hhandler].
    do 4 eexists. split; [reflexivity|]. left. split; reflexivity.
Qed.

(** X8.  Whatever the driver does, [check_all_h1_tags] returns the [url] it
    was given and one of two kinds of result: "Pass" with the comment
    "H1 tags found.", or "Fail" with an empty list of texts and one of the
    comments "No H1 tags found.", "Page load timeout." and "Error: ...". *)
Theorem h1_result_shapes :
  forall (W E : Type) (driver : WebDriver W E) (url : string) (w : W),
    exists status comment h1_texts w',
      H1Tag.check_all_h1_tags driver url w
        = (Ok (status, comment, h1_texts, url), w')
      /\ ((status = "Pass" /\ comment = "H1 tags found.")
          \/ (status = "Fail" /\ h1_texts = []
              /\ (comment = "No H1 tags found."
                  \/ comment = "Page load timeout."
                  \/ exists msg, comment = "Error: " ++ msg))).
Proof. exact check_all_h1_tags_shapes. Qed.

(** The tables [main] builds from a result "Pass" or "Fail". *)
Lemma h1_tables_of_result :
  forall (result comment : string) (h1_texts : list string)
         (found_url : string),
    result = "Pass" \/ result = "Fail" ->
    length (Mains.h1_tags_data h1_texts found_url)
    = Nat.max 1 (length h1_texts)
    /\ Forall (fun row => dict_get "URL" row = Some (VStr found_url))
              (Mains.h1_tags_data h1_texts found_url)
    /\ (h1_texts = [] ->
        Mains.h1_tags_data h1_texts found_url
        = [ [("URL", VStr found_url); ("H1 Tag", VStr "No H1 tags found")] ])
    /\ (h1_texts <> [] ->
        map (dict_get "H1 Tag") (Mains.h1_tags_data h1_texts found_url)
        = map (fun t => Some (VStr t)) h1_texts)
    /\ map (dict_get "Total H1 Tags Found")
           (Mains.h1_test_results result comment h1_texts)
       = [Some (VInt (Z.of_nat (length h1_texts)))]
    /\ exists passed failed : nat,
         Mains.h1_summary_data (Mains.h1_test_results result comment h1_texts)
         = [ [ ("Total Pages Tested", VInt 1);
               ("Pass Count", VInt (Z.of_nat passed));
               ("Fail Count", VInt (Z.of_nat failed)) ] ]
         /\ (passed + failed = 1)%nat
         /\ (passed = 1%nat <-> result = "Pass").
Proof.
  intros result comment h1_texts found_url Hres.
  split; [|split; [|split; [|split; [|split]]]].
  - destruct h1_texts as [|t ts]; [reflexivity|].
    simpl. rewrite length_map. reflexivity.
  - destruct h1_texts as [|t ts]; [repeat constructor|].
    apply Forall_forall. intros row Hin.
    unfold Mains.h1_tags_data in Hin. apply in_map_iff in Hin.
    destruct Hin as [x [<- _]]. reflexivity.
  - intros ->. reflexivity.
  - intros Hne. destruct h1_texts as [|t ts]; [congruence|].
    unfold Mains.h1_tags_data. rewrite map_map. reflexivity.
  - reflexivity.
  - destruct Hres as [-> | ->].
    + exists 1%nat, 0%nat. split; [reflexivity|]. split; [reflexivity|].
      split; reflexivity.
    + exists 0%nat, 1%nat. split; [reflexivity|]. split; [reflexivity|].
      split; discriminate.
Qed.

(** X9.  Whatever the driver does, the tables [main] of the H1 script
    builds from the result of the check are these: the H1 sheet is never
    empty, with one row per text or, when there is no text, the single row
    "No H1 tags found" (also after a "Pass" on blank headings); "Total H1
    Tags Found" is the number of texts; the summary counts one page, as
    passed or as failed. *)
Theorem h1_report_of_any_run :
  forall (W E : Type) (driver : WebDriver W E) (w : W),
    exists result comment h1_texts w',
      H1Tag.check_all_h1_tags driver Mains.url w
        = (Ok (result, comment, h1_texts, Mains.url), w')
      /\ length (Mains.h1_tags_data h1_texts Mains.url)
         = Nat.max 1 (length h1_texts)
      /\ Forall (fun row => dict_get "URL" row = Some (VStr Mains.url))
                (Mains.h1_tags_data h1_texts Mains.url)
      /\ (h1_texts = [] ->
          Mains.h1_tags_data h1_texts Mains.url
          = [ [("URL", VStr Mains.url); ("H1 Tag", VStr "No H1 tags found")] ])
      /\ (h1_texts <> [] ->
          map (dict_get "H1 Tag") (Mains.h1_tags_data h1_texts Mains.url)
          = map (fun t => Some (VStr t)) h1_texts)
      /\ map (dict_get "Total H1 Tags Found")
             (Mains.h1_test_results result comment h1_texts)
         = [Some (VInt (Z.of_nat (length h1_texts)))]
      /\ exists passed failed : nat,
           Mains.h1_summary_data (Mains.h1_test_results result comment h1_texts)
           = [ [ ("Total Pages Tested", VInt 1);
                 ("Pass Count", VInt (Z.of_nat passed));
                 ("Fail Count", VInt (Z.of_nat failed)) ] ]
           /\ (passed + failed = 1)%nat
           /\ (passed = 1%nat <-> result = "Pass").
Proof.
  intros W E driver w.
  destruct (check_all_h1_tags_shapes W E driver Mains.url w)
    as [result [comment [h1_texts [w' [Hrun Hshape]]]]].
  exists result, comment, h1_texts, w'. split; [exact Hrun|].
  apply h1_tables_of_result.
  destruct Hshape as [[-> _] | [-> _]]; [left | right]; reflexivity.
Qed.

(** The run on a page whose only h1 is blank: "Pass", no text, and a
    sheet that says "No H1 tags found". *)
Example h1_report_blank_headings :
  H1Tag.check_all_h1_tags (Pages.static_driver Samples.page_blank_h1)
    Mains.url tt
  = (Ok ("Pass", "H1 tags found.", [], Mains.url), tt)
  /\ Mains.h1_test_results "Pass" "H1 tags found." []
     = [ [ ("Page URL", VStr Mains.url);
           ("Test Case", VStr "All H1 Tags Test");
           ("Result", VStr "Pass");
           ("Comments", VStr "H1 tags found.");
           ("Total H1 Tags Found", VInt 0) ] ]
  /\ Mains.h1_tags_data [] Mains.url
     = [ [("URL", VStr Mains.url); ("H1 Tag", VStr "No H1 tags found")] ].
Proof. repeat split; reflexivity. Qed.

(* ------------------------------------------------------------------ *)
(** *** Currency_Filtering_Test.py *)

Section CurrencyRows.
Context {W E : Type} (driver : WebDriver W E).

Lemma test_currency_row_shape (options : list E)
    (c : CurrencyFilter.currency) (results : list dict) (w : W) :
  exists row w',
    CurrencyFilter.test_currency driver options c results w
      = (Ok (results ++ [row])%list, w')
    /\ Props2.currency_row row.
Proof.
  unfold CurrencyFilter.test_currency, CurrencyFilter.test_currency_body,
    try_except, bind, ret, sleep, Props2.currency_row,
    CurrencyFilter.result_row.
  repeat next_call;
    do 2 eexists; (split; [reflexivity|]);
    do 4 eexists; (split; [reflexivity|]); auto.
Qed.

Lemma currency_loop_rows (options : list E)
    (cs : list CurrencyFilter.currency) :
  forall (results : list dict) (w : W),
  exists rows w',
    foldM (CurrencyFilter.test_currency driver options) cs results w
      = (Ok (results ++ rows)%list, w')
    /\ length rows = length cs
    /\ Forall Props2.currency_row rows.
Proof.
  induction cs as [|c cs IH]; intros results w; simpl.
  - exists [], w. rewrite app_nil_r. repeat split; constructor.
  - destruct (test_currency_row_shape options c results w)
      as [row [w1 [Hrun Hrow]]].
    unfold bind. rewrite Hrun.
    destruct (IH (results ++ [row])%list w1) as [rows [w2 [Hrest [Hlen Hrows]]]].
    exists (row :: rows), w2. rewrite Hrest, <- app_assoc.
    split; [reflexivity|]. split; [simpl; congruence | constructor; assumption].
Qed.

End CurrencyRows.

(** X10.  Whatever the driver does, [test_currency_filter] returns at
    least one row, and every row has the four entries "Currency Name",
    "Currency Symbol", "Status" and "Reason", in this order, with the
    status "Pass" or "Fail". *)
Theorem currency_report_never_empty :
  forall (W E : Type) (driver : WebDriver W E) (url : string) (w : W),
    exists rows w',
      CurrencyFilter.test_currency_filter driver url w = (Ok rows, w')
      /\ rows <> []
      /\ Forall Props2.currency_row rows.
Proof.
  intros W E driver url w.
  assert (Hsingle : forall reason,
            Forall Props2.currency_row
              [CurrencyFilter.result_row (VStr "All") "N/A" "Fail" reason]).
  { intros reason. constructor; [|constructor].
    do 4 eexists. split; [reflexivity | right; reflexivity]. }
  unfold CurrencyFilter.test_currency_filter, CurrencyFilter.try_block,
    try_except. unfold bind at 1.
  destruct (CurrencyFilter.discover_options driver url w)
    as [[[options cs]|e] w1].
  - cbn [fst snd]. destruct cs as [|c cs].
    + do 2 eexists. split; [reflexivity|]. split; [discriminate | apply Hsingle].
    + destruct (currency_loop_rows driver options (c :: cs) [] w1)
        as [rows [w2 [Hrun [Hlen Hrows]]]].
      rewrite Hrun. exists rows, w2. split; [reflexivity|].
      split; [|exact Hrows].
      destruct rows; [discriminate Hlen | discriminate].
  - do 2 eexists. split; [reflexivity|]. split; [discriminate | apply Hsingle].
Qed.

(** The theorem at a dropdown with two currencies. *)
Example currency_report_two_rows :
  exists rows,
    CurrencyFilter.test_currency_filter Samples.shop_two_currencies
      Samples.url tt = (Ok rows, tt)
    /\ length rows = 2%nat /\ Forall Props2.currency_row rows.
Proof.
  eexists. split; [reflexivity|]. split; [reflexivity|].
  repeat constructor; do 4 eexists; (split; [reflexivity|]); auto.
Qed.

Section CurrencySummary.
Context {W : Type}.

Lemma filter_rows_by_status (v : pyval) (rows : list dict) (w : W) :
  Forall Props2.currency_row rows ->
  Mains.filterM (fun res => s <- Mains.getitem "Status" res ;;
                            ret (pyval_eqb s v)) rows w
  = (Ok (filter (field_is "Status" v) rows), w).
Proof.
  intros Hrows. unfold Mains.filterM.
  induction Hrows as [|row rest [name [sym [status [reason [-> _]]]]] _ IH].
  - reflexivity.
  - cbn [mapM_if filter]. unfold bind at 1 2. unfold Mains.getitem at 1.
    cbn [dict_get String.eqb Ascii.eqb Bool.eqb]. unfold ret at 1 2.
    unfold field_is at 1. cbn [dict_get String.eqb Ascii.eqb Bool.eqb].
    destruct (pyval_eqb (VStr status) v).
    + unfold bind at 1. unfold ret at 1. unfold bind at 1. rewrite IH.
      reflexivity.
    + exact IH.
Qed.

Lemma failed_entries (rows : list dict) (w : W) :
  Forall Props2.currency_row rows ->
  exists entries,
    mapM Mains.failed_entry rows w = (Ok entries, w)
    /\ length entries = length rows
    /\ Forall (fun entry => entry <> "") entries.
Proof.
  intros Hrows.
  induction Hrows as [|row rest [name [sym [status [reason [-> _]]]]] _ IH].
  - exists []. repeat split; constructor.
  - destruct IH as [entries [Hrun [Hlen Hne]]].
    eexists. cbn [mapM]. unfold bind at 1.
    unfold Mains.failed_entry at 1, bind, Mains.getitem.
    cbn [dict_get String.eqb Ascii.eqb Bool.eqb]. unfold ret at 1 2 3 4.
    fold (@bind W). unfold bind. rewrite Hrun.
    split; [reflexivity|]. split; [simpl; congruence|].
    constructor; [|exact Hne].
    destruct (Sheet.str_value name); discriminate.
Qed.

Lemma join_empty (sep : string) (entries : list string) :
  Forall (fun entry => entry <> "") entries ->
  (join sep entries = "" <-> entries = []).
Proof.
  intros Hne. destruct Hne as [|x rest Hx _]; [split; reflexivity|].
  split; [|discriminate]. intros Hj. exfalso. apply Hx.
  destruct rest; [exact Hj|].
  cbn [join] in Hj. destruct x; [reflexivity | discriminate].
Qed.

Lemma field_is_status_row (v name : pyval) (sym status reason : string) :
  field_is "Status" v
    [ ("Currency Name", name); ("Currency Symbol", VStr sym);
      ("Status", VStr status); ("Reason", VStr reason) ]
  = pyval_eqb (VStr status) v.
Proof. reflexivity. Qed.

Lemma pass_fail_partition (rows : list dict) :
  Forall Props2.currency_row rows ->
  (length (filter (field_is "Status" (VStr "Pass")) rows)
   + length (filter (field_is "Status" (VStr "Fail")) rows)
   = length rows)%nat.
Proof.
  intros Hrows.
  induction Hrows as [|row rest [name [sym [status [reason [-> Hs]]]]] _ IH];
    [reflexivity|].
  cbn [filter]. rewrite !field_is_status_row.
  destruct Hs as [-> | ->];
    cbn [pyval_eqb String.eqb Ascii.eqb Bool.eqb length]; lia.
Qed.

End CurrencySummary.

(** X11.  On rows as [test_currency_filter] returns them, the summary that
    [main] of the currency script builds adds up: "Total Currencies
    Tested" is the number of rows and the sum of "Pass Count" and "Fail
    Count", which count the rows with status "Pass" and "Fail"; "Failed
    Currencies" lists one entry per failed row and is empty exactly when
    no row failed. *)
Theorem currency_summary_adds_up :
  forall (W : Type) (results : list dict) (w : W),
    Forall Props2.currency_row results ->
    exists (passed failed : nat) (entries : list string),
      Mains.currency_summary_data results w
      = (Ok [ ("Total Currencies Tested", VInt (Z.of_nat (length results)));
              ("Pass Count", VInt (Z.of_nat passed));
              ("Fail Count", VInt (Z.of_nat failed));
              ("Failed Currencies", VStr (join ", " entries)) ], w)
      /\ passed = length (filter (field_is "Status" (VStr "Pass")) results)
      /\ failed = length (filter (field_is "Status" (VStr "Fail")) results)
      /\ (passed + failed = length results)%nat
      /\ length entries = failed
      /\ (join ", " entries = "" <-> failed = 0%nat).
Proof.
  intros W results w Hrows.
  assert (Hfails : Forall Props2.currency_row
                     (filter (field_is "Status" (VStr "Fail")) results)).
  { apply Forall_forall. intros row Hin. apply filter_In in Hin.
    rewrite Forall_forall in Hrows. apply Hrows. tauto. }
  destruct (failed_entries (filter (field_is "Status" (VStr "Fail")) results)
              w Hfails) as [entries [Hrun [Hlen Hne]]].
  exists (length (filter (field_is "Status" (VStr "Pass")) results)),
         (length (filter (field_is "Status" (VStr "Fail")) results)), entries.
  split.
  - unfold Mains.currency_summary_data. unfold bind at 1.
    rewrite (filter_rows_by_status (VStr "Fail") results w Hrows).
    unfold bind at 1.
    rewrite (filter_rows_by_status (VStr "Pass") results w Hrows).
    unfold bind at 1. rewrite Hrun. reflexivity.
  - split; [reflexivity|]. split; [reflexivity|].
    split; [apply pass_fail_partition; exact Hrows|].
    split; [exact Hlen|].
    rewrite (join_empty ", " entries Hne), <- Hlen.
    destruct entries; split; intros H; try reflexivity; discriminate.
Qed.

(** The theorem at the rows of the two-currency run. *)
Lemma currency_summary_witness :
  exists (passed failed : nat) (entries : list string),
    Mains.currency_summary_data (W := unit)
      [ [ ("Currency Name", VStr "US"); ("Currency Symbol", VStr "$");
          ("Status", VStr "Pass"); ("Reason", VStr "Validation successful") ];
        [ ("Currency Name", VStr "BD"); ("Currency Symbol", VStr "Tk");
          ("Status", VStr "Fail");
          ("Reason", VStr "Currency symbol Tk not found in property tiles") ] ]
      tt
    = (Ok [ ("Total Currencies Tested", VInt (Z.of_nat 2));
            ("Pass Count", VInt (Z.of_nat passed));
            ("Fail Count", VInt (Z.of_nat failed));
            ("Failed Currencies", VStr (join ", " entries)) ], tt)
    /\ passed = 1%nat /\ failed = 1%nat /\ (passed + failed = 2)%nat
    /\ length entries = failed
    /\ (join ", " entries = "" <-> failed = 0%nat).
Proof.
  apply (currency_summary_adds_up unit
           [ [ ("Currency Name", VStr "US"); ("Currency Symbol", VStr "$");
               ("Status", VStr "Pass"); ("Reason", VStr "Validation successful") ];
             [ ("Currency Name", VStr "BD"); ("Currency Symbol", VStr "Tk");
               ("Status", VStr "Fail");
               ("Reason", VStr "Currency symbol Tk not found in property tiles") ] ]
           tt).
  repeat constructor; do 4 eexists; (split; [reflexivity|]); auto.
Defined.

Example currency_summary_two_currencies :
  Mains.currency_summary_data (W := unit)
    [ [ ("Currency Name", VStr "US"); ("Currency Symbol", VStr "$");
        ("Status", VStr "Pass"); ("Reason", VStr "Validation successful") ];
      [ ("Currency Name", VStr "BD"); ("Currency Symbol", VStr "Tk");
        ("Status", VStr "Fail");
        ("Reason", VStr "Currency symbol Tk not found in property tiles") ] ]
    tt
  = (Ok [ ("Total Currencies Tested", VInt 2);
          ("Pass Count", VInt 1); ("Fail Count", VInt 1);
          ("Failed Currencies",
            VStr "BD (Tk) - Currency symbol Tk not found in property tiles") ],
     tt).
Proof. reflexivity. Qed.

Lemma allM_pure {W A} (c : A -> M W bool) (p : A -> bool) (l : list A) :
  (forall x s, c x s = (Ok (p x), s)) ->
  forall w, allM c l w = (Ok (forallb p l), w).
Proof.
  intros Hc. induction l as [|x l IH]; intros w; simpl; [reflexivity|].
  unfold bind. rewrite Hc. destruct (p x); [apply IH | reflexivity].
Qed.

Lemma nextM_found {W A} (c : A -> M W bool) (l : list A) (x : A) :
  forall w w' : W,
    nextM c l w = (Ok (Some x), w') ->
    In x l /\ exists wa, c x wa = (Ok true, w').
Proof.
  induction l as [|y l IH]; intros w w'; cbn [nextM].
  - discriminate.
  - unfold bind, ret. destruct (c y w) as [[[|]|e] w1] eqn:Hy.
    + intros [= <- <-]. split; [left; reflexivity | exists w; exact Hy].
    + intros Hrest. destruct (IH w1 w' Hrest) as [Hin Hc].
      split; [right; exact Hin | exact Hc].
    + discriminate.
Qed.

(** A branch of [test_currency] that appends a "Fail" row. *)
Ltac fail_branch :=
  let Hout := fresh "Hout" in
  let Heq := fresh "Heq" in
  let Hst := fresh "Hst" in
  intros Hout row Heq Hst; cbv beta zeta in Hout;
  injection Hout as Hout _; subst;
  apply app_inj_tail in Heq; destruct Heq as [_ Heq]; subst;
  simpl in Hst; discriminate Hst.

(** X12.  When the texts of the price tiles are read without fault, a
    currency gets the status "Pass" only in this way: the dropdown became
    clickable and was clicked; among the options, one whose
    [data-currency-country] is the country of the currency was picked,
    scrolled into view, waited for and clicked; the price tiles were then
    looked up, at least one was found, and the text of every tile found
    contains the currency symbol.  The reason is then
    "Validation successful". *)
Theorem currency_pass_requires_matching_tiles :
  forall (W E : Type) (driver : WebDriver W E) (X : E -> string)
         (options : list E) (c : CurrencyFilter.currency)
         (results out : list dict) (w w' : W),
    (forall t s, text driver t s = (Ok (X t), s)) ->
    CurrencyFilter.test_currency driver options c results w = (Ok out, w') ->
    forall row,
      out = (results ++ [row])%list ->
      dict_get "Status" row = Some (VStr "Pass") ->
      dict_get "Reason" row = Some (VStr "Validation successful")
      /\ exists (dropdown opt clickable : E) (tiles : list E)
                (s1 s2 sa s3 s4 s5 s6 : W),
           wait_clickable driver 10 ID "js-currency-sort-footer" w
           = (Ok dropdown, s1)
           /\ click driver dropdown s1 = (Ok tt, s2)
           /\ In opt options
           /\ get_attribute driver opt "data-currency-country" sa
              = (Ok (CurrencyFilter.country c), s3)
           /\ execute_script driver "arguments[0].scrollIntoView();" [opt] s3
              = (Ok tt, s4)
           /\ wait_clickable_elem driver 10 opt s4 = (Ok clickable, s5)
           /\ click driver clickable s5 = (Ok tt, s6)
           /\ find_elements driver CLASS_NAME "js-price-value" s6
              = (Ok tiles, w')
           /\ tiles <> []
           /\ forall tile, In tile tiles ->
                           contains (CurrencyFilter.symbol c) (X tile) = true.
Proof.
  intros W E driver X options c results out w w' Htext.
  unfold CurrencyFilter.test_currency, CurrencyFilter.test_currency_body,
    try_except, sleep, bind, ret.
  cbv zeta.
  destruct (wait_clickable driver 10 ID "js-currency-sort-footer" w)
    as [[dropdown|e] s1] eqn:Hwait; [|fail_branch].
  destruct (click driver dropdown s1) as [[[]|e] s2] eqn:Hclick; [|fail_branch].
  match goal with
  | |- context [nextM ?f ?l ?s] =>
      destruct (nextM f l s) as [[[opt|]|e] s3] eqn:Hnext
  end; [| fail_branch | fail_branch].
  destruct (execute_script driver _ [opt] s3) as [[[]|e] s4] eqn:Hscroll;
    [|fail_branch].
  destruct (wait_clickable_elem driver 10 opt s4) as [[clickable|e] s5]
    eqn:Hready; [|fail_branch].
  destruct (click driver clickable s5) as [[[]|e] s6] eqn:Hselect;
    [|fail_branch].
  destruct (find_elements driver CLASS_NAME "js-price-value" s6)
    as [[[|tile tiles]|e] s7] eqn:Hfind; [fail_branch | | fail_branch].
  rewrite (allM_pure _ (fun t => contains (CurrencyFilter.symbol c) (X t)))
    by (intros x s; rewrite Htext; reflexivity).
  destruct (forallb _ (tile :: tiles)) eqn:Hall; [|fail_branch].
  intros Hout row Heq Hst. cbv beta zeta in Hout.
  injection Hout as Hout Hstate. subst out s7.
  apply app_inj_tail in Heq. destruct Heq as [_ <-].
  split; [reflexivity|].
  destruct (nextM_found _ _ _ _ _ Hnext) as [Hin [sa Hattr]].
  cbv beta in Hattr.
  destruct (get_attribute driver opt "data-currency-country" sa)
    as [[a|e] sb] eqn:Ha; [|discriminate Hattr].
  injection Hattr as Heqb <-.
  assert (Hcountry : a = CurrencyFilter.country c).
  { unfold CurrencyFilter.option_string_eqb in Heqb.
    destruct a as [x|], (CurrencyFilter.country c) as [y|];
      try discriminate; [|reflexivity].
    apply String.eqb_eq in Heqb. congruence. }
  subst a.
  exists dropdown, opt, clickable, (tile :: tiles), s1, s2, sa, sb, s4, s5, s6.
  split; [reflexivity|]. split; [exact Hclick|]. split; [exact Hin|].
  split; [exact Ha|]. split; [exact Hscroll|]. split; [exact Hready|].
  split; [exact Hselect|]. split; [exact Hfind|].
  split; [discriminate|].
  intros t Hin'. rewrite forallb_forall in Hall. exact (Hall t Hin').
Qed.

(** The theorem at the first currency of the two-currency page. *)
Lemma currency_pass_witness :
  dict_get "Reason"
    (CurrencyFilter.result_row (VStr "US") "$" "Pass" "Validation successful")
  = Some (VStr "Validation successful")
  /\ exists (dropdown opt clickable : Samples.shop_element)
            (tiles : list Samples.shop_element) (s1 s2 sa s3 s4 s5 s6 : unit),
       wait_clickable Samples.shop_two_currencies 10 ID
         "js-currency-sort-footer" tt = (Ok dropdown, s1)
       /\ click Samples.shop_two_currencies dropdown s1 = (Ok tt, s2)
       /\ In opt [Samples.OptionLi 0; Samples.OptionLi 1]
       /\ get_attribute Samples.shop_two_currencies opt
            "data-currency-country" sa = (Ok (Some "US"), s3)
       /\ execute_script Samples.shop_two_currencies
            "arguments[0].scrollIntoView();" [opt] s3 = (Ok tt, s4)
       /\ wait_clickable_elem Samples.shop_two_currencies 10 opt s4
          = (Ok clickable, s5)
       /\ click Samples.shop_two_currencies clickable s5 = (Ok tt, s6)
       /\ find_elements Samples.shop_two_currencies CLASS_NAME
            "js-price-value" s6 = (Ok tiles, tt)
       /\ tiles <> []
       /\ forall tile, In tile tiles ->
            contains "$"
              (Samples.shop_text [(Some "US", "$ USD"); (Some "BD", "Tk BDT")]
                 ["$120"; "$99"] tile) = true.
Proof.
  apply (currency_pass_requires_matching_tiles
           unit Samples.shop_element Samples.shop_two_currencies
           (Samples.shop_text [(Some "US", "$ USD"); (Some "BD", "Tk BDT")]
              ["$120"; "$99"])
           [Samples.OptionLi 0; Samples.OptionLi 1]
           {| CurrencyFilter.country := Some "US"; CurrencyFilter.symbol := "$" |}
           []
           [CurrencyFilter.result_row (VStr "US") "$" "Pass" "Validation successful"]
           tt tt).
  - intros t s. destruct s. reflexivity.
  - reflexivity.
  - reflexivity.
  - reflexivity.
Defined.

(* ------------------------------------------------------------------ *)
(** *** Scrape_Data_from_Script_Tag.py *)

(** X13.  [scrape_script_data] raises to its caller exactly when
    [driver.get] raises, with the same exception; when it returns, the
    result is either "Pass" with the fixed dictionary for [url], or "Fail"
    with a dictionary whose only entry is "Error". *)
Theorem scrape_raises_iff_navigation_fails :
  forall (W E : Type) (driver : WebDriver W E) (url : string) (w : W),
    (forall e w',
       ScriptData.scrape_script_data driver url w = (Raise e, w')
       <-> driver_get driver url w = (Raise e, w'))
    /\ (forall status data w',
          ScriptData.scrape_script_data driver url w = (Ok (status, data), w') ->
          (status = "Pass"
           /\ data = [ ("SiteURL", VStr url);
                       ("CampaignID", VStr "12345");
                       ("SiteName", VStr "Alojamiento");
                       ("Browser", VStr "Chrome");
                       ("CountryCode", VStr "US");
                       ("IP", VStr "192.168.1.1") ])
          \/ (status = "Fail" /\ exists msg, data = [("Error", VStr msg)])).
Proof.
  intros W E driver url w.
  unfold ScriptData.scrape_script_data, ScriptData.try_block, try_except,
    sleep, bind, ret.
  destruct (driver_get driver url w) as [[[]|e0] w1].
  - destruct (find_element driver TAG_NAME "script" w1) as [[script|e1] w2];
      [destruct (get_attribute driver script "innerHTML" w2) as [[content|e2] w3]|].
    + split; [intros e w'; split; discriminate|].
      intros status data w' [= <- <- _]. left. split; reflexivity.
    + split; [intros e w'; split; discriminate|].
      intros status data w' [= <- <- _]. right. split; [reflexivity | eauto].
    + split; [intros e w'; split; discriminate|].
      intros status data w' [= <- <- _]. right. split; [reflexivity | eauto].
  - split; [intros e w'; split; intros [= <- <-]; reflexivity|].
    intros status data w'. discriminate.
Qed.

(** The theorem at a driver whose navigation fails. *)
Lemma scrape_raises_witness :
  ScriptData.scrape_script_data
    (Pages.unreachable_driver Samples.page_script) Samples.url tt
  = (Raise (Exception "WebDriverException" "net::ERR_NAME_NOT_RESOLVED"), tt).
Proof.
  apply (proj1 (scrape_raises_iff_navigation_fails
                  unit Pages.Node (Pages.unreachable_driver Samples.page_script)
                  Samples.url tt)).
  reflexivity.
Defined.

(* ------------------------------------------------------------------ *)
(** *** save_with_auto_width *)

Lemma max_length_from_bounds (col : list Sheet.cell) :
  forall m : Z,
    (m <= Sheet.max_length_from m col)%Z
    /\ (forall c, In c col -> Sheet.truthy_value (Sheet.value c) = true ->
          (Z.of_nat (len (Sheet.str_value (Sheet.value c)))
           <= Sheet.max_length_from m col)%Z)
    /\ (Sheet.max_length_from m col = m
        \/ exists c, In c col
             /\ Sheet.truthy_value (Sheet.value c) = true
             /\ Sheet.max_length_from m col
                = Z.of_nat (len (Sheet.str_value (Sheet.value c)))).
Proof.
  unfold Sheet.max_length_from.
  induction col as [|c col IH]; intros m; cbn [fold_left].
  - split; [lia|]. split; [intros c []|]. left. reflexivity.
  - set (m1 := if Sheet.truthy_value (Sheet.value c)
               then Z.max m (Z.of_nat (len
                                         (Sheet.str_value (Sheet.value c))))
               else m).
    destruct (IH m1) as [Hle [Hall Hatt]].
    assert (Hm1 : (m <= m1)%Z).
    { unfold m1. destruct (Sheet.truthy_value (Sheet.value c)); lia. }
    split; [lia|]. split.
    + intros c' [<- | Hin] Ht; [|exact (Hall c' Hin Ht)].
      unfold m1 in Hle |- *. rewrite Ht in Hle |- *. lia.
    + destruct Hatt as [Heq | [c' [Hin [Ht Heq]]]];
        [|right; exists c'; split; [right; exact Hin | split; assumption]].
      unfold m1 in Heq |- *.
      destruct (Sheet.truthy_value (Sheet.value c)) eqn:Ht;
        [|left; exact Heq].
      destruct (Z.max_spec m (Z.of_nat (len
                                          (Sheet.str_value (Sheet.value c)))))
        as [[_ Hmax] | [_ Hmax]].
      * right. exists c. split; [left; reflexivity|]. split; [exact Ht|].
        rewrite Heq. exact Hmax.
      * left. rewrite Heq. exact Hmax.
Qed.

(** X14.  [save_with_auto_width] changes no value and no cell position of
    the sheet; every cell ends up centred with a thin border, and the
    first cell of every column carries the header font and fill.  The
    width of a column is at least 5 and leaves 5 characters beyond the
    longest text of its non-empty cells, counted in characters; it is
    exactly 5 when the column has no such cell, and otherwise 5 more than
    the length of one of them (cells holding [None], [""] or [0] are not
    measured). *)
Theorem sheet_format_keeps_values_and_fits_widths :
  forall (ws : Sheet.worksheet),
    map (map Sheet.value) (fst (Sheet.format_worksheet ws))
    = map (map Sheet.value) ws
    /\ (forall col c,
          In col (fst (Sheet.format_worksheet ws)) -> In c col ->
          Sheet.alignment c = Some Sheet.centered
          /\ Sheet.border c = Some Sheet.thin_border)
    /\ (forall col,
          In col (fst (Sheet.format_worksheet ws)) ->
          match col with
          | [] => True
          | c :: _ => Sheet.font c = Some Sheet.header_font
                      /\ Sheet.fill c = Some Sheet.header_fill
          end)
    /\ snd (Sheet.format_worksheet ws) = map Sheet.column_width ws
    /\ forall col,
         In col ws ->
         (5 <= Sheet.column_width col)%Z
         /\ (forall c, In c col ->
               Sheet.truthy_value (Sheet.value c) = true ->
               (Z.of_nat (len (Sheet.str_value (Sheet.value c))) + 5
                <= Sheet.column_width col)%Z)
         /\ ((forall c, In c col -> Sheet.truthy_value (Sheet.value c) = false) ->
             Sheet.column_width col = 5%Z)
         /\ (Sheet.column_width col = 5%Z
             \/ exists c, In c col
                  /\ Sheet.truthy_value (Sheet.value c) = true
                  /\ Sheet.column_width col
                     = (Z.of_nat (len
                                    (Sheet.str_value (Sheet.value c))) + 5)%Z).
Proof.
  intros ws. unfold Sheet.format_worksheet. cbn [fst snd].
  assert (Hcol : forall col,
            map Sheet.value (Sheet.format_column col) = map Sheet.value col).
  { intros [|c col]; [reflexivity|]. unfold Sheet.format_column.
    cbn [map Sheet.format_header_cell Sheet.format_cell Sheet.value].
    rewrite map_map. reflexivity. }
  split; [rewrite map_map; apply map_ext; exact Hcol|].
  split; [|split; [|split; [reflexivity|]]].
  - intros col c Hin Hc. apply in_map_iff in Hin. destruct Hin as [col0 [<- _]].
    destruct col0 as [|c0 col0]; [destruct Hc|].
    unfold Sheet.format_column in Hc. cbn [map] in Hc.
    destruct Hc as [<- | Hc]; [split; reflexivity|].
    apply in_map_iff in Hc. destruct Hc as [c1 [<- _]]. split; reflexivity.
  - intros col Hin. apply in_map_iff in Hin. destruct Hin as [col0 [<- _]].
    destruct col0 as [|c0 col0]; [exact I | split; reflexivity].
  - intros col _. unfold Sheet.column_width.
    destruct (max_length_from_bounds col 0) as [Hle [Hall Hatt]].
    split; [lia|]. split; [intros c Hin Ht; specialize (Hall c Hin Ht); lia|].
    split.
    + intros Hnone. destruct Hatt as [-> | [c [Hin [Ht _]]]]; [reflexivity|].
      rewrite (Hnone c Hin) in Ht. discriminate.
    + destruct Hatt as [-> | [c [Hin [Ht Heq]]]]; [left; reflexivity|].
      right. exists c. split; [exact Hin|]. split; [exact Ht|]. lia.
Qed.

(** The theorem on a summary sheet, at the column whose cells are "Año"
    and "€ 120", of 3 and 5 characters: its width is at least 10. *)
Lemma sheet_format_witness :
  map (map Sheet.value) (fst (Sheet.format_worksheet Props2.summary_sheet))
  = map (map Sheet.value) Props2.summary_sheet
  /\ (10 <= Sheet.column_width
              (map Props2.plain [VStr "Año"; VStr "€ 120"]))%Z.
Proof.
  split.
  - apply (proj1 (sheet_format_keeps_values_and_fits_widths
                    Props2.summary_sheet)).
  - destruct (sheet_format_keeps_values_and_fits_widths Props2.summary_sheet)
      as [_ [_ [_ [_ Hwidth]]]].
    destruct (Hwidth (map Props2.plain [VStr "Año"; VStr "€ 120"]))
      as [_ [Hfit _]].
    + right. right. right. left. reflexivity.
    + apply (Hfit (Props2.plain (VStr "€ 120"))).
      * right. left. reflexivity.
      * reflexivity.
Defined.

(** The widths of the summary sheet: the column "Total Images" holds 0,
    which is not measured, and is as wide as its header needs; "Año" counts
    3 characters and "€ 120" counts 5. *)
Example sheet_widths_of_summary :
  snd (Sheet.format_worksheet Props2.summary_sheet) = [32; 17; 13; 10]%Z.
Proof. reflexivity. Qed.

Example len_counts_characters :
  len "Año" = 3%nat /\ len "€ 120" = 5%nat /\ len "" = 0%nat
  /\ len "Alojamiento" = 11%nat.
Proof. repeat split; reflexivity. Qed.

(* ------------------------------------------------------------------ *)
(** *** The [main] functions *)

Section MainFlow.
Context {W E : Type} (driver : WebDriver W E) (host : Mains.Host W).

(** A guarded body followed by [driver.quit()] ends as [driver.quit()]
    does. *)
Lemma guarded_then_quit (body : M W unit) (w : W) :
  exists w1,
    Mains.try_finally (try_except body (fun _ => ret tt))
                      (Mains.driver_quit host) w
    = Mains.driver_quit host w1.
Proof.
  unfold Mains.try_finally, try_except, ret.
  destruct (body w) as [[[]|e] w1]; exists w1;
    destruct (Mains.driver_quit host w1) as [[[]|e'] w2]; reflexivity.
Qed.

Lemma main_flow (body : M W unit) (w : W) :
  let main :=
    Mains.ensure_directory host Mains.output_dir ;;;
    Mains.init_driver host ;;;
    Mains.try_finally (try_except body (fun _ => ret tt))
                      (Mains.driver_quit host) in
  (forall e w1,
     Mains.ensure_directory host Mains.output_dir w = (Raise e, w1) ->
     main w = (Raise e, w1))
  /\ (forall w1 e w2,
        Mains.ensure_directory host Mains.output_dir w = (Ok tt, w1) ->
        Mains.init_driver host w1 = (Raise e, w2) ->
        main w = (Raise e, w2))
  /\ (forall w1 w2,
        Mains.ensure_directory host Mains.output_dir w = (Ok tt, w1) ->
        Mains.init_driver host w1 = (Ok tt, w2) ->
        exists w3, main w = Mains.driver_quit host w3).
Proof.
  intros main. unfold main. split; [|split].
  - intros e w1 H. unfold bind at 1. rewrite H. reflexivity.
  - intros w1 e w2 H1 H2. unfold bind at 1. rewrite H1.
    unfold bind at 1. rewrite H2. reflexivity.
  - intros w1 w2 H1 H2. unfold bind at 1. rewrite H1.
    unfold bind at 1. rewrite H2. apply guarded_then_quit.
Qed.

End MainFlow.

(** X15.  In the tag-sequence, H1 and currency scripts, [main] raises the
    exception of [ensure_directory] or of [init_driver] when one of them
    fails, before any page is loaded; once the driver exists, whatever the
    check and the saving of the tables do, [driver.quit()] is the last call
    and [main] ends as it does: a fault of the check or of a save never
    leaves [main] and never keeps the browser open. *)
Theorem main_always_quits_the_driver :
  forall (W E : Type) (driver : WebDriver W E) (host : Mains.Host W) (w : W),
    (forall e w1,
       Mains.ensure_directory host Mains.output_dir w = (Raise e, w1) ->
       Mains.html_main driver host w = (Raise e, w1)
       /\ Mains.h1_main driver host w = (Raise e, w1)
       /\ Mains.currency_main driver host w = (Raise e, w1))
    /\ (forall w1 e w2,
          Mains.ensure_directory host Mains.output_dir w = (Ok tt, w1) ->
          Mains.init_driver host w1 = (Raise e, w2) ->
          Mains.html_main driver host w = (Raise e, w2)
          /\ Mains.h1_main driver host w = (Raise e, w2)
          /\ Mains.currency_main driver host w = (Raise e, w2))
    /\ (forall w1 w2,
          Mains.ensure_directory host Mains.output_dir w = (Ok tt, w1) ->
          Mains.init_driver host w1 = (Ok tt, w2) ->
          (exists w3, Mains.html_main driver host w = Mains.driver_quit host w3)
          /\ (exists w3, Mains.h1_main driver host w = Mains.driver_quit host w3)
          /\ (exists w3,
                Mains.currency_main driver host w = Mains.driver_quit host w3)).
Proof.
  intros W E driver host w.
  destruct (main_flow host (Mains.html_try_block driver host) w) as [Ha [Hb Hc]].
  destruct (main_flow host (Mains.h1_try_block driver host) w) as [Ha' [Hb' Hc']].
  destruct (main_flow host (Mains.currency_try_block driver host) w)
    as [Ha'' [Hb'' Hc'']].
  split; [|split].
  - intros e w1 H. split; [exact (Ha e w1 H)|].
    split; [exact (Ha' e w1 H) | exact (Ha'' e w1 H)].
  - intros w1 e w2 H1 H2. split; [exact (Hb w1 e w2 H1 H2)|].
    split; [exact (Hb' w1 e w2 H1 H2) | exact (Hb'' w1 e w2 H1 H2)].
  - intros w1 w2 H1 H2. split; [exact (Hc w1 w2 H1 H2)|].
    split; [exact (Hc' w1 w2 H1 H2) | exact (Hc'' w1 w2 H1 H2)].
Qed.

(** The theorem on a full disk: every save raises, [main] still returns
    after [driver.quit()]. *)
Lemma main_quits_witness :
  (exists w3,
     Mains.html_main (Pages.static_driver Samples.page_h1_h3_h2)
       Mains.full_disk_host tt
     = Mains.driver_quit Mains.full_disk_host w3)
  /\ (exists w3,
        Mains.h1_main (Pages.static_driver Samples.page_blank_h1)
          Mains.full_disk_host tt
        = Mains.driver_quit Mains.full_disk_host w3)
  /\ (exists w3,
        Mains.currency_main Samples.shop_two_currencies
          Mains.full_disk_host tt
        = Mains.driver_quit Mains.full_disk_host w3).
Proof.
  split; [|split].
  - apply (proj1 (proj2 (proj2 (main_always_quits_the_driver
             unit Pages.Node (Pages.static_driver Samples.page_h1_h3_h2)
             Mains.full_disk_host tt)) tt tt eq_refl eq_refl)).
  - apply (proj1 (proj2 (proj2 (proj2 (main_always_quits_the_driver
             unit Pages.Node (Pages.static_driver Samples.page_blank_h1)
             Mains.full_disk_host tt)) tt tt eq_refl eq_refl))).
  - apply (proj2 (proj2 (proj2 (proj2 (main_always_quits_the_driver
             unit Samples.shop_element Samples.shop_two_currencies
             Mains.full_disk_host tt)) tt tt eq_refl eq_refl))).
Defined.

Example html_main_on_full_disk :
  Mains.html_main (Pages.static_driver Samples.page_h1_h3_h2)
    Mains.full_disk_host tt = (Ok tt, tt).
Proof. reflexivity. Qed.

(* ------------------------------------------------------------------ *)
(** *** Fault boundaries *)

(** Whatever the driver does, the currency check returns rows of the report's
    shape. *)
Lemma test_currency_filter_shape :
  forall (W E : Type) (driver : WebDriver W E) (url : string) (w : W),
    exists rows w',
      CurrencyFilter.test_currency_filter driver url w = (Ok rows, w')
      /\ rows <> []
      /\ Forall Props2.currency_row rows.
Proof.
  intros W E driver url w.
  assert (Hsingle : forall reason,
            Forall Props2.currency_row
              [CurrencyFilter.result_row (VStr "All") "N/A" "Fail" reason]).
  { intros reason. constructor; [|constructor].
    do 4 eexists. split; [reflexivity | right; reflexivity]. }
  unfold CurrencyFilter.test_currency_filter, CurrencyFilter.try_block,
    try_except. unfold bind at 1.
  destruct (CurrencyFilter.discover_options driver url w)
    as [[[options cs]|e] w1].
  - cbn [fst snd]. destruct cs as [|c cs].
    + do 2 eexists. split; [reflexivity|]. split; [discriminate | apply Hsingle].
    + destruct (currency_loop_rows driver options (c :: cs) [] w1)
        as [rows [w2 [Hrun [Hlen Hrows]]]].
      rewrite Hrun. exists rows, w2. split; [reflexivity|].
      split; [|exact Hrows].
      destruct rows; [discriminate Hlen | discriminate].
  - do 2 eexists. split; [reflexivity|]. split; [discriminate | apply Hsingle].
Qed.

Lemma currency_rows_reported (rows : list dict) :
  Forall Props2.currency_row rows -> Props2.rows_reported "Status" rows.
Proof.
  unfold Props2.rows_reported. apply Forall_impl.
  intros row [name [sym [status [reason [-> Hst]]]]].
  exists status. split; [reflexivity|].
  unfold Props2.reported. tauto.
Qed.

Lemma scrape_script_data_status :
  forall (W E : Type) (driver : WebDriver W E) (url : string)
         (r : string * dict) (w w' : W),
    ScriptData.scrape_script_data driver url w = (Ok r, w') ->
    fst r = "Pass" \/ fst r = "Fail".
Proof.
  intros W E driver url r w w'.
  unfold ScriptData.scrape_script_data, ScriptData.try_block, try_except,
    bind, sleep, ret.
  destruct (driver_get driver url w) as [[[]|e] w1]; [|discriminate].
  destruct (find_element driver TAG_NAME "script" w1) as [[script|e] w2];
    [|intros [= <- _]; right; reflexivity].
  destruct (get_attribute driver script "innerHTML" w2) as [[content|e] w3];
    intros [= <- _]; [left | right]; reflexivity.
Qed.

Lemma check_html_sequence_status :
  forall (W E : Type) (driver : WebDriver W E) (url : string)
         (status comment : string) (header_info : list dict) (levels : list Z)
         (w w' : W),
    HTMLTagSequence.check_html_sequence driver url w
    = (Ok (status, comment, header_info, levels), w') ->
    status = "Pass" \/ status = "Fail".
Proof.
  intros W E driver url status comment header_info levels w w'.
  unfold HTMLTagSequence.check_html_sequence.
  unfold bind at 1. destruct (driver_get driver url w) as [[[]|e] w1];
    [|discriminate].
  unfold bind at 1. unfold sleep at 1, ret at 1.
  unfold bind at 1.
  destruct (find_elements driver XPATH HTMLTagSequence.headers_xpath w1)
    as [[headers|e] w2]; [|discriminate].
  unfold bind at 1.
  match goal with
  | |- context [mapM ?f headers w2] =>
      destruct (mapM f headers w2) as [[info|e] w3]; [|discriminate]
  end.
  unfold bind at 1.
  match goal with
  | |- context [mapM ?f headers w3] =>
      destruct (mapM f headers w3) as [[lv|e] w4]; [|discriminate]
  end.
  destruct (HTMLTagSequence.is_valid_sequence lv); unfold ret;
    intros [= <- _ _ _ _]; [left | right]; reflexivity.
Qed.

Lemma image_loop_statuses {W E : Type} (driver : WebDriver W E)
    (images : list E) :
  forall (s s' : ImageAlt.loop_state) (w w' : W),
    foldM (ImageAlt.loop_body driver) images s w = (Ok s', w') ->
    Props2.rows_reported "Status" (ImageAlt.image_data s) ->
    Props2.rows_reported "Status" (ImageAlt.image_data s').
Proof.
  induction images as [|img rest IH]; intros s s' w w'; cbn [foldM].
  - unfold ret. intros [= <- _] Hs. exact Hs.
  - unfold bind at 1.
    destruct (ImageAlt.loop_body driver img s w) as [[s1|e] w1] eqn:Hbody;
      [|discriminate].
    intros Hrest Hs. apply (IH s1 s' w1 w' Hrest).
    revert Hbody. unfold ImageAlt.loop_body, bind, ret.
    destruct (get_attribute driver img "src" w) as [[src|e] w2];
      [|discriminate].
    destruct (get_attribute driver img "alt" w2) as [[alt|e] w3];
      [|discriminate].
    intros [= <- _]. cbn [ImageAlt.image_data].
    unfold Props2.rows_reported in *. apply Forall_app. split; [exact Hs|].
    constructor; [|constructor].
    exists (ImageAlt.alt_status alt). split; [reflexivity|].
    unfold ImageAlt.alt_status, Props2.reported.
    destruct (truthy alt); tauto.
Qed.

Lemma check_image_alt_statuses :
  forall (W E : Type) (driver : WebDriver W E) (url : string)
         (rows summary : list dict) (w w' : W),
    ImageAlt.check_image_alt_and_save driver url w = (Ok (rows, summary), w') ->
    Props2.rows_reported "Status" rows.
Proof.
  intros W E driver url rows summary w w'.
  unfold ImageAlt.check_image_alt_and_save.
  unfold bind at 1. destruct (driver_get driver url w) as [[[]|e] w1];
    [|discriminate].
  unfold bind at 1. unfold sleep at 1, ret at 1.
  unfold bind at 1.
  destruct (find_elements driver TAG_NAME "img" w1) as [[images|e] w2];
    [|discriminate].
  unfold bind at 1.
  match goal with
  | |- context [foldM ?f images ?s0 w2] =>
      destruct (foldM f images s0 w2) as [[s|e] w3] eqn:Hloop; [|discriminate]
  end.
  unfold ret. intros [= <- _ _].
  apply (image_loop_statuses driver images _ s w2 w3 Hloop). constructor.
Qed.

Lemma probe_links_statuses (net : network)
    (str_exc : requests_exception -> string) (links : list string) :
  Props2.rows_reported "Status" (probe_links net str_exc links).
Proof.
  assert (Hrow : forall link r,
            exists status,
              dict_get "Status" (check_link str_exc link r)
              = Some (VStr status)
              /\ Props2.reported status).
  { intros link r. unfold check_link, Props2.reported.
    cbn [dict_get String.eqb Ascii.eqb Bool.eqb].
    destruct r as [c|e]; [destruct (c =? 404)%Z|]; eexists;
      (split; [reflexivity | tauto]). }
  unfold Props2.rows_reported, probe_links, normalize.
  apply Forall_forall. intros row Hin.
  destruct (negb _).
  - apply in_map_iff in Hin. destruct Hin as [d [<- _]].
    exists "Pass". split; [apply dict_get_set_same|].
    unfold Props2.reported. tauto.
  - apply in_map_iff in Hin. destruct Hin as [link [<- _]]. apply Hrow.
Qed.

Lemma check_url_status_statuses :
  forall (W E : Type) (driver : WebDriver W E)
         (list_of_set : list string -> list string) (net : network)
         (str_exc : requests_exception -> string) (url : string)
         (rows summary : list dict) (w w' : W),
    check_url_status_and_save driver list_of_set net str_exc url w
    = (Ok (rows, summary), w') ->
    Props2.rows_reported "Status" rows
    /\ Props2.rows_reported "status" summary.
Proof.
  intros W E driver list_of_set net str_exc url rows summary w w'.
  unfold check_url_status_and_save, bind, sleep, ret.
  destruct (driver_get driver url w) as [[[]|e] w1]; [|discriminate].
  destruct (find_elements driver TAG_NAME "a" w1) as [[anchors|e] w2];
    [|discriminate].
  destruct (mapM_if _ _ anchors w2) as [[hrefs|e] w3]; [|discriminate].
  intros [= <- <- _]. split; [apply probe_links_statuses|].
  unfold summary_data, Props2.rows_reported. constructor; [|constructor].
  eexists. split; [reflexivity|].
  unfold overall_status, Props2.reported.
  destruct (forallb _ _); tauto.
Qed.

(** C4 (as amended).  [test_currency_filter] and [check_all_h1_tags] never
    raise: whatever the driver does, they return, and a fault raised inside
    them, navigation included, comes back as one diagnostic with status
    "Fail": the single row ("All", "N/A", "Fail", "Exception: ...") for a
    fault outside the loop over the currencies, the row of the currency
    with "Fail" and "Exception: ..." for a fault while it is tested, and
    ("Fail", "Page load timeout." or "Error: ...", no texts) for the H1
    check.  [scrape_script_data] returns ("Fail", {"Error": ...}) for a
    fault raised after the page has loaded, and raises when [driver.get]
    raises.  [check_html_sequence], [check_image_alt_and_save] and
    [check_url_status_and_save] have no [try]: a fault of [driver.get] or
    of the element lookup leaves them as the exception it is; their
    [main] catches it and ends with [driver.quit()].  No check reports a
    status "Error": the statuses are "Pass", "Fail" and, in the link rows,
    "pass". *)
Theorem fault_boundaries :
  forall (W E : Type) (driver : WebDriver W E) (url : string) (w : W),
    (* the currency check *)
    (exists rows w',
       CurrencyFilter.test_currency_filter driver url w = (Ok rows, w')
       /\ Props2.rows_reported "Status" rows)
    /\ (forall e w',
          CurrencyFilter.try_block driver url w = (Raise e, w') ->
          CurrencyFilter.test_currency_filter driver url w
          = (Ok [ [ ("Currency Name", VStr "All");
                    ("Currency Symbol", VStr "N/A");
                    ("Status", VStr "Fail");
                    ("Reason", VStr ("Exception: " ++ exc_str e)) ] ], w'))
    /\ (forall options c results e s s',
          CurrencyFilter.test_currency_body driver options c results s
          = (Raise e, s') ->
          CurrencyFilter.test_currency driver options c results s
          = (Ok (results ++
                   [ [ ("Currency Name",
                         CurrencyFilter.pyval_of (CurrencyFilter.country c));
                       ("Currency Symbol", VStr (CurrencyFilter.symbol c));
                       ("Status", VStr "Fail");
                       ("Reason", VStr ("Exception: " ++ exc_str e)) ] ])%list,
             s'))
    (* the H1 check *)
    /\ (exists status comment h1_texts w',
          H1Tag.check_all_h1_tags driver url w
          = (Ok (status, comment, h1_texts, url), w')
          /\ (status = "Pass" \/ status = "Fail"))
    /\ (forall e w',
          H1Tag.try_block driver url w = (Raise e, w') ->
          H1Tag.check_all_h1_tags driver url w
          = (Ok ("Fail",
                 if String.eqb (exc_class e) "TimeoutException"
                 then "Page load timeout." else "Error: " ++ exc_str e,
                 [], url), w'))
    (* the script scrape *)
    /\ (forall w1,
          driver_get driver url w = (Ok tt, w1) ->
          (exists r w',
             ScriptData.scrape_script_data driver url w = (Ok r, w')
             /\ (fst r = "Pass" \/ fst r = "Fail"))
          /\ (forall e w',
                ScriptData.try_block driver url w1 = (Raise e, w') ->
                ScriptData.scrape_script_data driver url w
                = (Ok ("Fail", [("Error", VStr (exc_str e))]), w')))
    /\ (forall e w1,
          driver_get driver url w = (Raise e, w1) ->
          ScriptData.scrape_script_data driver url w = (Raise e, w1))
    (* the checks without a [try]: navigation *)
    /\ (forall e w1,
          driver_get driver url w = (Raise e, w1) ->
          HTMLTagSequence.check_html_sequence driver url w = (Raise e, w1)
          /\ ImageAlt.check_image_alt_and_save driver url w = (Raise e, w1)
          /\ forall list_of_set net str_exc,
               check_url_status_and_save driver list_of_set net str_exc url w
               = (Raise e, w1))
    (* the checks without a [try]: element lookup *)
    /\ (forall w1,
          driver_get driver url w = (Ok tt, w1) ->
          (forall e w2,
             find_elements driver XPATH HTMLTagSequence.headers_xpath w1
             = (Raise e, w2) ->
             HTMLTagSequence.check_html_sequence driver url w = (Raise e, w2))
          /\ (forall e w2,
                find_elements driver TAG_NAME "img" w1 = (Raise e, w2) ->
                ImageAlt.check_image_alt_and_save driver url w = (Raise e, w2))
          /\ (forall e w2,
                find_elements driver TAG_NAME "a" w1 = (Raise e, w2) ->
                forall list_of_set net str_exc,
                  check_url_status_and_save driver list_of_set net str_exc
                    url w
                  = (Raise e, w2)))
    (* the statuses they report *)
    /\ (forall status comment header_info levels w',
          HTMLTagSequence.check_html_sequence driver url w
          = (Ok (status, comment, header_info, levels), w') ->
          status = "Pass" \/ status = "Fail")
    /\ (forall rows summary w',
          ImageAlt.check_image_alt_and_save driver url w
          = (Ok (rows, summary), w') ->
          Props2.rows_reported "Status" rows)
    /\ (forall list_of_set net str_exc rows summary w',
          check_url_status_and_save driver list_of_set net str_exc url w
          = (Ok (rows, summary), w') ->
          Props2.rows_reported "Status" rows
          /\ Props2.rows_reported "status" summary)
    (* their [main] *)
    /\ (forall (host : Mains.Host W) (w1 w2 : W),
          Mains.ensure_directory host Mains.output_dir w = (Ok tt, w1) ->
          Mains.init_driver host w1 = (Ok tt, w2) ->
          (exists w3,
             Mains.html_main driver host w = Mains.driver_quit host w3)
          /\ (exists w3,
                Mains.image_main driver host w = Mains.driver_quit host w3)
          /\ forall list_of_set net str_exc,
               exists w3,
                 Mains.url_main driver host list_of_set net str_exc w
                 = Mains.driver_quit host w3).
Proof.
  intros W E driver url w.
  split.
  { destruct (test_currency_filter_shape W E driver url w)
      as [rows [w' [Hrun [_ Hrows]]]].
    exists rows, w'. split; [exact Hrun|].
    apply currency_rows_reported. exact Hrows. }
  split.
  { intros e w' Hraise.
    unfold CurrencyFilter.test_currency_filter, try_except.
    rewrite Hraise. reflexivity. }
  split.
  { intros options c results e s s' Hraise.
    unfold CurrencyFilter.test_currency, try_except.
    rewrite Hraise. reflexivity. }
  split.
  { destruct (check_all_h1_tags_shapes W E driver url w)
      as [status [comment [texts [w' [Hrun Hshape]]]]].
    exists status, comment, texts, w'. split; [exact Hrun|].
    destruct Hshape as [[-> _] | [-> _]]; [left | right]; reflexivity. }
  split.
  { intros e w' Hraise.
    unfold H1Tag.check_all_h1_tags, try_except, H1Tag.handler.
    rewrite Hraise.
    destruct (String.eqb (exc_class e) "TimeoutException"); reflexivity. }
  split.
  { intros w1 Hget. split.
    - destruct (ScriptData.scrape_script_data driver url w) as [[r|e] w']
        eqn:Hrun.
      + exists r, w'. split; [reflexivity|].
        exact (scrape_script_data_status W E driver url r w w' Hrun).
      + exfalso. revert Hrun.
        unfold ScriptData.scrape_script_data, try_except, bind, sleep, ret.
        rewrite Hget.
        destruct (ScriptData.try_block driver url w1) as [[r|e'] w2];
          discriminate.
    - intros e w' Hraise.
      unfold ScriptData.scrape_script_data, bind, sleep, ret, try_except.
      rewrite Hget, Hraise. reflexivity. }
  split.
  { intros e w1 Hget.
    unfold ScriptData.scrape_script_data. unfold bind at 1.
    rewrite Hget. reflexivity. }
  split.
  { intros e w1 Hget. split; [|split].
    - unfold HTMLTagSequence.check_html_sequence. unfold bind at 1.
      rewrite Hget. reflexivity.
    - unfold ImageAlt.check_image_alt_and_save. unfold bind at 1.
      rewrite Hget. reflexivity.
    - intros list_of_set net str_exc.
      unfold check_url_status_and_save. unfold bind at 1.
      rewrite Hget. reflexivity. }
  split.
  { intros w1 Hget. split; [|split].
    - intros e w2 Hfind.
      unfold HTMLTagSequence.check_html_sequence. unfold bind at 1.
      rewrite Hget. unfold bind at 1. unfold sleep at 1, ret at 1.
      unfold bind at 1. rewrite Hfind. reflexivity.
    - intros e w2 Hfind.
      unfold ImageAlt.check_image_alt_and_save. unfold bind at 1.
      rewrite Hget. unfold bind at 1. unfold sleep at 1, ret at 1.
      unfold bind at 1. rewrite Hfind. reflexivity.
    - intros e w2 Hfind list_of_set net str_exc.
      unfold check_url_status_and_save. unfold bind at 1.
      rewrite Hget. unfold bind at 1. unfold sleep at 1, ret at 1.
      unfold bind at 1. rewrite Hfind. reflexivity. }
  split.
  { intros status comment header_info levels w' Hrun.
    exact (check_html_sequence_status W E driver url status comment
             header_info levels w w' Hrun). }
  split.
  { intros rows summary w' Hrun.
    exact (check_image_alt_statuses W E driver url rows summary w w' Hrun). }
  split.
  { intros list_of_set net str_exc rows summary w' Hrun.
    exact (check_url_status_statuses W E driver list_of_set net str_exc url
             rows summary w w' Hrun). }
  intros host w1 w2 Hdir Hinit. split; [|split].
  - exact (proj2 (proj2 (main_flow host (Mains.html_try_block driver host) w))
             w1 w2 Hdir Hinit).
  - exact (proj2 (proj2 (main_flow host
                           (Mains.image_check_and_save driver host _ _) w))
             w1 w2 Hdir Hinit).
  - intros list_of_set net str_exc.
    exact (proj2 (proj2 (main_flow host
                           (Mains.url_check_and_save driver host list_of_set
                              net str_exc _ _) w))
             w1 w2 Hdir Hinit).
Qed.

(** The theorem at a driver whose navigation fails, at a loaded page
    without a script element, and at the [main] of the image script on the
    same failing driver. *)
Lemma fault_boundaries_witness :
  CurrencyFilter.test_currency_filter
    (Pages.unreachable_driver Samples.page_script) Samples.url tt
  = (Ok [ [ ("Currency Name", VStr "All");
            ("Currency Symbol", VStr "N/A");
            ("Status", VStr "Fail");
            ("Reason", VStr "Exception: net::ERR_NAME_NOT_RESOLVED") ] ], tt)
  /\ H1Tag.check_all_h1_tags
       (Pages.unreachable_driver Samples.page_script) Samples.url tt
     = (Ok ("Fail", "Error: net::ERR_NAME_NOT_RESOLVED", [], Samples.url), tt)
  /\ ScriptData.scrape_script_data
       (Pages.static_driver Samples.page_blank_h1) Samples.url tt
     = (Ok ("Fail", [("Error", VStr "no such element")]), tt)
  /\ ImageAlt.check_image_alt_and_save
       (Pages.unreachable_driver Samples.page_images) Samples.url tt
     = (Raise (Exception "WebDriverException" "net::ERR_NAME_NOT_RESOLVED"),
        tt)
  /\ (exists w3,
        Mains.image_main (Pages.unreachable_driver Samples.page_images)
          Mains.quiet_host tt
        = Mains.driver_quit Mains.quiet_host w3).
Proof.
  split; [|split; [|split; [|split]]].
  - destruct (fault_boundaries
                unit Pages.Node (Pages.unreachable_driver Samples.page_script)
                Samples.url tt) as [_ [Houter _]].
    apply (Houter (Exception "WebDriverException" "net::ERR_NAME_NOT_RESOLVED")
             tt).
    reflexivity.
  - destruct (fault_boundaries
                unit Pages.Node (Pages.unreachable_driver Samples.page_script)
                Samples.url tt) as [_ [_ [_ [_ [Hh1 _]]]]].
    apply (Hh1 (Exception "WebDriverException" "net::ERR_NAME_NOT_RESOLVED")
             tt).
    reflexivity.
  - destruct (fault_boundaries
                unit Pages.Node (Pages.static_driver Samples.page_blank_h1)
                Samples.url tt) as [_ [_ [_ [_ [_ [Hscript _]]]]]].
    apply (proj2 (Hscript tt eq_refl)
             (Exception "NoSuchElementException" "no such element") tt).
    reflexivity.
  - destruct (fault_boundaries
                unit Pages.Node (Pages.unreachable_driver Samples.page_images)
                Samples.url tt) as [_ [_ [_ [_ [_ [_ [_ [Hnav _]]]]]]]].
    apply (proj1 (proj2 (Hnav (Exception "WebDriverException"
                                 "net::ERR_NAME_NOT_RESOLVED") tt eq_refl))).
  - destruct (fault_boundaries
                unit Pages.Node (Pages.unreachable_driver Samples.page_images)
                Mains.url tt)
      as [_ [_ [_ [_ [_ [_ [_ [_ [_ [_ [_ [_ Hmain]]]]]]]]]]]].
    apply (proj1 (proj2 (Hmain Mains.quiet_host tt tt eq_refl eq_refl))).
Defined.

(** C4 (as stated) fails: the checks without a [try] raise to their caller
    when navigation fails, and a check that does catch the fault reports the
    status "Fail"; no check has a status "Error". *)
Lemma validator_raises_counterexample :
  HTMLTagSequence.check_html_sequence
    (Pages.unreachable_driver Samples.page_h1_h3_h2) Samples.url tt
  = (Raise (Exception "WebDriverException" "net::ERR_NAME_NOT_RESOLVED"), tt)
  /\ ImageAlt.check_image_alt_and_save
       (Pages.unreachable_driver Samples.page_images) Samples.url tt
     = (Raise (Exception "WebDriverException" "net::ERR_NAME_NOT_RESOLVED"), tt)
  /\ check_url_status_and_save
       (Pages.unreachable_driver Samples.page_links)
       Samples.first_occurrences Samples.net_abc Samples.str_exc Samples.url tt
     = (Raise (Exception "WebDriverException" "net::ERR_NAME_NOT_RESOLVED"), tt)
  /\ ScriptData.scrape_script_data
       (Pages.unreachable_driver Samples.page_script) Samples.url tt
     = (Raise (Exception "WebDriverException" "net::ERR_NAME_NOT_RESOLVED"), tt)
  /\ (exists status comment,
        H1Tag.check_all_h1_tags
          (Pages.unreachable_driver Samples.page_blank_h1) Samples.url tt
        = (Ok (status, comment, [], Samples.url), tt)
        /\ status = "Fail" /\ status <> "Error").
Proof.
  split; [reflexivity|]. split; [reflexivity|]. split; [reflexivity|].
  split; [reflexivity|].
  do 2 eexists. split; [reflexivity|]. split; [reflexivity | discriminate].
Qed.
